(** * Lead Machine (Apollo Prospector): the approval workflow, verified

    A shallow embedding of the Flask application: the SQLite storage layer
    ([storage.py]), the Slack signature check and the two HTTP handlers
    ([app.py]), the cached people search ([apollo_client.py]) and the parser
    of the generated email ([email_gen.py]).

    Conventions of the embedding.
    - A Python [str] is a [string]: a sequence of code points below 256,
      which is exactly what a WSGI header value is.
    - A call that can raise returns a [result]; a [with db_transaction()]
      block is a function of the database that leaves it unchanged when it
      raises (rollback) and returns the new database otherwise (commit).
    - [datetime] values are integers, in microseconds; [isoformat] and
      [fromisoformat] are inverse to each other on them, so the TIMESTAMP
      columns hold the integer itself.
    - The collaborators reached over the network (Apollo, Slack, the
      language model) answer through an oracle that sees the calls made so
      far; every call is appended to a log. *)

From Stdlib Require Import ZArith QArith Qabs String Ascii List Lia.
From stdpp Require Import gmap strings list fin_maps.
Import ListNotations.

Local Open Scope Z_scope.
Local Open Scope string_scope.

(** ** Python strings *)

Module Py.

(** [str.isspace] on one code point below 256. *)
Definition isspace (c : ascii) : bool :=
  let n := nat_of_ascii c in
  ((9 <=? n) && (n <=? 13) || (28 <=? n) && (n <=? 32)
   || (n =? 133) || (n =? 160))%nat.

(** The whitespace that [int()] skips around a literal: the ASCII blanks
    and, once a non-ASCII string is normalised, U+0085 and U+00A0. *)
Definition int_space (c : ascii) : bool :=
  let n := nat_of_ascii c in
  ((9 <=? n) && (n <=? 13) || (n =? 32) || (n =? 133) || (n =? 160))%nat.

(** Dropping the leading characters that satisfy [p]. *)
Fixpoint lstrip_by (p : ascii -> bool) (s : string) : string :=
  match s with
  | EmptyString => EmptyString
  | String c t => if p c then lstrip_by p t else s
  end.

(** Dropping the trailing characters that satisfy [p]. *)
Fixpoint rstrip_by (p : ascii -> bool) (s : string) : string :=
  match s with
  | EmptyString => EmptyString
  | String c t =>
      match rstrip_by p t with
      | EmptyString => if p c then EmptyString else String c EmptyString
      | t' => String c t'
      end
  end.

Definition strip_by (p : ascii -> bool) (s : string) : string :=
  rstrip_by p (lstrip_by p s).

(** [s.strip()] *)
Definition strip (s : string) : string := strip_by isspace s.

Definition newline : ascii := ascii_of_nat 10.

(** [s.split('\n')]: never the empty list. *)
Fixpoint split_lines (s : string) : list string :=
  match s with
  | EmptyString => [EmptyString]
  | String c t =>
      if Ascii.eqb c newline then EmptyString :: split_lines t
      else match split_lines t with
           | l :: ls => String c l :: ls
           | [] => [String c EmptyString]
           end
  end.

(** ['\n'.join(l)] *)
Definition join_lines (l : list string) : string :=
  String.concat (String newline EmptyString) l.

(** [s.startswith(p)] *)
Definition startswith (s p : string) : bool := String.prefix p s.

(** [s[:n]] *)
Fixpoint take (n : nat) (s : string) : string :=
  match n, s with
  | S k, String c t => String c (take k t)
  | _, _ => EmptyString
  end.

(** [s.replace(old, new)] for a non-empty [old]: occurrences are replaced
    from the left and do not overlap. [skip] counts the characters of an
    occurrence that are still to be dropped. *)
Fixpoint replace_from (old new : string) (skip : nat) (s : string) : string :=
  match s with
  | EmptyString => EmptyString
  | String c t =>
      match skip with
      | S k => replace_from old new k t
      | O =>
          if String.prefix old s
          then new ++ replace_from old new (String.length old - 1) t
          else String c (replace_from old new 0 t)
      end
  end.

Definition replace (s old new : string) : string := replace_from old new 0 s.

(** Truth value of a [str]: the empty string is false. *)
Definition truthy (s : string) : bool :=
  match s with EmptyString => false | _ => true end.

(** Truth value of an [Optional[str]]: [None] and [""] are false. *)
Definition truthy_opt (o : option string) : bool :=
  match o with Some s => truthy s | None => false end.

(** [s.split(" ", 1)]: the text before the first space and, when there is
    a space, the text after it. *)
Fixpoint split_once_space (s : string) : string * option string :=
  match s with
  | EmptyString => (EmptyString, None)
  | String c t =>
      if Ascii.eqb c " " then (EmptyString, Some t)
      else let '(a, b) := split_once_space t in (String c a, b)
  end.

Definition is_digit (c : ascii) : bool :=
  let n := nat_of_ascii c in ((48 <=? n) && (n <=? 57))%nat.

Definition digit_value (c : ascii) : Z := Z.of_nat (nat_of_ascii c) - 48.

(** The digits of a base-10 literal: at least one digit, and single
    underscores only between two digits. [prev] tells whether the
    character just read was a digit. *)
Fixpoint parse_digits (acc : Z) (prev : bool) (s : string) : option Z :=
  match s with
  | EmptyString => if prev then Some acc else None
  | String c t =>
      if is_digit c then parse_digits (10 * acc + digit_value c) true t
      else if Ascii.eqb c "_" then
        if prev then parse_digits acc false t else None
      else None
  end.

(** The number of digits in a string. *)
Fixpoint count_digits (s : string) : nat :=
  match s with
  | EmptyString => O
  | String c t => ((if is_digit c then 1 else 0) + count_digits t)%nat
  end.

(** [sys.get_int_max_str_digits()]: [int()] refuses a literal with more
    digits, leading zeros included. *)
Definition int_max_str_digits : nat := 4300.

(** [int(s)] in base 10: [None] stands for [ValueError]. *)
Definition int (s : string) : option Z :=
  if (int_max_str_digits <? count_digits (strip_by int_space s))%nat
  then None
  else
    match strip_by int_space s with
    | String "+" t => parse_digits 0 false t
    | String "-" t => Z.opp <$> parse_digits 0 false t
    | t => parse_digits 0 false t
    end.

(** Whether every code point is below 128. *)
Fixpoint isascii (s : string) : bool :=
  match s with
  | EmptyString => true
  | String c t => (nat_of_ascii c <? 128)%nat && isascii t
  end.

End Py.

(** ** Words for statements about text

    Notions that the statements below use to speak of a text without the
    functions that compute on it. *)

(** Every character of the string satisfies [p]. *)
Fixpoint every (p : ascii -> bool) (s : string) : bool :=
  match s with
  | EmptyString => true
  | String c t => p c && every p t
  end.

(** Digits, with single underscores between digits only. *)
Inductive digit_groups : string -> Prop :=
| digit_alone (c : ascii) :
    Py.is_digit c = true -> digit_groups (String c "")
| digit_then_digits (c : ascii) (s : string) :
    Py.is_digit c = true -> digit_groups s -> digit_groups (String c s)
| digit_then_underscore (c : ascii) (s : string) :
    Py.is_digit c = true -> digit_groups s ->
    digit_groups (String c (String "_" s)).

(** A base-10 integer literal: blanks, an optional sign, then digits in
    which single underscores may separate two digits, blanks again, and no
    more than [int_max_str_digits] digits. *)
Definition int_literal (v : string) : Prop :=
  exists lead sign body trail,
    v = lead ++ sign ++ body ++ trail
    /\ every Py.int_space lead = true
    /\ every Py.int_space trail = true
    /\ (sign = "" \/ sign = "+" \/ sign = "-")
    /\ digit_groups body
    /\ (Py.count_digits body <= Py.int_max_str_digits)%nat.

(** [s.isdecimal()] for code points below 256: a non-empty string of
    digits. *)
Definition isdecimal (s : string) : bool :=
  match s with
  | EmptyString => false
  | _ => every Py.is_digit s
  end.

(** [b] is the text from the start of a line of [s] on: all of [s], or
    what follows one of its newlines. *)
Definition line_start (s b : string) : Prop :=
  s = b \/ exists a, s = a ++ String Py.newline b.

(** The same texts, computed: [s] itself and what follows each of its
    newlines. *)
Fixpoint line_starts_from (s : string) : list string :=
  match s with
  | EmptyString => []
  | String c t =>
      if Ascii.eqb c Py.newline then t :: line_starts_from t
      else line_starts_from t
  end.

Definition line_starts (s : string) : list string :=
  s :: line_starts_from s.

(** No white space at either end. *)
Definition trimmed (s : string) : Prop :=
  s = ""
  \/ ((exists c t, s = String c t /\ Py.isspace c = false)
      /\ (exists t c, s = t ++ String c "" /\ Py.isspace c = false)).

(** No newline. *)
Definition one_line (s : string) : Prop :=
  every (fun c => negb (Ascii.eqb c Py.newline)) s = true.

(** ** email_gen.py: the parser of the generated email *)

(** The three variables of the loop of [_parse_email_response]. *)
Record parse_state := {
  ps_subject : string;
  ps_body_lines : list string;
  ps_in_body : bool
}.

Definition parse_init : parse_state :=
  {| ps_subject := ""; ps_body_lines := []; ps_in_body := false |}.

(** One iteration of [for line in lines]. *)
Definition parse_line (st : parse_state) (line : string) : parse_state :=
  if Py.startswith line "SUBJECT:" then
    {| ps_subject := Py.strip (Py.replace line "SUBJECT:" "");
       ps_body_lines := ps_body_lines st;
       ps_in_body := ps_in_body st |}
  else if Py.startswith line "BODY:" then
    {| ps_subject := ps_subject st;
       ps_body_lines := ps_body_lines st;
       ps_in_body := true |}
  else if ps_in_body st then
    {| ps_subject := ps_subject st;
       ps_body_lines := List.app (ps_body_lines st) [line];
       ps_in_body := ps_in_body st |}
  else st.

(** [lines = response.strip().split('\n')] *)
Definition response_lines (response : string) : list string :=
  Py.split_lines (Py.strip response).

Definition _parse_email_response (response : string) : string * string :=
  let lines := response_lines response in
  let st := fold_left parse_line lines parse_init in
  let subject := ps_subject st in
  let body := Py.strip (Py.join_lines (ps_body_lines st)) in
  if negb (Py.truthy subject) || negb (Py.truthy body) then
    let subject :=
      if negb (Py.truthy subject)
      then match lines with
           | first :: _ => Py.take 50 first
           | [] => subject
           end
      else subject in
    let body := if negb (Py.truthy body) then response else body in
    (subject, body)
  else (subject, body).


(** ** Exceptions and results *)

(** The exception classes the handlers tell apart. [ValueError] stands for
    the class and its subclasses (pydantic's [ValidationError],
    [json.JSONDecodeError]): [except ValueError] catches them all. *)
Inductive exn_class :=
| ValueError
| TypeError
| OverflowError
| IntegrityError
| SlackApiError
| OtherException.

Record exn := { exn_kind : exn_class; exn_message : string }.

Inductive result (A : Type) :=
| Return (a : A)
| Raise (e : exn).
Arguments Return {A} a.
Arguments Raise {A} e.

Definition is_ValueError (e : exn) : bool :=
  match exn_kind e with ValueError => true | _ => false end.

Definition is_SlackApiError (e : exn) : bool :=
  match exn_kind e with SlackApiError => true | _ => false end.

(** ** schema.py *)

Module ApolloContact.

Record t := {
  id : string;
  first_name : option string;
  last_name : option string;
  name : option string;
  title : option string;
  email : option string;
  linkedin_url : option string;
  organization_name : option string
}.

(** [x or y] on optional strings. *)
Definition or_else (x y : option string) : option string :=
  if Py.truthy_opt x then x else y.

Definition display_name (c : t) : string :=
  if Py.truthy_opt (name c) then default "" (name c)
  else if Py.truthy_opt (first_name c) && Py.truthy_opt (last_name c)
  then default "" (first_name c) ++ " " ++ default "" (last_name c)
  else default "" (or_else (or_else (first_name c) (last_name c))
                           (Some "Unknown")).

End ApolloContact.

Module RepoRadarPayload.

(** A validated payload ([metadata] is read nowhere and left out). *)
Record t := {
  company : string;
  domain : string;
  signal_type : string;
  signal_summary : string;
  languages : option (list string);
  author : option string;
  url : option string
}.

End RepoRadarPayload.

Module ApprovalRequest.

Record t := {
  id : string;
  company : string;
  domain : string;
  signal_summary : string;
  contact_id : string;
  contact_name : string;
  contact_title : option string;
  contact_email : option string;
  personalized_subject : string;
  personalized_email : string;
  i18n_signals : string;
  slack_message_ts : option string;
  status : string;
  created_at : option Z
}.

End ApprovalRequest.

(** ** config.py *)

Record Config := {
  APOLLO_SEQUENCE_ID : string;
  SLACK_SIGNING_SECRET : string;
  AI_PROVIDER : string;
  CACHE_EXPIRY_DAYS : Z
}.

(** ** storage.py: the two tables *)

(** A row of [company_cache], keyed by [domain]. *)
Record cache_row := {
  contacts_json : string;
  fetched_at : Z
}.

(** A row of [approval_queue]: the columns other than the primary key
    [id], which is the key of the table. *)
Module QueueRow.

Record t := {
  company : string;
  domain : string;
  signal_summary : string;
  contact_id : string;
  contact_name : string;
  contact_title : option string;
  contact_email : option string;
  personalized_subject : string;
  personalized_email : string;
  i18n_signals : string;
  slack_message_ts : option string;
  status : string;
  created_at : Z;
  updated_at : Z
}.

(** The row that [INSERT] writes for a request: [created_at] is the time
    of the call and [updated_at] takes its column default, the time of
    the insertion. *)
Definition of_request (now : Z) (r : ApprovalRequest.t) : t :=
  {| company := ApprovalRequest.company r;
     domain := ApprovalRequest.domain r;
     signal_summary := ApprovalRequest.signal_summary r;
     contact_id := ApprovalRequest.contact_id r;
     contact_name := ApprovalRequest.contact_name r;
     contact_title := ApprovalRequest.contact_title r;
     contact_email := ApprovalRequest.contact_email r;
     personalized_subject := ApprovalRequest.personalized_subject r;
     personalized_email := ApprovalRequest.personalized_email r;
     i18n_signals := ApprovalRequest.i18n_signals r;
     slack_message_ts := ApprovalRequest.slack_message_ts r;
     status := ApprovalRequest.status r;
     created_at := now;
     updated_at := now |}.

(** The request built from the fetched row with primary key [i]; the
    model ignores the column [updated_at], which is not one of its
    fields. *)
Definition to_request (i : string) (r : t) : ApprovalRequest.t :=
  {| ApprovalRequest.id := i;
     ApprovalRequest.company := company r;
     ApprovalRequest.domain := domain r;
     ApprovalRequest.signal_summary := signal_summary r;
     ApprovalRequest.contact_id := contact_id r;
     ApprovalRequest.contact_name := contact_name r;
     ApprovalRequest.contact_title := contact_title r;
     ApprovalRequest.contact_email := contact_email r;
     ApprovalRequest.personalized_subject := personalized_subject r;
     ApprovalRequest.personalized_email := personalized_email r;
     ApprovalRequest.i18n_signals := i18n_signals r;
     ApprovalRequest.slack_message_ts := slack_message_ts r;
     ApprovalRequest.status := status r;
     ApprovalRequest.created_at := Some (created_at r) |}.

(** [SET status = ?, updated_at = ?] *)
Definition set_status (now : Z) (st : string) (r : t) : t :=
  {| company := company r; domain := domain r;
     signal_summary := signal_summary r; contact_id := contact_id r;
     contact_name := contact_name r; contact_title := contact_title r;
     contact_email := contact_email r;
     personalized_subject := personalized_subject r;
     personalized_email := personalized_email r;
     i18n_signals := i18n_signals r;
     slack_message_ts := slack_message_ts r;
     status := st; created_at := created_at r; updated_at := now |}.

(** [SET status = ?, slack_message_ts = ?, updated_at = ?] *)
Definition set_status_ts (now : Z) (st : string) (ts : option string)
    (r : t) : t :=
  {| company := company r; domain := domain r;
     signal_summary := signal_summary r; contact_id := contact_id r;
     contact_name := contact_name r; contact_title := contact_title r;
     contact_email := contact_email r;
     personalized_subject := personalized_subject r;
     personalized_email := personalized_email r;
     i18n_signals := i18n_signals r;
     slack_message_ts := ts;
     status := st; created_at := created_at r; updated_at := now |}.

(** [SET personalized_subject = ?, personalized_email = ?, updated_at = ?] *)
Definition set_email (now : Z) (subject body : string) (r : t) : t :=
  {| company := company r; domain := domain r;
     signal_summary := signal_summary r; contact_id := contact_id r;
     contact_name := contact_name r; contact_title := contact_title r;
     contact_email := contact_email r;
     personalized_subject := subject;
     personalized_email := body;
     i18n_signals := i18n_signals r;
     slack_message_ts := slack_message_ts r;
     status := status r; created_at := created_at r; updated_at := now |}.

End QueueRow.

Record db := {
  company_cache : gmap string cache_row;
  approval_queue : gmap string QueueRow.t
}.

Definition empty_db : db :=
  {| company_cache := ∅; approval_queue := ∅ |}.

Definition set_company_cache (c : gmap string cache_row) (d : db) : db :=
  {| company_cache := c; approval_queue := approval_queue d |}.

Definition set_approval_queue (q : gmap string QueueRow.t) (d : db) : db :=
  {| company_cache := company_cache d; approval_queue := q |}.

(** [timedelta(days=n)], in microseconds: [OverflowError] when the
    magnitude of [n] exceeds 999999999. *)
Definition timedelta_days (n : Z) : result Z :=
  if (Z.abs n <=? 999999999)%Z then Return (n * 86400000000)%Z
  else Raise {| exn_kind := OverflowError;
                exn_message := "days; must have magnitude <= 999999999" |}.

(** The status of the stored request [request_id], if there is one. *)
Definition status_of (request_id : string) (d : db) : option string :=
  QueueRow.status <$> approval_queue d !! request_id.

(** ** The collaborators reached over the network *)

(** The keyword arguments of [ApolloClient.create_contact]. *)
Record create_contact_args := {
  cc_email : option string;
  cc_first_name : string;
  cc_last_name : string;
  cc_organization_name : string;
  cc_title : option string;
  cc_custom_fields : list (string * string)
}.

(** The two cards [SlackBot] can replace a message with. *)
Inductive card := CardApproved | CardSkipped.

(** One request sent to a collaborator. *)
Inductive ext_call :=
| ApolloSearchPeople (domain : string)
| ApolloCreateContact (args : create_contact_args)
| ApolloAddToSequence (contact_id sequence_id : string)
| SlackPostMessage (request : ApprovalRequest.t)
| SlackChatUpdate (channel ts : option string) (c : card)
                  (request : ApprovalRequest.t)
| GenerateEmail (provider : string) (payload : RepoRadarPayload.t)
                (contact : ApolloContact.t).

(** The CRM Commit Client is Apollo's contact creation and sequence
    enrollment. *)
Definition is_crm_commit (c : ext_call) : bool :=
  match c with
  | ApolloCreateContact _ | ApolloAddToSequence _ _ => true
  | _ => false
  end.

Definition is_create_contact (c : ext_call) : bool :=
  match c with ApolloCreateContact _ => true | _ => false end.

(** The world outside the process: the two clocks, read by the number of
    readings so far, and the answer of each collaborator given the calls
    made so far. The answer of the contact creation is
    [response.get("contact", {}).get("id")]; an answer on which that
    expression raises is a [Raise]. *)
Record Env := {
  datetime_now : nat -> Z;
  time_time : nat -> Q;
  mixed_people_search :
    list ext_call -> string -> result (list ApolloContact.t);
  contacts_create :
    list ext_call -> create_contact_args -> result (option string);
  add_contact_ids : list ext_call -> string -> string -> result unit;
  chat_postMessage : list ext_call -> ApprovalRequest.t -> result string;
  chat_update :
    list ext_call -> option string -> option string -> card ->
    ApprovalRequest.t -> result unit;
  generate_text :
    list ext_call -> string -> RepoRadarPayload.t -> ApolloContact.t ->
    result string
}.

(** ** The state of the system and its monad *)

Record sys := {
  store : db;
  calls : list ext_call;
  ticks : nat
}.

Definition initial_sys : sys :=
  {| store := empty_db; calls := []; ticks := O |}.

(** A computation reads and writes the system and returns or raises; what
    it did before raising stays done. *)
Definition M (A : Type) : Type := sys -> result A * sys.

Definition ret {A} (a : A) : M A := fun s => (Return a, s).

Definition raise {A} (e : exn) : M A := fun s => (Raise e, s).

Definition bind {A B} (m : M A) (k : A -> M B) : M B :=
  fun s =>
    match m s with
    | (Return a, s') => k a s'
    | (Raise e, s') => (Raise e, s')
    end.

(** [try: m  except Exception as e: h e] *)
Definition try_except {A} (m : M A) (h : exn -> M A) : M A :=
  fun s =>
    match m s with
    | (Return a, s') => (Return a, s')
    | (Raise e, s') => h e s'
    end.

Definition lift {A} (r : result A) : M A := fun s => (r, s).

Declare Scope M_scope.
Delimit Scope M_scope with M.
Notation "x <- m ;; k" := (bind m (fun x => k))
  (at level 100, m at next level, right associativity) : M_scope.
Notation "m1 ;;; m2" := (bind m1 (fun _ => m2))
  (at level 100, right associativity) : M_scope.

(** One [with db_transaction()] block that reads [datetime.now()]. *)
Definition transaction {A} (E : Env) (f : Z -> db -> result A * db) : M A :=
  fun s =>
    let '(r, d) := f (datetime_now E (ticks s)) (store s) in
    (r, {| store := d; calls := calls s; ticks := S (ticks s) |}).

(** One [with db_transaction()] block that does not read the clock. *)
Definition query {A} (f : db -> result A * db) : M A :=
  fun s =>
    let '(r, d) := f (store s) in
    (r, {| store := d; calls := calls s; ticks := ticks s |}).

(** One request to a collaborator: logged, then answered. *)
Definition request_to {A} (c : ext_call) (answer : list ext_call -> result A)
  : M A :=
  fun s =>
    (answer (calls s),
     {| store := store s; calls := calls s ++ [c]; ticks := ticks s |}).

(** ** HTTP *)

Record http_response := {
  body : list (string * string);
  status_code : Z
}.

Definition jsonify (b : list (string * string)) (code : Z) : http_response :=
  {| body := b; status_code := code |}.

(** The fields [handle_slack_interactions] reads in the decoded form
    payload. *)
Record interaction := {
  action_id : option string;
  value : option string;
  channel_id : option string;
  message_ts : option string
}.

(** A request to [/slack/interactions]: the two headers, the raw body and
    what decoding the form payload gives (a [Raise] when [json.loads] or
    one of the accesses raises). *)
Record slack_request := {
  X_Slack_Request_Timestamp : option string;
  X_Slack_Signature : option string;
  get_data : string;
  form_payload : result interaction
}.

(** [float(n)] for an integer [n]: [OverflowError] from [2^1024 - 2^970]
    on, the first integer that rounds out of the range of a double. Within
    the range the arithmetic on floats is taken as exact. *)
Definition float_of_int (n : Z) : result Q :=
  if (Z.abs n <? 2 ^ 1024 - 2 ^ 970)%Z then Return (inject_Z n)
  else Raise {| exn_kind := OverflowError;
                exn_message := "int too large to convert to float" |}.

(** [hmac.compare_digest] on two [str]. *)
Definition compare_digest (a b : string) : result bool :=
  if Py.isascii a && Py.isascii b then Return (String.eqb a b)
  else Raise {| exn_kind := TypeError;
                exn_message :=
                  "comparing strings with non-ASCII characters is not supported" |}.

(** ** A JSON codec for contact lists

    The text [json.dumps] writes for a list of contact dictionaries, and a
    reader of that text. The program is stated for any codec; this one
    serves the examples. *)

Module Json.

Definition quote : ascii := ascii_of_nat 34.
Definition backslash : ascii := ascii_of_nat 92.

Definition hex_digit (n : nat) : ascii :=
  if (n <? 10)%nat then ascii_of_nat (48 + n) else ascii_of_nat (87 + n).

(** One character of a string literal, with [ensure_ascii]. *)
Definition escape_char (c : ascii) : string :=
  let n := nat_of_ascii c in
  if Ascii.eqb c quote then String backslash (String quote "")
  else if Ascii.eqb c backslash then String backslash (String backslash "")
  else if (n =? 10)%nat then String backslash "n"
  else if (n =? 13)%nat then String backslash "r"
  else if (n =? 9)%nat then String backslash "t"
  else if (n =? 8)%nat then String backslash "b"
  else if (n =? 12)%nat then String backslash "f"
  else if ((32 <=? n) && (n <=? 126))%nat then String c ""
  else String backslash
         (String "u" (String "0" (String "0"
            (String (hex_digit (n / 16)) (String (hex_digit (n mod 16)) ""))))).

Fixpoint escape (s : string) : string :=
  match s with
  | EmptyString => EmptyString
  | String c t => escape_char c ++ escape t
  end.

Definition dump_string (s : string) : string :=
  String quote (escape s ++ String quote "").

Definition dump_optional (o : option string) : string :=
  match o with Some s => dump_string s | None => "null" end.

Definition dump_member (key : string) (v : option string) : string :=
  dump_string key ++ ": " ++ dump_optional v.

Definition dump_contact (c : ApolloContact.t) : string :=
  "{" ++ String.concat ", "
           [dump_member "id" (Some (ApolloContact.id c));
            dump_member "first_name" (ApolloContact.first_name c);
            dump_member "last_name" (ApolloContact.last_name c);
            dump_member "name" (ApolloContact.name c);
            dump_member "title" (ApolloContact.title c);
            dump_member "email" (ApolloContact.email c);
            dump_member "linkedin_url" (ApolloContact.linkedin_url c);
            dump_member "organization_name"
              (ApolloContact.organization_name c)]
      ++ "}".

Definition dumps (l : list ApolloContact.t) : string :=
  "[" ++ String.concat ", " (List.map dump_contact l) ++ "]".

Definition hex_value (c : ascii) : option nat :=
  let n := nat_of_ascii c in
  if ((48 <=? n) && (n <=? 57))%nat then Some (n - 48)%nat
  else if ((97 <=? n) && (n <=? 102))%nat then Some (n - 87)%nat
  else if ((65 <=? n) && (n <=? 70))%nat then Some (n - 55)%nat
  else None.

(** The code point of [\uXXXX], when it is below 256. *)
Definition code_point (a b c d : ascii) : option ascii :=
  match hex_value a, hex_value b, hex_value c, hex_value d with
  | Some 0%nat, Some 0%nat, Some x, Some y => Some (ascii_of_nat (16 * x + y))
  | _, _, _, _ => None
  end.

Definition unescape (e : ascii) : option ascii :=
  if Ascii.eqb e quote then Some quote
  else if Ascii.eqb e backslash then Some backslash
  else if Ascii.eqb e "/" then Some "/"%char
  else if Ascii.eqb e "n" then Some (ascii_of_nat 10)
  else if Ascii.eqb e "r" then Some (ascii_of_nat 13)
  else if Ascii.eqb e "t" then Some (ascii_of_nat 9)
  else if Ascii.eqb e "b" then Some (ascii_of_nat 8)
  else if Ascii.eqb e "f" then Some (ascii_of_nat 12)
  else None.

(** The rest of a string literal after its opening quote: the string it
    denotes and the text that follows the closing quote. *)
Fixpoint load_string (s : string) : option (string * string) :=
  match s with
  | EmptyString => None
  | String c t =>
      if Ascii.eqb c quote then Some (EmptyString, t)
      else if Ascii.eqb c backslash then
        match t with
        | String "u" (String h1 (String h2 (String h3 (String h4 t')))) =>
            match code_point h1 h2 h3 h4, load_string t' with
            | Some x, Some (v, rest) => Some (String x v, rest)
            | _, _ => None
            end
        | String e t' =>
            match unescape e, load_string t' with
            | Some x, Some (v, rest) => Some (String x v, rest)
            | _, _ => None
            end
        | EmptyString => None
        end
      else if (nat_of_ascii c <? 32)%nat then None
      else match load_string t with
           | Some (v, rest) => Some (String c v, rest)
           | None => None
           end
  end.

Definition blank (c : ascii) : bool :=
  let n := nat_of_ascii c in
  ((n =? 32) || (n =? 9) || (n =? 10) || (n =? 13))%nat.

Definition skip (s : string) : string := Py.lstrip_by blank s.

(** [null] or a string literal. *)
Definition load_optional (s : string) : option (option string * string) :=
  match s with
  | String "n" (String "u" (String "l" (String "l" rest))) => Some (None, rest)
  | String c t =>
      if Ascii.eqb c quote
      then match load_string t with
           | Some (v, rest) => Some (Some v, rest)
           | None => None
           end
      else None
  | EmptyString => None
  end.

(** One member [key: value] of an object. *)
Definition load_member (s : string)
  : option ((string * option string) * string) :=
  match skip s with
  | String c t =>
      if Ascii.eqb c quote then
        match load_string t with
        | Some (key, rest) =>
            match skip rest with
            | String ":" rest' =>
                match load_optional (skip rest') with
                | Some (v, rest'') => Some ((key, v), rest'')
                | None => None
                end
            | _ => None
            end
        | None => None
        end
      else None
  | EmptyString => None
  end.

(** The members of an object after its opening brace, at most [fuel] of
    them. *)
Fixpoint load_members (fuel : nat) (s : string)
  : option (list (string * option string) * string) :=
  match fuel with
  | O => None
  | S k =>
      match load_member s with
      | Some (m, rest) =>
          match skip rest with
          | String "," rest' =>
              match load_members k rest' with
              | Some (ms, rest'') => Some (m :: ms, rest'')
              | None => None
              end
          | String "}" rest' => Some ([m], rest')
          | _ => None
          end
      | None => None
      end
  end.

Fixpoint member (key : string) (ms : list (string * option string))
  : option (option string) :=
  match ms with
  | [] => None
  | (k, v) :: rest => if String.eqb k key then Some v else member key rest
  end.

(** The contact a dictionary denotes: [id] must be a string, a missing
    optional field is [None]. *)
Definition contact_of (ms : list (string * option string))
  : option ApolloContact.t :=
  match member "id" ms with
  | Some (Some i) =>
      let field key := default None (member key ms) in
      Some {| ApolloContact.id := i;
              ApolloContact.first_name := field "first_name";
              ApolloContact.last_name := field "last_name";
              ApolloContact.name := field "name";
              ApolloContact.title := field "title";
              ApolloContact.email := field "email";
              ApolloContact.linkedin_url := field "linkedin_url";
              ApolloContact.organization_name := field "organization_name" |}
  | _ => None
  end.

(** The objects of an array after its opening bracket. *)
Fixpoint load_contacts (fuel : nat) (s : string)
  : option (list ApolloContact.t * string) :=
  match fuel with
  | O => None
  | S k =>
      match skip s with
      | String "{" rest =>
          match load_members (String.length rest) rest with
          | Some (ms, rest') =>
              match contact_of ms, skip rest' with
              | Some c, String "," rest'' =>
                  match load_contacts k rest'' with
                  | Some (cs, rest3) => Some (c :: cs, rest3)
                  | None => None
                  end
              | Some c, String "]" rest'' => Some ([c], rest'')
              | _, _ => None
              end
          | None => None
          end
      | _ => None
      end
  end.

Definition decode_error : exn :=
  {| exn_kind := ValueError; exn_message := "Expecting value" |}.

Definition loads (s : string) : result (list ApolloContact.t) :=
  match skip s with
  | String "[" rest =>
      match skip rest with
      | String "]" rest' =>
          if String.eqb (skip rest') "" then Return [] else Raise decode_error
      | _ =>
          match load_contacts (String.length rest) rest with
          | Some (cs, rest') =>
              if String.eqb (skip rest') "" then Return cs
              else Raise decode_error
          | None => Raise decode_error
          end
      end
  | _ => Raise decode_error
  end.

End Json.

(** *** The text of one contact *)

(** The members [dump_contact] writes, in its order. *)
Definition contact_members (c : ApolloContact.t)
  : list (string * option string) :=
  [("id", Some (ApolloContact.id c));
   ("first_name", ApolloContact.first_name c);
   ("last_name", ApolloContact.last_name c);
   ("name", ApolloContact.name c);
   ("title", ApolloContact.title c);
   ("email", ApolloContact.email c);
   ("linkedin_url", ApolloContact.linkedin_url c);
   ("organization_name", ApolloContact.organization_name c)].

(** The text of an object after its opening brace. *)
Definition contact_body (c : ApolloContact.t) : string :=
  String.concat ", "
    (List.map (fun m => Json.dump_member (fst m) (snd m)) (contact_members c)).

(** ** Sample data

    A configuration, a world in which every collaborator answers, a world
    in which the enrollment fails, and the requests used by the examples. *)

Module Sample.

Definition config : Config :=
  {| APOLLO_SEQUENCE_ID := "seq-42";
     SLACK_SIGNING_SECRET := "8f742231b10e8888abcd99yyyzzz85a5";
     AI_PROVIDER := "anthropic";
     CACHE_EXPIRY_DAYS := 7 |}.

Fixpoint code_sum (s : string) : nat :=
  match s with
  | EmptyString => O
  | String c t => (nat_of_ascii c + code_sum t)%nat
  end.

(** A stand-in for HMAC-SHA256: a one-byte checksum of key and message,
    in hexadecimal. *)
Definition hexdigest (key msg : string) : string :=
  let n := ((code_sum key + code_sum msg) mod 256)%nat in
  String (Json.hex_digit (n / 16)) (String (Json.hex_digit (n mod 16)) "").

Definition contact : ApolloContact.t :=
  {| ApolloContact.id := "5f1a";
     ApolloContact.first_name := Some "Ana";
     ApolloContact.last_name := Some "Lima";
     ApolloContact.name := Some "Ana Lima";
     ApolloContact.title := Some "Head of Localization";
     ApolloContact.email := Some "ana@acme.com";
     ApolloContact.linkedin_url := None;
     ApolloContact.organization_name := Some "Acme" |}.

Definition payload : RepoRadarPayload.t :=
  {| RepoRadarPayload.company := "Acme";
     RepoRadarPayload.domain := "acme.com";
     RepoRadarPayload.signal_type := "NEW_LANG_FILE";
     RepoRadarPayload.signal_summary := "Added fr.json";
     RepoRadarPayload.languages := Some ["fr"];
     RepoRadarPayload.author := None;
     RepoRadarPayload.url := None |}.

(** 14 November 2023, 22:13:20 UTC, in seconds. *)
Definition epoch : Z := 1700000000.

Definition env : Env :=
  {| datetime_now := fun n => epoch * 1000000 + Z.of_nat n;
     time_time := fun _ => inject_Z epoch;
     mixed_people_search := fun _ _ => Return [contact];
     contacts_create := fun _ _ => Return (Some "c-9001");
     add_contact_ids := fun _ _ _ => Return tt;
     chat_postMessage := fun _ _ => Return "1700000000.000100";
     chat_update := fun _ _ _ _ _ => Return tt;
     generate_text := fun _ _ _ _ =>
       Return "Quick question about your French launch" |}.

(** The same world, with the sequence enrollment answering an error. *)
Definition env_enrollment_down : Env :=
  {| datetime_now := datetime_now env;
     time_time := time_time env;
     mixed_people_search := mixed_people_search env;
     contacts_create := contacts_create env;
     add_contact_ids := fun _ _ _ =>
       Raise {| exn_kind := OtherException;
                exn_message := "422 Client Error: Unprocessable Entity" |};
     chat_postMessage := chat_postMessage env;
     chat_update := chat_update env;
     generate_text := generate_text env |}.

Definition row (status : string) : QueueRow.t :=
  {| QueueRow.company := "Acme";
     QueueRow.domain := "acme.com";
     QueueRow.signal_summary := "Added fr.json";
     QueueRow.contact_id := "5f1a";
     QueueRow.contact_name := "Ana Lima";
     QueueRow.contact_title := Some "Head of Localization";
     QueueRow.contact_email := Some "ana@acme.com";
     QueueRow.personalized_subject := "Quick question";
     QueueRow.personalized_email := "Hi Ana";
     QueueRow.i18n_signals := "Signal: NEW_LANG_FILE | Summary: Added fr.json";
     QueueRow.slack_message_ts := Some "1700000000.000100";
     QueueRow.status := status;
     QueueRow.created_at := epoch * 1000000;
     QueueRow.updated_at := epoch * 1000000 |}.

(** A system whose queue holds the request [req-1] with the given
    status. *)
Definition sys_with (status : string) : sys :=
  {| store := {| company_cache := ∅;
                 approval_queue := {[ "req-1" := row status ]} |};
     calls := [];
     ticks := O |}.

Definition form (action : string) : interaction :=
  {| action_id := Some action;
     value := Some "req-1";
     channel_id := Some "C024BE91L";
     message_ts := Some "1700000000.000100" |}.

(** An interaction on [req-1] stamped [timestamp] and signed with the
    secret of [config]. *)
Definition signed (timestamp action : string) : slack_request :=
  {| X_Slack_Request_Timestamp := Some timestamp;
     X_Slack_Signature :=
       Some ("v0=" ++ hexdigest (SLACK_SIGNING_SECRET config)
                        ("v0:" ++ timestamp ++ ":" ++ "payload=" ++ action));
     get_data := "payload=" ++ action;
     form_payload := Return (form action) |}.

(** A reply of the model without markers: two lines, the first of 61
    characters, and white space around them. *)
Definition reply_core : string :=
  "Quick question about how Acme plans to ship its French launch"
  ++ String Py.newline "Best, Sam".

Definition reply : string :=
  String Py.newline "  " ++ reply_core ++ String Py.newline "".

(** [10 ^ 309], beyond the range of a float. *)
Definition huge_timestamp : string :=
  "1000000000000000000000000000000000000000000000000000000000000000000000000000000000000000000000000000000000000000000000000000000000000000000000000000000000000000000000000000000000000000000000000000000000000000000000000000000000000000000000000000000000000000000000000000000000000000000000000000000000000000000000".

End Sample.

(** ** Worlds for the scenarios

    A world in which each collaborator gives one fixed answer, with the
    clocks of [Sample.env]. *)

Module Scenario.

Definition world (people : result (list ApolloContact.t))
    (created : result (option string)) (enrolled : result unit)
    (posted : result string) (updated : result unit) (text : result string)
  : Env :=
  {| datetime_now := datetime_now Sample.env;
     time_time := time_time Sample.env;
     mixed_people_search := fun _ _ => people;
     contacts_create := fun _ _ => created;
     add_contact_ids := fun _ _ _ => enrolled;
     chat_postMessage := fun _ _ => posted;
     chat_update := fun _ _ _ _ _ => updated;
     generate_text := fun _ _ _ _ => text |}.

Definition failure (kind : exn_class) (message : string) : exn :=
  {| exn_kind := kind; exn_message := message |}.

(** Apollo knows nobody at the company. *)
Definition nobody : Env :=
  world (Return []) (Return (Some "c-9001")) (Return tt)
    (Return "1700000000.000100") (Return tt)
    (Return "Quick question about your French launch").

(** The best contact has no email address. *)
Definition contact_without_email : ApolloContact.t :=
  {| ApolloContact.id := "77b2";
     ApolloContact.first_name := Some "Li";
     ApolloContact.last_name := None;
     ApolloContact.name := None;
     ApolloContact.title := Some "CTO";
     ApolloContact.email := None;
     ApolloContact.linkedin_url := None;
     ApolloContact.organization_name := Some "Acme" |}.

Definition no_email : Env :=
  world (Return [contact_without_email; Sample.contact])
    (Return (Some "c-9001")) (Return tt)
    (Return "1700000000.000100") (Return tt)
    (Return "Quick question about your French launch").

(** Slack refuses the approval card. *)
Definition slack_down : Env :=
  world (Return [Sample.contact]) (Return (Some "c-9001")) (Return tt)
    (Raise (failure SlackApiError "channel_not_found")) (Return tt)
    (Return "Quick question about your French launch").

(** Apollo refuses the creation of the contact. *)
Definition creation_down : Env :=
  world (Return [Sample.contact])
    (Raise (failure OtherException "401 Client Error: Unauthorized"))
    (Return tt) (Return "1700000000.000100") (Return tt)
    (Return "Quick question about your French launch").

(** The update of the card times out. *)
Definition card_timeout : Env :=
  world (Return [Sample.contact]) (Return (Some "c-9001")) (Return tt)
    (Return "1700000000.000100")
    (Raise (failure OtherException "The read operation timed out"))
    (Return "Quick question about your French launch").

(** Slack refuses the update of the card. *)
Definition card_refused : Env :=
  world (Return [Sample.contact]) (Return (Some "c-9001")) (Return tt)
    (Return "1700000000.000100")
    (Raise (failure SlackApiError "message_not_found"))
    (Return "Quick question about your French launch").

End Scenario.

(** ** Requests for the scenarios *)

Module Delivery.

(** A fresh interaction on [req-1] with the given signature header. *)
Definition with_signature (signature : string) : slack_request :=
  {| X_Slack_Request_Timestamp := Some "1700000000";
     X_Slack_Signature := Some signature;
     get_data := "payload=skip_lead";
     form_payload := Return (Sample.form "skip_lead") |}.

(** A fresh, correctly signed interaction whose form payload does not
    decode. *)
Definition undecodable : slack_request :=
  {| X_Slack_Request_Timestamp := Some "1700000000";
     X_Slack_Signature :=
       Some ("v0=" ++ Sample.hexdigest (SLACK_SIGNING_SECRET Sample.config)
                        "v0:1700000000:payload=%7B");
     get_data := "payload=%7B";
     form_payload :=
       Raise (Scenario.failure ValueError
                "Expecting property name enclosed in double quotes") |}.

End Delivery.

(** ** The program *)

Section Program.

(** [hmac.new(key, msg, hashlib.sha256).hexdigest()] *)
Variable hmac_sha256_hexdigest : string -> string -> string.

(** [json.dumps] and [json.loads] on lists of contact dictionaries: a
    dictionary, the result of [model_dump], is the contact itself. *)
Variable json_dumps : list ApolloContact.t -> string.
Variable json_loads : string -> result (list ApolloContact.t).

Variable config : Config.
Variable env : Env.

Local Open Scope M_scope.

(** *** storage.py *)

Definition get_cached_contacts (now : Z) (domain : string) (d : db)
  : result (option (list ApolloContact.t)) * db :=
  match company_cache d !! domain with
  | None => (Return None, d)
  | Some row =>
      match timedelta_days (CACHE_EXPIRY_DAYS config) with
      | Raise e => (Raise e, d)
      | Return expiry =>
          if (expiry <? now - fetched_at row)%Z then
            (Return None,
             set_company_cache (delete domain (company_cache d)) d)
          else
            match json_loads (contacts_json row) with
            | Return contacts => (Return (Some contacts), d)
            | Raise e => (Raise e, d)
            end
      end
  end.

Definition cache_contacts (now : Z) (domain : string)
    (contacts : list ApolloContact.t) (d : db) : result unit * db :=
  (Return tt,
   set_company_cache
     (<[domain := {| contacts_json := json_dumps contacts;
                     fetched_at := now |}]> (company_cache d)) d).

(** [INSERT] on a primary key that exists raises. *)
Definition save_approval_request (now : Z) (request : ApprovalRequest.t)
    (d : db) : result unit * db :=
  match approval_queue d !! ApprovalRequest.id request with
  | Some _ =>
      (Raise {| exn_kind := IntegrityError;
                exn_message := "UNIQUE constraint failed: approval_queue.id" |},
       d)
  | None =>
      (Return tt,
       set_approval_queue
         (<[ApprovalRequest.id request := QueueRow.of_request now request]>
            (approval_queue d)) d)
  end.

(** A request id that is not a string ([None]) matches no row. *)
Definition get_approval_request (request_id : option string) (d : db)
  : result (option ApprovalRequest.t) * db :=
  match request_id with
  | Some i => (Return (QueueRow.to_request i <$> approval_queue d !! i), d)
  | None => (Return None, d)
  end.

(** The [UPDATE] of the branch taken by [if slack_ts]. *)
Definition update_status_row (now : Z) (status : string)
    (slack_ts : option string) (r : QueueRow.t) : QueueRow.t :=
  if Py.truthy_opt slack_ts
  then QueueRow.set_status_ts now status slack_ts r
  else QueueRow.set_status now status r.

(** [UPDATE ... WHERE id = ?] changes the rows that match, none when the
    id is unknown, and returns. *)
Definition update_approval_status (now : Z) (request_id status : string)
    (slack_ts : option string) (d : db) : result unit * db :=
  (Return tt,
   set_approval_queue
     (alter (update_status_row now status slack_ts) request_id
            (approval_queue d)) d).

Definition update_approval_email (now : Z) (request_id subject body : string)
    (d : db) : result unit * db :=
  (Return tt,
   set_approval_queue
     (alter (QueueRow.set_email now subject body) request_id
            (approval_queue d)) d).

(** *** apollo_client.py *)

Definition search_people (domain : string) : M (list ApolloContact.t) :=
  cached <- transaction env (fun now => get_cached_contacts now domain) ;;
  match cached with
  | Some (c :: cs) => ret (c :: cs)
  | _ =>
      contacts <- request_to (ApolloSearchPeople domain)
                    (fun log => mixed_people_search env log domain) ;;
      match contacts with
      | [] => ret []
      | _ :: _ =>
          transaction env (fun now => cache_contacts now domain contacts) ;;;
          ret contacts
      end
  end.

Definition create_contact (args : create_contact_args) : M (option string) :=
  request_to (ApolloCreateContact args)
    (fun log => contacts_create env log args).

(** [add_to_sequence(contact_id)], with the configured sequence. *)
Definition add_to_sequence (contact_id : string) : M unit :=
  let seq_id := APOLLO_SEQUENCE_ID config in
  request_to (ApolloAddToSequence contact_id seq_id)
    (fun log => add_contact_ids env log contact_id seq_id).

(** *** slack_bot.py *)

(** [post_approval_card] logs a [SlackApiError] and raises it again. *)
Definition post_approval_card (request : ApprovalRequest.t) : M string :=
  request_to (SlackPostMessage request)
    (fun log => chat_postMessage env log request).

(** [_update_message] catches [SlackApiError] and nothing else. *)
Definition _update_message (channel ts : option string) (c : card)
    (request : ApprovalRequest.t) : M unit :=
  try_except
    (request_to (SlackChatUpdate channel ts c request)
       (fun log => chat_update env log channel ts c request))
    (fun e => if is_SlackApiError e then ret tt else raise e).

Definition update_card_approved (channel ts : option string)
    (request : ApprovalRequest.t) : M unit :=
  _update_message channel ts CardApproved request.

Definition update_card_rejected (channel ts : option string)
    (request : ApprovalRequest.t) : M unit :=
  _update_message channel ts CardSkipped request.

(** *** email_gen.py *)

Definition generate_personalized_email (payload : RepoRadarPayload.t)
    (contact : ApolloContact.t) : M (string * string) :=
  let provider := AI_PROVIDER config in
  if String.eqb provider "anthropic" || String.eqb provider "gemini" then
    text <- request_to (GenerateEmail provider payload contact)
              (fun log => generate_text env log provider payload contact) ;;
    ret (_parse_email_response text)
  else
    raise {| exn_kind := ValueError;
             exn_message := "Unknown AI provider: " ++ provider |}.

Definition format_i18n_signals (payload : RepoRadarPayload.t) : string :=
  let parts :=
    List.concat
      [ ["Signal: " ++ RepoRadarPayload.signal_type payload;
         "Summary: " ++ RepoRadarPayload.signal_summary payload];
        match RepoRadarPayload.languages payload with
        | Some (l :: ls) => ["Languages: " ++ String.concat ", " (l :: ls)]
        | _ => []
        end;
        match RepoRadarPayload.url payload with
        | Some u => ["URL: " ++ u]
        | None => []
        end;
        if Py.truthy_opt (RepoRadarPayload.author payload)
        then ["Author: " ++ default "" (RepoRadarPayload.author payload)]
        else [] ] in
  String.concat " | " parts.

(** *** app.py *)

Definition verify_slack_signature (now : Q) (request : slack_request)
  : result bool :=
  let timestamp := default "" (X_Slack_Request_Timestamp request) in
  let signature := default "" (X_Slack_Signature request) in
  match Py.int timestamp with
  | None =>
      Raise {| exn_kind := ValueError;
               exn_message := "invalid literal for int() with base 10" |}
  | Some ts =>
      match float_of_int ts with
      | Raise e => Raise e
      | Return t =>
          if negb (Qle_bool (Qabs (now - t)) (inject_Z (60 * 5)))
          then Return false
          else
            let sig_basestring :=
              "v0:" ++ timestamp ++ ":" ++ get_data request in
            let expected_signature :=
              "v0=" ++ hmac_sha256_hexdigest (SLACK_SIGNING_SECRET config)
                         sig_basestring in
            compare_digest expected_signature signature
      end
  end.

Definition handle_approve (request : ApprovalRequest.t)
    (channel message_ts : option string) : M http_response :=
  try_except
    (let '(first_name, rest) :=
       Py.split_once_space (ApprovalRequest.contact_name request) in
     let last_name := default "" rest in
     let custom_fields :=
       [("personalized_subject", ApprovalRequest.personalized_subject request);
        ("personalized_email_1", ApprovalRequest.personalized_email request);
        ("i18n_signals", ApprovalRequest.i18n_signals request)] in
     new_contact_id <-
       create_contact
         {| cc_email := ApprovalRequest.contact_email request;
            cc_first_name := first_name;
            cc_last_name := last_name;
            cc_organization_name := ApprovalRequest.company request;
            cc_title := ApprovalRequest.contact_title request;
            cc_custom_fields := custom_fields |} ;;
     (if Py.truthy_opt new_contact_id
      then add_to_sequence (default "" new_contact_id)
      else ret tt) ;;;
     transaction env (fun now =>
       update_approval_status now (ApprovalRequest.id request) "approved"
         None) ;;;
     update_card_approved channel message_ts request ;;;
     ret (jsonify [("status", "approved")] 200))
    (fun e => ret (jsonify [("error", exn_message e)] 500)).

Definition handle_skip (request : ApprovalRequest.t)
    (channel message_ts : option string) : M http_response :=
  transaction env (fun now =>
    update_approval_status now (ApprovalRequest.id request) "skipped" None) ;;;
  update_card_rejected channel message_ts request ;;;
  ret (jsonify [("status", "skipped")] 200).

Definition handle_edit (request : ApprovalRequest.t) : M http_response :=
  ret (jsonify [("status", "edit_not_implemented")] 501).

Definition handle_regenerate (request : ApprovalRequest.t)
    (channel message_ts : option string) : M http_response :=
  ret (jsonify [("status", "regenerate_not_implemented")] 501).

(** [time.time()] *)
Definition read_time : M Q :=
  fun s => (Return (time_time env (ticks s)),
            {| store := store s; calls := calls s; ticks := S (ticks s) |}).

(** The part of [handle_slack_interactions] inside [try]. *)
Definition dispatch_interaction (request : slack_request) : M http_response :=
  payload <- lift (form_payload request) ;;
  let channel := channel_id payload in
  let message_ts := message_ts payload in
  approval_request <- query (get_approval_request (value payload)) ;;
  match approval_request with
  | None => ret (jsonify [("error", "Request not found")] 404)
  | Some approval_request =>
      let a := default "" (action_id payload) in
      if String.eqb a "approve_lead" then
        handle_approve approval_request channel message_ts
      else if String.eqb a "skip_lead" then
        handle_skip approval_request channel message_ts
      else if String.eqb a "edit_lead" then
        handle_edit approval_request
      else if String.eqb a "regenerate_lead" then
        handle_regenerate approval_request channel message_ts
      else ret (jsonify [("error", "Unknown action")] 400)
  end.

(** The signature is verified outside [try]: an exception of the check
    leaves the handler. *)
Definition handle_slack_interactions (request : slack_request)
  : M http_response :=
  now <- read_time ;;
  authentic <- lift (verify_slack_signature now request) ;;
  if negb authentic then ret (jsonify [("error", "Invalid signature")] 401)
  else
    try_except (dispatch_interaction request)
      (fun e => ret (jsonify [("error", "Internal server error")] 500)).

(** [handle_reporadar_webhook]: [parsed] is what building the
    [RepoRadarPayload] from [request.get_json()] gives, and [new_id] is
    [str(uuid.uuid4())]. *)
Definition handle_reporadar_webhook (parsed : result RepoRadarPayload.t)
    (new_id : string) : M http_response :=
  try_except
    (payload <- lift parsed ;;
     contacts <- search_people (RepoRadarPayload.domain payload) ;;
     match contacts with
     | [] =>
         ret (jsonify [("status", "skipped");
                       ("reason", "no_contacts_found");
                       ("domain", RepoRadarPayload.domain payload)] 200)
     | contact :: _ =>
         if negb (Py.truthy_opt (ApolloContact.email contact)) then
           ret (jsonify [("status", "skipped");
                         ("reason", "no_email");
                         ("contact", ApolloContact.display_name contact)] 200)
         else
           email <- generate_personalized_email payload contact ;;
           let approval_request :=
             {| ApprovalRequest.id := new_id;
                ApprovalRequest.company := RepoRadarPayload.company payload;
                ApprovalRequest.domain := RepoRadarPayload.domain payload;
                ApprovalRequest.signal_summary :=
                  RepoRadarPayload.signal_summary payload;
                ApprovalRequest.contact_id := ApolloContact.id contact;
                ApprovalRequest.contact_name :=
                  ApolloContact.display_name contact;
                ApprovalRequest.contact_title := ApolloContact.title contact;
                ApprovalRequest.contact_email := ApolloContact.email contact;
                ApprovalRequest.personalized_subject := fst email;
                ApprovalRequest.personalized_email := snd email;
                ApprovalRequest.i18n_signals := format_i18n_signals payload;
                ApprovalRequest.slack_message_ts := None;
                ApprovalRequest.status := "pending";
                ApprovalRequest.created_at := None |} in
           transaction env (fun now =>
             save_approval_request now approval_request) ;;;
           slack_ts <- post_approval_card approval_request ;;
           transaction env (fun now =>
             update_approval_status now new_id "pending" (Some slack_ts)) ;;;
           ret (jsonify [("status", "pending_approval");
                         ("request_id", new_id);
                         ("company", RepoRadarPayload.company payload);
                         ("contact", ApolloContact.display_name contact)] 200)
     end)
    (fun e =>
       if is_ValueError e
       then ret (jsonify [("error", "Invalid payload");
                          ("details", exn_message e)] 400)
       else ret (jsonify [("error", "Internal server error")] 500)).

(** *** Two deliveries of one approval, interleaved

    Flask serves each request in a thread of its own. Between two
    transactions or two requests to a collaborator another thread may run,
    so a delivery of [approve_lead], once authenticated and decoded, is a
    machine whose steps are the transaction that fetches the request, the
    creation of the contact, the enrollment, the transaction that writes
    the status and the update of the card. *)

Inductive approve_thread :=
| AtLookup (request_id channel message_ts : option string)
| AtCreate (request : ApprovalRequest.t) (channel message_ts : option string)
| AtEnroll (request : ApprovalRequest.t) (channel message_ts : option string)
           (new_contact_id : string)
| AtUpdate (request : ApprovalRequest.t) (channel message_ts : option string)
| AtCard (request : ApprovalRequest.t) (channel message_ts : option string)
| Finished (response : http_response).

(** The arguments [handle_approve] gives to [create_contact]. *)
Definition approve_contact_args (request : ApprovalRequest.t)
  : create_contact_args :=
  let '(first_name, rest) :=
    Py.split_once_space (ApprovalRequest.contact_name request) in
  {| cc_email := ApprovalRequest.contact_email request;
     cc_first_name := first_name;
     cc_last_name := default "" rest;
     cc_organization_name := ApprovalRequest.company request;
     cc_title := ApprovalRequest.contact_title request;
     cc_custom_fields :=
       [("personalized_subject", ApprovalRequest.personalized_subject request);
        ("personalized_email_1", ApprovalRequest.personalized_email request);
        ("i18n_signals", ApprovalRequest.i18n_signals request)] |}.

(** What the [except] clause of [handle_approve] answers. *)
Definition approve_failed (e : exn) : approve_thread :=
  Finished (jsonify [("error", exn_message e)] 500).

(** One atomic step of a delivery. *)
Definition thread_step (t : approve_thread) (s : sys) : approve_thread * sys :=
  match t with
  | AtLookup request_id channel message_ts =>
      match query (get_approval_request request_id) s with
      | (Return (Some request), s') => (AtCreate request channel message_ts, s')
      | (Return None, s') =>
          (Finished (jsonify [("error", "Request not found")] 404), s')
      | (Raise e, s') =>
          (Finished (jsonify [("error", "Internal server error")] 500), s')
      end
  | AtCreate request channel message_ts =>
      match create_contact (approve_contact_args request) s with
      | (Return new_contact_id, s') =>
          if Py.truthy_opt new_contact_id
          then (AtEnroll request channel message_ts
                         (default "" new_contact_id), s')
          else (AtUpdate request channel message_ts, s')
      | (Raise e, s') => (approve_failed e, s')
      end
  | AtEnroll request channel message_ts new_contact_id =>
      match add_to_sequence new_contact_id s with
      | (Return _, s') => (AtUpdate request channel message_ts, s')
      | (Raise e, s') => (approve_failed e, s')
      end
  | AtUpdate request channel message_ts =>
      match transaction env (fun now =>
              update_approval_status now (ApprovalRequest.id request)
                "approved" None) s with
      | (Return _, s') => (AtCard request channel message_ts, s')
      | (Raise e, s') => (approve_failed e, s')
      end
  | AtCard request channel message_ts =>
      match update_card_approved channel message_ts request s with
      | (Return _, s') => (Finished (jsonify [("status", "approved")] 200), s')
      | (Raise e, s') => (approve_failed e, s')
      end
  | Finished response => (Finished response, s)
  end.

(** A delivery running alone for [n] steps. *)
Fixpoint thread_run (n : nat) (t : approve_thread) (s : sys)
  : approve_thread * sys :=
  match n with
  | O => (t, s)
  | S k => let '(t', s') := thread_step t s in thread_run k t' s'
  end.

(** Two deliveries and the system they share. *)
Record duo := {
  first : approve_thread;
  second : approve_thread;
  shared : sys
}.

(** A schedule names, step after step, the delivery that moves:
    [true] for the first, [false] for the second. *)
Fixpoint run_schedule (schedule : list bool) (c : duo) : duo :=
  match schedule with
  | [] => c
  | true :: rest =>
      let '(t, s) := thread_step (first c) (shared c) in
      run_schedule rest {| first := t; second := second c; shared := s |}
  | false :: rest =>
      let '(t, s) := thread_step (second c) (shared c) in
      run_schedule rest {| first := first c; second := t; shared := s |}
  end.

(** The same interaction delivered twice to the system [s]. *)
Definition delivered_twice (request_id channel message_ts : option string)
    (s : sys) : duo :=
  {| first := AtLookup request_id channel message_ts;
     second := AtLookup request_id channel message_ts;
     shared := s |}.

Definition is_finished (t : approve_thread) : bool :=
  match t with Finished _ => true | _ => false end.

(** The number of contact creations sent to Apollo so far. *)
Definition contact_creations (s : sys) : nat :=
  List.length (List.filter is_create_contact (calls s)).

(** The requests sent to the CRM Commit Client so far. *)
Definition crm_commits (s : sys) : list ext_call :=
  List.filter is_crm_commit (calls s).

(** *** What a delivery has done so far *)

(** The number of contact creations a delivery has sent. *)
Definition created (t : approve_thread) : nat :=
  match t with
  | AtLookup _ _ _ | AtCreate _ _ _ => 0
  | _ => 1
  end.

(** The delivery is about the request [request_id]. *)
Definition thread_for (request_id : string) (t : approve_thread) : Prop :=
  match t with
  | AtLookup r _ _ => r = Some request_id
  | AtCreate r _ _ | AtEnroll r _ _ _ | AtUpdate r _ _ | AtCard r _ _ =>
      ApprovalRequest.id r = request_id
  | Finished _ => True
  end.

(** The delivery has written the status approved. *)
Definition has_approved (t : approve_thread) : Prop :=
  match t with
  | AtCard _ _ _ => True
  | Finished response => response = jsonify [("status", "approved")] 200
  | _ => False
  end.

(** The enrollment that follows a creation answered with
    [new_contact_id]: none when the answer carries no contact id. *)
Definition enrollment_after (request : ApprovalRequest.t) (s : sys)
    (new_contact_id : option string) : result unit :=
  if Py.truthy_opt new_contact_id
  then add_contact_ids env
         (List.app (calls s)
            [ApolloCreateContact (approve_contact_args request)])
         (default "" new_contact_id) (APOLLO_SEQUENCE_ID config)
  else Return tt.

(** What holds of two deliveries about [request_id] that started when
    [n] contact creations had been sent. *)
Definition duo_invariant (request_id : string) (n : nat) (c : duo) : Prop :=
  is_Some (approval_queue (store (shared c)) !! request_id)
  /\ thread_for request_id (first c)
  /\ thread_for request_id (second c)
  /\ contact_creations (shared c)
     = (n + created (first c) + created (second c))%nat
  /\ (has_approved (first c) \/ has_approved (second c) ->
      status_of request_id (store (shared c)) = Some "approved").

(** *** The operations of the program and the states it reaches *)

Inductive operation :=
| Webhook (parsed : result RepoRadarPayload.t) (new_id : string)
| SlackInteraction (request : slack_request).

Definition perform (o : operation) : M http_response :=
  match o with
  | Webhook parsed new_id => handle_reporadar_webhook parsed new_id
  | SlackInteraction request => handle_slack_interactions request
  end.

(** The states reached from the database that [init_db] creates by
    serving requests one after the other. *)
Inductive reachable : sys -> Prop :=
| reachable_init : reachable initial_sys
| reachable_step (o : operation) (s : sys) :
    reachable s -> reachable (snd (perform o s)).

(** *** Status values *)

(** The status values the program writes. *)
Definition written_status (st : string) : Prop :=
  st = "pending" \/ st = "approved" \/ st = "skipped".

(** Every status in [d] is either the one the same request has in [d0] or
    a status the program writes. *)
Definition statuses_from (d0 d : db) : Prop :=
  forall request_id st,
    status_of request_id d = Some st ->
    status_of request_id d0 = Some st \/ written_status st.

(** A computation keeps a property of the database. *)
Definition preserves {A} (I : db -> Prop) (m : M A) : Prop :=
  forall s, I (store s) -> I (store (snd (m s))).


(** *** What an update leaves alone *)

(** Two requests describe the same lead: they agree on every field but
    the status and the Slack message timestamp. *)
Definition same_lead (a b : ApprovalRequest.t) : Prop :=
  ApprovalRequest.id a = ApprovalRequest.id b
  /\ ApprovalRequest.company a = ApprovalRequest.company b
  /\ ApprovalRequest.domain a = ApprovalRequest.domain b
  /\ ApprovalRequest.signal_summary a = ApprovalRequest.signal_summary b
  /\ ApprovalRequest.contact_id a = ApprovalRequest.contact_id b
  /\ ApprovalRequest.contact_name a = ApprovalRequest.contact_name b
  /\ ApprovalRequest.contact_title a = ApprovalRequest.contact_title b
  /\ ApprovalRequest.contact_email a = ApprovalRequest.contact_email b
  /\ ApprovalRequest.personalized_subject a
     = ApprovalRequest.personalized_subject b
  /\ ApprovalRequest.personalized_email a
     = ApprovalRequest.personalized_email b
  /\ ApprovalRequest.i18n_signals a = ApprovalRequest.i18n_signals b
  /\ ApprovalRequest.created_at a = ApprovalRequest.created_at b.

(** The request [get_approval_request] returns with primary key
    [request_id]. *)
Definition stored_request (request_id : string) (d : db)
  : option ApprovalRequest.t :=
  QueueRow.to_request request_id <$> approval_queue d !! request_id.

(** *** The signature Slack is expected to send *)

(** The value [verify_slack_signature] compares the signature header
    with. *)
Definition expected_signature (request : slack_request) : string :=
  "v0=" ++ hmac_sha256_hexdigest (SLACK_SIGNING_SECRET config)
             ("v0:" ++ default "" (X_Slack_Request_Timestamp request)
              ++ ":" ++ get_data request).

(** The system after [handle_slack_interactions] has read the clock and
    done nothing else. *)
Definition after_clock (s : sys) : sys :=
  {| store := store s; calls := calls s; ticks := S (ticks s) |}.

(** *** The request the webhook builds *)

(** The [ApprovalRequest] that [handle_reporadar_webhook] constructs for
    a payload, the chosen contact, the generated email and the new id. *)
Definition new_approval_request (payload : RepoRadarPayload.t)
    (contact : ApolloContact.t) (email : string * string) (new_id : string)
  : ApprovalRequest.t :=
  {| ApprovalRequest.id := new_id;
     ApprovalRequest.company := RepoRadarPayload.company payload;
     ApprovalRequest.domain := RepoRadarPayload.domain payload;
     ApprovalRequest.signal_summary := RepoRadarPayload.signal_summary payload;
     ApprovalRequest.contact_id := ApolloContact.id contact;
     ApprovalRequest.contact_name := ApolloContact.display_name contact;
     ApprovalRequest.contact_title := ApolloContact.title contact;
     ApprovalRequest.contact_email := ApolloContact.email contact;
     ApprovalRequest.personalized_subject := fst email;
     ApprovalRequest.personalized_email := snd email;
     ApprovalRequest.i18n_signals := format_i18n_signals payload;
     ApprovalRequest.slack_message_ts := None;
     ApprovalRequest.status := "pending";
     ApprovalRequest.created_at := None |}.

(** *** Serving requests one after the other *)

(** The system after the operations [ops], served in order. *)
Fixpoint serve (ops : list operation) (s : sys) : sys :=
  match ops with
  | [] => s
  | o :: rest => serve rest (snd (perform o s))
  end.

(** The request [request_id] is stored and describes the lead of
    [before]. *)
Definition keeps_lead (request_id : string) (before : ApprovalRequest.t)
    (d : db) : Prop :=
  exists after,
    stored_request request_id d = Some after /\ same_lead before after.

(** Whether a string holds a space. *)
Fixpoint has_space (s : string) : bool :=
  match s with
  | EmptyString => false
  | String c t => Ascii.eqb c " " || has_space t
  end.

(** ** Properties of the parser *)

Lemma split_lines_cons (s : string) :
  exists l ls, Py.split_lines s = l :: ls.
Proof.
  induction s as [|c t IH]; simpl; [eauto|].
  destruct (Ascii.eqb c Py.newline); [eauto|].
  destruct IH as (l & ls & ->). eauto.
Qed.

Lemma parse_line_unmarked (st : parse_state) (line : string) :
  ps_in_body st = false ->
  Py.startswith line "SUBJECT:" = false ->
  Py.startswith line "BODY:" = false ->
  parse_line st line = st.
Proof.
  intros Hin Hs Hb. unfold parse_line. rewrite Hs, Hb, Hin. reflexivity.
Qed.

Lemma fold_parse_unmarked (lines : list string) (st : parse_state) :
  ps_in_body st = false ->
  Forall (fun line => Py.startswith line "SUBJECT:" = false
                      /\ Py.startswith line "BODY:" = false) lines ->
  fold_left parse_line lines st = st.
Proof.
  intros Hin Hall. induction Hall as [|line rest [Hs Hb] _ IH]; simpl.
  - reflexivity.
  - rewrite parse_line_unmarked by assumption. exact IH.
Qed.

Lemma string_app_cons (x : ascii) (a b : string) :
  String x a ++ b = String x (a ++ b).
Proof. reflexivity. Qed.

Lemma string_app_empty (a : string) : "" ++ a = a.
Proof. reflexivity. Qed.

(** What [lstrip_by] drops. *)
Lemma lstrip_by_split (p : ascii -> bool) (s : string) :
  exists lead, s = lead ++ Py.lstrip_by p s /\ every p lead = true.
Proof.
  induction s as [|c s (lead & Hs & Hlead)].
  - exists "". split; reflexivity.
  - cbn [Py.lstrip_by]. destruct (p c) eqn:Hc.
    + exists (String c lead). rewrite string_app_cons, <- Hs. cbn [every].
      rewrite Hc, Hlead. split; reflexivity.
    + exists "". split; reflexivity.
Qed.

(** What [rstrip_by] drops. *)
Lemma rstrip_by_split (p : ascii -> bool) (s : string) :
  exists trail, s = Py.rstrip_by p s ++ trail /\ every p trail = true.
Proof.
  induction s as [|c s (trail & Hs & Htrail)].
  - exists "". split; reflexivity.
  - cbn [Py.rstrip_by]. destruct (Py.rstrip_by p s) as [|c' s'] eqn:Hr.
    + destruct (p c) eqn:Hc.
      * exists (String c trail). cbn [every]. rewrite Hc, Htrail.
        split; [|reflexivity]. rewrite Hs at 1. reflexivity.
      * exists trail. split; [|exact Htrail]. rewrite Hs at 1. reflexivity.
    + exists trail. split; [|exact Htrail]. rewrite Hs at 1. reflexivity.
Qed.

Lemma strip_by_split (p : ascii -> bool) (s : string) :
  exists lead trail,
    s = lead ++ Py.strip_by p s ++ trail
    /\ every p lead = true /\ every p trail = true.
Proof.
  destruct (lstrip_by_split p s) as (lead & Hs & Hlead).
  destruct (rstrip_by_split p (Py.lstrip_by p s)) as (trail & Hl & Htrail).
  exists lead, trail. unfold Py.strip_by. rewrite <- Hl. auto.
Qed.

Lemma lstrip_by_every (p : ascii -> bool) (lead s : string) :
  every p lead = true -> Py.lstrip_by p (lead ++ s) = Py.lstrip_by p s.
Proof.
  induction lead as [|c lead IH]; intros H; [reflexivity|].
  cbn [every] in H. apply andb_prop in H as [Hc Hl].
  rewrite string_app_cons. cbn [Py.lstrip_by]. rewrite Hc. auto.
Qed.

Lemma lstrip_by_blank (p : ascii -> bool) (s : string) :
  every p s = true -> Py.lstrip_by p s = "".
Proof.
  induction s as [|c s IH]; intros H; [reflexivity|].
  cbn [every] in H. apply andb_prop in H as [Hc Hs].
  cbn [Py.lstrip_by]. rewrite Hc. auto.
Qed.

Lemma rstrip_by_blank (p : ascii -> bool) (s : string) :
  every p s = true -> Py.rstrip_by p s = "".
Proof.
  induction s as [|c s IH]; intros H; [reflexivity|].
  cbn [every] in H. apply andb_prop in H as [Hc Hs].
  cbn [Py.rstrip_by]. rewrite (IH Hs), Hc. reflexivity.
Qed.

Lemma rstrip_by_every (p : ascii -> bool) (s trail : string) :
  every p trail = true -> Py.rstrip_by p (s ++ trail) = Py.rstrip_by p s.
Proof.
  intros H. induction s as [|c s IH].
  - rewrite string_app_empty. apply rstrip_by_blank, H.
  - rewrite string_app_cons. cbn [Py.rstrip_by]. rewrite IH. reflexivity.
Qed.

Lemma rstrip_by_last (p : ascii -> bool) (t : string) (c : ascii) :
  p c = false -> Py.rstrip_by p (t ++ String c "") = t ++ String c "".
Proof.
  intros Hc. induction t as [|x t IH].
  - rewrite string_app_empty. cbn [Py.rstrip_by]. rewrite Hc. reflexivity.
  - rewrite string_app_cons. cbn [Py.rstrip_by]. rewrite IH.
    destruct t; reflexivity.
Qed.

(** Stripping a trimmed text wrapped in white space gives the text. *)
Lemma strip_trimmed (lead core trail : string) :
  every Py.isspace lead = true ->
  every Py.isspace trail = true ->
  trimmed core ->
  Py.strip (lead ++ core ++ trail) = core.
Proof.
  intros Hlead Htrail Hcore. unfold Py.strip, Py.strip_by.
  rewrite (lstrip_by_every _ _ _ Hlead).
  destruct Hcore as [-> | [(c & t & -> & Hc) (t' & c' & Ht' & Hc')]].
  - rewrite string_app_empty, (lstrip_by_blank _ _ Htrail). reflexivity.
  - rewrite string_app_cons. cbn [Py.lstrip_by]. rewrite Hc.
    rewrite <- string_app_cons, (rstrip_by_every _ _ _ Htrail).
    rewrite Ht'. apply rstrip_by_last, Hc'.
Qed.

(** The first line is the text up to the first newline. *)
Lemma split_lines_first (s : string) :
  exists first rest others,
    s = first ++ rest
    /\ one_line first
    /\ (rest = "" \/ exists t, rest = String Py.newline t)
    /\ Py.split_lines s = first :: others.
Proof.
  induction s as [|c s (first & rest & others & Hs & Hone & Hrest & Hsplit)].
  - exists "", "", []. repeat split. left. reflexivity.
  - cbn [Py.split_lines]. destruct (Ascii.eqb_spec c Py.newline) as [->|Hc].
    + exists "", (String Py.newline s), (Py.split_lines s).
      repeat split. right. eexists. reflexivity.
    + rewrite Hsplit. exists (String c first), rest, others.
      rewrite string_app_cons, <- Hs. repeat split; [|exact Hrest].
      unfold one_line. cbn [every]. rewrite Hone.
      destruct (Ascii.eqb_spec c Py.newline); [contradiction|reflexivity].
Qed.

(** A line after the first opens what follows a newline. *)
Lemma split_lines_later (s : string) :
  forall first others line,
    Py.split_lines s = first :: others ->
    In line others ->
    exists a r, s = a ++ String Py.newline (line ++ r).
Proof.
  induction s as [|c s IH]; intros first others line Hsplit Hin.
  - cbn in Hsplit. injection Hsplit as _ <-. destruct Hin.
  - cbn [Py.split_lines] in Hsplit.
    destruct (split_lines_first s)
      as (first' & rest' & others' & Hs & _ & _ & Hsplit').
    destruct (Ascii.eqb_spec c Py.newline) as [->|Hc].
    + injection Hsplit as _ <-. rewrite Hsplit' in Hin.
      destruct Hin as [<- | Hin].
      * exists "", rest'. rewrite string_app_empty, <- Hs. reflexivity.
      * destruct (IH _ _ _ Hsplit' Hin) as (a & r & Ha).
        exists (String Py.newline a), r. rewrite string_app_cons, <- Ha.
        reflexivity.
    + rewrite Hsplit' in Hsplit. injection Hsplit as _ <-.
      destruct (IH _ _ _ Hsplit' Hin) as (a & r & Ha).
      exists (String c a), r. rewrite string_app_cons, <- Ha. reflexivity.
Qed.

Lemma prefix_app (m line r : string) :
  String.prefix m line = true -> String.prefix m (line ++ r) = true.
Proof.
  revert line. induction m as [|x m IH]; intros line H;
    [destruct (line ++ r); reflexivity|].
  destruct line as [|y line]; [discriminate|].
  rewrite string_app_cons. cbn [String.prefix] in *.
  destruct (ascii_dec x y); [auto | discriminate].
Qed.

(** [s[:n]] is the substring of length [n] from the start. *)
Lemma take_substring (n : nat) (s : string) :
  Py.take n s = substring 0 n s.
Proof.
  revert s. induction n as [|n IH]; intros [|c s]; cbn; try reflexivity.
  rewrite IH. reflexivity.
Qed.

(** [line_starts] lists every start of a line. *)
Lemma line_start_listed (s b : string) :
  line_start s b -> In b (line_starts s).
Proof.
  intros [<- | (a & ->)]; [left; reflexivity|]. right.
  induction a as [|x a IH].
  - rewrite string_app_empty. cbn [line_starts_from].
    rewrite Ascii.eqb_refl. left. reflexivity.
  - rewrite string_app_cons. cbn [line_starts_from].
    destruct (Ascii.eqb x Py.newline); [right|]; exact IH.
Qed.

(** C8, as the code has it. The lines the parser reads are those of the
    response without the white space around it. When the text from the
    start of each of these lines on begins with neither [SUBJECT:] nor
    [BODY:], the subject is the first of these lines cut to 50 characters
    and the body is the raw response. The parser is a total function: it
    has no raising path. *)
Theorem parse_email_response_fallback (response lead core trail : string) :
  response = lead ++ core ++ trail ->
  every Py.isspace lead = true ->
  every Py.isspace trail = true ->
  trimmed core ->
  (forall b, line_start core b ->
             String.prefix "SUBJECT:" b = false
             /\ String.prefix "BODY:" b = false) ->
  exists first rest,
    core = first ++ rest
    /\ one_line first
    /\ (rest = "" \/ exists t, rest = String Py.newline t)
    /\ _parse_email_response response = (substring 0 50 first, response).
Proof.
  intros -> Hlead Htrail Hcore Hplain.
  destruct (split_lines_first core)
    as (first & rest & others & Hs & Hone & Hrest & Hsplit).
  exists first, rest. repeat split; try assumption.
  assert (Hall : Forall (fun line => Py.startswith line "SUBJECT:" = false
                                     /\ Py.startswith line "BODY:" = false)
                   (Py.split_lines core)).
  { apply List.Forall_forall. intros line Hin.
    assert (Hb : exists b r, line_start core b /\ b = line ++ r).
    { rewrite Hsplit in Hin. destruct Hin as [<- | Hin].
      - exists core, rest. split; [left; reflexivity | exact Hs].
      - destruct (split_lines_later _ _ _ _ Hsplit Hin) as (a & r & Ha).
        exists (line ++ r), r. split; [|reflexivity].
        right. exists a. exact Ha. }
    destruct Hb as (b & r & Hstart & ->).
    destruct (Hplain _ Hstart) as [Hsub Hbody]. unfold Py.startswith.
    split.
    - destruct (String.prefix "SUBJECT:" line) eqn:E; [|reflexivity].
      rewrite (prefix_app _ _ r E) in Hsub. discriminate.
    - destruct (String.prefix "BODY:" line) eqn:E; [|reflexivity].
      rewrite (prefix_app _ _ r E) in Hbody. discriminate. }
  unfold _parse_email_response, response_lines.
  rewrite (strip_trimmed _ _ _ Hlead Htrail Hcore).
  rewrite (fold_parse_unmarked _ parse_init eq_refl Hall).
  rewrite Hsplit, <- take_substring. reflexivity.
Qed.


(** ** Properties of the storage layer *)

Lemma set_approval_queue_same (d : db) :
  set_approval_queue (approval_queue d) d = d.
Proof. destruct d; reflexivity. Qed.

(** C3, as the code has it. When no request has the given id,
    [update_approval_status] returns normally and leaves the database as it
    was: no NotFound error is raised. *)
Theorem update_status_unknown_id_is_silent (now : Z) (request_id status : string)
    (slack_ts : option string) (d : db) :
  approval_queue d !! request_id = None ->
  update_approval_status now request_id status slack_ts d = (Return tt, d).
Proof.
  intros Hnone. unfold update_approval_status.
  rewrite alter_id' by exact Hnone.
  rewrite set_approval_queue_same. reflexivity.
Qed.

(** A lookup that follows [cache_contacts] for the same domain, made
    while the entry is no older than the expiry window, returns the list
    that was stored when the list survives the codec, and leaves the
    database as the store left it. *)
Lemma lookup_after_store (now now' window : Z) (domain : string)
    (contacts : list ApolloContact.t) (d : db) :
  json_loads (json_dumps contacts) = Return contacts ->
  timedelta_days (CACHE_EXPIRY_DAYS config) = Return window ->
  (now' - now <= window)%Z ->
  get_cached_contacts now' domain (snd (cache_contacts now domain contacts d))
  = (Return (Some contacts), snd (cache_contacts now domain contacts d)).
Proof.
  intros Hjson Hwindow Hfresh. unfold get_cached_contacts, cache_contacts.
  simpl. rewrite lookup_insert_eq, Hwindow. simpl.
  destruct (Z.ltb_spec window (now' - now)); [lia|].
  rewrite Hjson. reflexivity.
Qed.

(** C6. A lookup of a domain whose entry is older than the configured
    expiry window reports no entry and deletes the entry from the cache.
    The window is the [timedelta] of [CACHE_EXPIRY_DAYS] days. *)
Theorem expired_entry_is_purged (now window : Z) (domain : string)
    (row : cache_row) (d : db) :
  company_cache d !! domain = Some row ->
  timedelta_days (CACHE_EXPIRY_DAYS config) = Return window ->
  (window < now - fetched_at row)%Z ->
  get_cached_contacts now domain d
  = (Return None, set_company_cache (delete domain (company_cache d)) d)
  /\ company_cache (snd (get_cached_contacts now domain d)) !! domain = None.
Proof.
  intros Hrow Hwindow Hold. unfold get_cached_contacts.
  rewrite Hrow, Hwindow.
  destruct (Z.ltb_spec window (now - fetched_at row)); [|lia].
  split; [reflexivity|]. simpl. apply lookup_delete_eq.
Qed.

(** ** Properties of the signature check *)

Lemma float_of_int_in_range (n : Z) :
  (Z.abs n < 2 ^ 1024 - 2 ^ 970)%Z -> float_of_int n = Return (inject_Z n).
Proof.
  intros H. unfold float_of_int.
  destruct (Z.ltb_spec (Z.abs n) (2 ^ 1024 - 2 ^ 970)); [reflexivity|lia].
Qed.

Lemma far_from_now (now t : Q) :
  (301 <= Qabs (now - t))%Q ->
  Qle_bool (Qabs (now - t)) (inject_Z (60 * 5)) = false.
Proof.
  intros Hfar. destruct (Qle_bool _ _) eqn:Hle; [|reflexivity].
  apply Qle_bool_iff in Hle.
  assert (Habs : (301 <= inject_Z (60 * 5))%Q) by (eapply Qle_trans; eauto).
  exfalso. revert Habs. unfold Qle. simpl. lia.
Qed.

(** X30. An event whose timestamp header [int()] reads as an integer
    within the range of a float and 301 seconds or more away from the
    current time is reported unauthenticated, whatever its signature, the
    correct one included: the check returns [False] and the endpoint
    answers 401. *)
Theorem stale_timestamp_is_rejected (now : Q) (request : slack_request)
    (ts : Z) :
  Py.int (default "" (X_Slack_Request_Timestamp request)) = Some ts ->
  (Z.abs ts < 2 ^ 1024 - 2 ^ 970)%Z ->
  (301 <= Qabs (now - inject_Z ts))%Q ->
  verify_slack_signature now request = Return false
  /\ forall s, time_time env (ticks s) = now ->
       fst (handle_slack_interactions request s)
       = Return (jsonify [("error", "Invalid signature")] 401).
Proof.
  intros Hint Hrange Hfar.
  assert (Hv : verify_slack_signature now request = Return false).
  { unfold verify_slack_signature. rewrite Hint.
    rewrite (float_of_int_in_range _ Hrange).
    rewrite (far_from_now _ _ Hfar). reflexivity. }
  split; [exact Hv|].
  intros s Hnow. unfold handle_slack_interactions, bind, read_time, lift.
  rewrite Hnow, Hv. reflexivity.
Qed.

(** What [parse_digits] accepts: after a digit, nothing more, more
    digits, or an underscore and more digits. *)
Lemma parse_digits_groups (s : string) :
  forall (acc n : Z) (prev : bool),
    Py.parse_digits acc prev s = Some n ->
    if prev
    then s = "" \/ digit_groups s
         \/ exists t, s = String "_" t /\ digit_groups t
    else digit_groups s.
Proof.
  induction s as [|c s IH]; intros acc n prev H; cbn [Py.parse_digits] in H.
  - destruct prev; [auto | discriminate].
  - destruct (Py.is_digit c) eqn:Hd.
    + assert (Hg : digit_groups (String c s)).
      { specialize (IH _ _ _ H). cbn in IH.
        destruct IH as [-> | [Hs | (t & -> & Ht)]];
          [apply digit_alone | apply digit_then_digits
          | apply digit_then_underscore]; assumption. }
      destruct prev; auto.
    + destruct (Ascii.eqb_spec c "_") as [->|]; [|discriminate].
      destruct prev; [|discriminate].
      right. right. exists s. split; [reflexivity|].
      exact (IH _ _ _ H).
Qed.

(** The sign that [int] looks for, as a test on the first character. *)
Lemma int_sign_cases (v : string) (c : ascii) (t : string) :
  Py.strip_by Py.int_space v = String c t ->
  Py.int v
  = if (Py.int_max_str_digits <? Py.count_digits (String c t))%nat
    then None
    else if Ascii.eqb c "+" then Py.parse_digits 0 false t
    else if Ascii.eqb c "-" then Z.opp <$> Py.parse_digits 0 false t
    else Py.parse_digits 0 false (String c t).
Proof.
  intros H. unfold Py.int. rewrite H.
  destruct (_ <? _)%nat; [reflexivity|].
  destruct c as [[] [] [] [] [] [] [] []]; reflexivity.
Qed.

Lemma count_digits_sign (c : ascii) (t : string) :
  Py.is_digit c = false -> Py.count_digits (String c t) = Py.count_digits t.
Proof. intros H. cbn [Py.count_digits]. rewrite H. reflexivity. Qed.

(** Whatever [int] reads is a literal. *)
Lemma int_reads_literals (v : string) (n : Z) :
  Py.int v = Some n -> int_literal v.
Proof.
  intros H.
  destruct (strip_by_split Py.int_space v) as (lead & trail & Hv & Hl & Ht).
  destruct (Py.strip_by Py.int_space v) as [|c t] eqn:Hstrip.
  - unfold Py.int in H. rewrite Hstrip in H. discriminate.
  - rewrite (int_sign_cases v c t Hstrip) in H.
    destruct (Nat.ltb_spec Py.int_max_str_digits
                (Py.count_digits (String c t))) as [|Hcount];
      [discriminate|].
    destruct (Ascii.eqb_spec c "+") as [->|Hplus].
    + exists lead, "+", t, trail.
      rewrite count_digits_sign in Hcount by reflexivity.
      repeat split; auto. exact (parse_digits_groups _ _ _ _ H).
    + destruct (Ascii.eqb_spec c "-") as [->|Hminus].
      * destruct (Py.parse_digits 0 false t) as [m|] eqn:Hm; [|discriminate].
        exists lead, "-", t, trail.
        rewrite count_digits_sign in Hcount by reflexivity.
        repeat split; auto. exact (parse_digits_groups _ _ _ _ Hm).
      * exists lead, "", (String c t), trail.
        repeat split; auto. exact (parse_digits_groups _ _ _ _ H).
Qed.

Lemma string_app_assoc (a b c : string) : (a ++ b) ++ c = a ++ b ++ c.
Proof.
  induction a as [|x a IH]; [reflexivity|].
  rewrite !string_app_cons, IH. reflexivity.
Qed.

Lemma digit_is_not_blank (c : ascii) :
  Py.is_digit c = true -> Py.int_space c = false.
Proof.
  destruct c as [[] [] [] [] [] [] [] []]; vm_compute; intros; congruence.
Qed.

(** Digit groups open and close with a digit. *)
Lemma digit_groups_ends (s : string) :
  digit_groups s ->
  (exists c t, s = String c t /\ Py.is_digit c = true)
  /\ (exists t c, s = t ++ String c "" /\ Py.is_digit c = true).
Proof.
  induction 1 as [c Hc | c s Hc Hs [_ (t & c' & -> & Hc')]
                 | c s Hc Hs [_ (t & c' & -> & Hc')]].
  - split; [exists c, ""; auto | exists "", c; auto].
  - split; [eexists _, _; eauto|].
    exists (String c t), c'. auto.
  - split; [eexists _, _; eauto|].
    exists (String c (String "_" t)), c'. auto.
Qed.

Lemma digit_groups_parse (s : string) :
  digit_groups s ->
  forall acc prev, exists n, Py.parse_digits acc prev s = Some n.
Proof.
  induction 1 as [c Hc | c s Hc Hs IH | c s Hc Hs IH]; intros acc prev;
    cbn [Py.parse_digits]; rewrite Hc.
  - eexists. reflexivity.
  - apply IH.
  - change (Py.is_digit "_") with false. cbn match.
    change (Ascii.eqb "_" "_") with true. cbn match. apply IH.
Qed.

(** Every literal is read: with [int_reads_literals], the literals are
    what [int] reads, no more and no less. *)
Lemma literals_are_read (v : string) :
  int_literal v -> exists n, Py.int v = Some n.
Proof.
  intros (lead & sign & body & trail & -> & Hlead & Htrail & Hsign & Hbody
          & Hcount).
  destruct (digit_groups_ends _ Hbody)
    as [(c & t & Hhead & Hc) (t' & c' & Hlast & Hc')].
  assert (Hstrip : Py.strip_by Py.int_space (lead ++ sign ++ body ++ trail)
                   = sign ++ body).
  { unfold Py.strip_by. rewrite (lstrip_by_every _ _ _ Hlead).
    assert (Hopen : exists x y, sign ++ body ++ trail = String x y
                                /\ Py.int_space x = false).
    { destruct Hsign as [-> | [-> | ->]].
      - rewrite string_app_empty, Hhead, string_app_cons.
        eexists _, _. split; [reflexivity | apply digit_is_not_blank, Hc].
      - eexists _, _. split; reflexivity.
      - eexists _, _. split; reflexivity. }
    destruct Hopen as (x & y & Hxy & Hx).
    rewrite Hxy. cbn [Py.lstrip_by]. rewrite Hx, <- Hxy.
    rewrite <- string_app_assoc, (rstrip_by_every _ _ _ Htrail).
    rewrite Hlast, <- string_app_assoc.
    apply rstrip_by_last, digit_is_not_blank, Hc'. }
  destruct (digit_groups_parse _ Hbody 0%Z false) as (n & Hn).
  destruct Hsign as [-> | [-> | ->]].
  - assert (Hstrip' : Py.strip_by Py.int_space (lead ++ "" ++ body ++ trail)
                      = String c t)
      by (rewrite Hstrip; exact Hhead).
    rewrite (int_sign_cases _ _ _ Hstrip'), <- Hhead.
    destruct (Nat.ltb_spec Py.int_max_str_digits (Py.count_digits body));
      [lia|].
    destruct (Ascii.eqb_spec c "+") as [->|]; [discriminate Hc|].
    destruct (Ascii.eqb_spec c "-") as [->|]; [discriminate Hc|].
    exists n. exact Hn.
  - change ("+" ++ body) with (String "+" body) in Hstrip.
    rewrite (int_sign_cases _ _ _ Hstrip).
    rewrite count_digits_sign by reflexivity.
    destruct (Nat.ltb_spec Py.int_max_str_digits (Py.count_digits body));
      [lia|].
    exists n. exact Hn.
  - change ("-" ++ body) with (String "-" body) in Hstrip.
    rewrite (int_sign_cases _ _ _ Hstrip).
    rewrite count_digits_sign by reflexivity.
    destruct (Nat.ltb_spec Py.int_max_str_digits (Py.count_digits body));
      [lia|].
    exists (- n)%Z. change (Ascii.eqb "-" "+") with false. cbn match.
    change (Ascii.eqb "-" "-") with true. cbn match. rewrite Hn. reflexivity.
Qed.

(** C9, as the code has it. When the timestamp header is absent, or holds
    a string that is not an integer literal, the signature check raises
    [ValueError] instead of returning [False], and the exception leaves
    [handle_slack_interactions]: the endpoint does not answer 401, and the
    database is not touched. *)
Theorem bad_timestamp_raises (request : slack_request) :
  X_Slack_Request_Timestamp request = None
  \/ (exists v, X_Slack_Request_Timestamp request = Some v
                /\ ~ int_literal v) ->
  (forall now, exists e,
      verify_slack_signature now request = Raise e
      /\ exn_kind e = ValueError)
  /\ (forall s, exists e,
         fst (handle_slack_interactions request s) = Raise e
         /\ exn_kind e = ValueError
         /\ store (snd (handle_slack_interactions request s)) = store s).
Proof.
  intros Hbad.
  assert (Hint : Py.int (default "" (X_Slack_Request_Timestamp request)) = None).
  { destruct Hbad as [-> | (v & -> & Hv)]; [reflexivity|].
    change (default "" (Some v)) with v.
    destruct (Py.int v) as [n|] eqn:Hn; [|reflexivity].
    destruct (Hv (int_reads_literals _ _ Hn)). }
  assert (Hv : forall now, verify_slack_signature now request
                = Raise {| exn_kind := ValueError;
                           exn_message :=
                             "invalid literal for int() with base 10" |}).
  { intros now. unfold verify_slack_signature. rewrite Hint. reflexivity. }
  split.
  - intros now. eexists. split; [apply Hv | reflexivity].
  - intros s. unfold handle_slack_interactions, bind, read_time, lift.
    rewrite Hv. simpl. eexists. repeat split.
Qed.

(** ** Which statuses are written *)

Section Preservation.

Context {A B : Type} (I : db -> Prop).

Lemma preserves_ret (a : A) : preserves I (ret a).
Proof. intros s H. exact H. Qed.

Lemma preserves_raise (e : exn) : preserves I (@raise A e).
Proof. intros s H. exact H. Qed.

Lemma preserves_lift (r : result A) : preserves I (lift r).
Proof. intros s H. exact H. Qed.

Lemma preserves_request_to (c : ext_call)
    (answer : list ext_call -> result A) :
  preserves I (request_to c answer).
Proof. intros s H. exact H. Qed.

Lemma preserves_bind (m : M A) (k : A -> M B) :
  preserves I m -> (forall a, preserves I (k a)) -> preserves I (bind m k).
Proof.
  intros Hm Hk s H. unfold bind. specialize (Hm s H).
  destruct (m s) as [[a|e] s']; simpl in *; [apply Hk|]; assumption.
Qed.

Lemma preserves_try_except (m : M A) (h : exn -> M A) :
  preserves I m -> (forall e, preserves I (h e)) ->
  preserves I (try_except m h).
Proof.
  intros Hm Hh s H. unfold try_except. specialize (Hm s H).
  destruct (m s) as [[a|e] s']; simpl in *; [|apply Hh]; assumption.
Qed.

Lemma preserves_transaction (f : Z -> db -> result A * db) :
  (forall now d, I d -> I (snd (f now d))) -> preserves I (transaction env f).
Proof.
  intros Hf s H. unfold transaction.
  specialize (Hf (datetime_now env (ticks s)) (store s) H).
  destruct (f _ _); exact Hf.
Qed.

Lemma preserves_query (f : db -> result A * db) :
  (forall d, I d -> I (snd (f d))) -> preserves I (query f).
Proof.
  intros Hf s H. unfold query. specialize (Hf (store s) H).
  destruct (f _); exact Hf.
Qed.

End Preservation.

Lemma preserves_read_time (I : db -> Prop) : preserves I read_time.
Proof. intros s H. exact H. Qed.

Lemma statuses_from_refl (d : db) : statuses_from d d.
Proof. intros i st H. left. exact H. Qed.

Lemma statuses_from_same_queue (d0 d d' : db) :
  approval_queue d' = approval_queue d ->
  statuses_from d0 d -> statuses_from d0 d'.
Proof.
  intros Hq H i st. unfold status_of. rewrite Hq. apply H.
Qed.

Lemma get_cached_contacts_queue (now : Z) (domain : string) (d : db) :
  approval_queue (snd (get_cached_contacts now domain d)) = approval_queue d.
Proof.
  unfold get_cached_contacts.
  destruct (company_cache d !! domain) as [row|]; [|reflexivity].
  destruct (timedelta_days _) as [expiry|e]; [|reflexivity].
  destruct (_ <? _)%Z; [reflexivity|].
  destruct (json_loads _); reflexivity.
Qed.

Lemma status_of_update (now : Z) (request_id status : string)
    (slack_ts : option string) (d : db) (i : string) :
  status_of i (snd (update_approval_status now request_id status slack_ts d))
  = if decide (request_id = i)
    then (fun _ => status) <$> status_of i d
    else status_of i d.
Proof.
  unfold update_approval_status, status_of. simpl.
  rewrite lookup_alter. destruct (decide (request_id = i)) as [->|]; [|reflexivity].
  destruct (approval_queue d !! i) as [row|]; [|reflexivity].
  simpl. unfold update_status_row.
  destruct (Py.truthy_opt slack_ts); reflexivity.
Qed.

Lemma update_status_statuses_from (now : Z) (request_id status : string)
    (slack_ts : option string) (d0 d : db) :
  written_status status ->
  statuses_from d0 d ->
  statuses_from d0
    (snd (update_approval_status now request_id status slack_ts d)).
Proof.
  intros Hw H i st. rewrite status_of_update.
  destruct (decide (request_id = i)); [|apply H].
  destruct (status_of i d); simpl; [|discriminate].
  intros [= <-]. right. exact Hw.
Qed.

Lemma save_request_statuses_from (now : Z) (request : ApprovalRequest.t)
    (d0 d : db) :
  written_status (ApprovalRequest.status request) ->
  statuses_from d0 d ->
  statuses_from d0 (snd (save_approval_request now request d)).
Proof.
  intros Hw H. unfold save_approval_request.
  destruct (approval_queue d !! ApprovalRequest.id request); [exact H|].
  intros i st. unfold status_of. simpl. rewrite lookup_insert.
  destruct (decide (ApprovalRequest.id request = i)); [|apply H].
  simpl. intros [= <-]. right. exact Hw.
Qed.

(** Closing the routine cases of a [preserves] goal. *)
Ltac preserve_with known :=
  repeat first
    [ known
    | apply preserves_ret
    | apply preserves_raise
    | apply preserves_lift
    | apply preserves_read_time
    | apply preserves_request_to
    | apply preserves_bind; [|intros ?]
    | apply preserves_try_except; [|intros ?]
    | match goal with
      | |- preserves _ (if ?b then _ else _) => destruct b
      | |- preserves _ (match ?x with _ => _ end) => destruct x
      end ].

Ltac preserve := preserve_with fail.

Lemma search_people_statuses (d0 : db) (domain : string) :
  preserves (statuses_from d0) (search_people domain).
Proof.
  unfold search_people. preserve.
  apply preserves_transaction. intros now d H.
  eapply statuses_from_same_queue; [apply get_cached_contacts_queue|exact H].
Qed.

Lemma handle_approve_statuses (d0 : db) (request : ApprovalRequest.t)
    (channel ts : option string) :
  preserves (statuses_from d0) (handle_approve request channel ts).
Proof.
  unfold handle_approve, create_contact, add_to_sequence,
    update_card_approved, _update_message.
  destruct (Py.split_once_space _). preserve.
  apply preserves_transaction. intros now d H.
  apply update_status_statuses_from; [|exact H].
  right. left. reflexivity.
Qed.

Lemma handle_skip_statuses (d0 : db) (request : ApprovalRequest.t)
    (channel ts : option string) :
  preserves (statuses_from d0) (handle_skip request channel ts).
Proof.
  unfold handle_skip, update_card_rejected, _update_message. preserve.
  apply preserves_transaction. intros now d H.
  apply update_status_statuses_from; [|exact H].
  right. right. reflexivity.
Qed.

Lemma handle_slack_interactions_statuses (d0 : db) (request : slack_request) :
  preserves (statuses_from d0) (handle_slack_interactions request).
Proof.
  unfold handle_slack_interactions, dispatch_interaction, handle_edit,
    handle_regenerate.
  preserve_with
    ltac:(first [apply handle_approve_statuses | apply handle_skip_statuses]).
  apply preserves_query; intros d H; unfold get_approval_request;
    destruct (value _); exact H.
Qed.

Lemma handle_reporadar_webhook_statuses (d0 : db)
    (parsed : result RepoRadarPayload.t) (new_id : string) :
  preserves (statuses_from d0) (handle_reporadar_webhook parsed new_id).
Proof.
  unfold handle_reporadar_webhook, generate_personalized_email,
    post_approval_card.
  preserve_with ltac:(apply search_people_statuses).
  all: apply preserves_transaction; intros now d H.
  all: first
    [ apply save_request_statuses_from; [left; reflexivity | exact H]
    | apply update_status_statuses_from; [left; reflexivity | exact H] ].
Qed.

(** Whatever the state, an operation leaves every request with the status
    it had or with one of the three statuses the program writes. *)
Lemma perform_statuses (o : operation) (s : sys) :
  statuses_from (store s) (store (snd (perform o s))).
Proof.
  destruct o as [parsed new_id | request]; simpl.
  - apply handle_reporadar_webhook_statuses, statuses_from_refl.
  - apply handle_slack_interactions_statuses, statuses_from_refl.
Qed.

(** C10. In every state the program reaches from the database that
    [init_db] creates, each stored request has status pending, approved or
    skipped: the only statuses written are these three, and no request is
    ever rejected. *)
Theorem rejected_is_never_written (s : sys) :
  reachable s ->
  forall request_id st,
    status_of request_id (store s) = Some st ->
    written_status st /\ st <> "rejected".
Proof.
  intros Hreach.
  assert (Hw : forall request_id st,
             status_of request_id (store s) = Some st -> written_status st).
  { induction Hreach as [|o s _ IH]; intros i st.
    - unfold status_of. simpl. rewrite lookup_empty. discriminate.
    - intros H. destruct (perform_statuses o s i st H) as [Hold|Hnew];
        [exact (IH i st Hold) | exact Hnew]. }
  intros i st H. specialize (Hw i st H). split; [exact Hw|].
  destruct Hw as [->| [->| ->]]; discriminate.
Qed.

(** ** Properties of the interaction handlers *)

Lemma crm_commits_slack_update (s : sys) (channel ts : option string)
    (c : card) (request : ApprovalRequest.t) (d : db) (n : nat) :
  crm_commits {| store := d;
                 calls := List.app (calls s)
                            [SlackChatUpdate channel ts c request];
                 ticks := n |}
  = crm_commits s.
Proof.
  unfold crm_commits. simpl. rewrite List.filter_app. simpl.
  apply List.app_nil_r.
Qed.

(** The state [handle_skip] leaves: the status is written, then Slack is
    asked to update the card. *)
Lemma handle_skip_state (request : ApprovalRequest.t)
    (channel ts : option string) (s : sys) :
  snd (handle_skip request channel ts s)
  = {| store :=
         snd (update_approval_status (datetime_now env (ticks s))
                (ApprovalRequest.id request) "skipped" None (store s));
       calls := List.app (calls s)
                  [SlackChatUpdate channel ts CardSkipped request];
       ticks := S (ticks s) |}.
Proof.
  unfold handle_skip, bind, transaction, update_card_rejected, _update_message,
    try_except, request_to. simpl.
  destruct (chat_update env (calls s) channel ts CardSkipped request)
    as [[]|e]; simpl; [reflexivity|].
  destruct (is_SlackApiError e); reflexivity.
Qed.

(** A verified [skip_lead] interaction on a stored request runs
    [handle_skip] on that request. *)
Lemma skip_interaction_state (request : slack_request) (p : interaction)
    (request_id : string) (row : QueueRow.t) (s : sys) :
  verify_slack_signature (time_time env (ticks s)) request = Return true ->
  form_payload request = Return p ->
  action_id p = Some "skip_lead" ->
  value p = Some request_id ->
  approval_queue (store s) !! request_id = Some row ->
  snd (handle_slack_interactions request s)
  = snd (handle_skip (QueueRow.to_request request_id row) (channel_id p)
           (message_ts p)
           {| store := store s; calls := calls s; ticks := S (ticks s) |}).
Proof.
  intros Hverify Hpayload Haction Hvalue Hrow.
  unfold handle_slack_interactions, bind, read_time, lift. rewrite Hverify.
  simpl. unfold try_except at 1, dispatch_interaction, bind, lift.
  rewrite Hpayload. unfold query, get_approval_request. rewrite Hvalue.
  cbn [store calls ticks]. rewrite Hrow. cbn [fmap option_fmap option_map].
  rewrite Haction. cbn [from_option]. unfold id.
  change (String.eqb "skip_lead" "approve_lead") with false.
  change (String.eqb "skip_lead" "skip_lead") with true. cbv iota.
  destruct (handle_skip _ _ _ _) as [[r|e] s']; reflexivity.
Qed.

(** C1, as the code has it. A verified [skip_lead] interaction on a stored
    request writes the status skipped whatever the status was, a terminal
    one included, and sends nothing to the CRM Commit Client. *)
Theorem skip_overwrites_status (request : slack_request) (p : interaction)
    (request_id : string) (row : QueueRow.t) (s : sys) :
  verify_slack_signature (time_time env (ticks s)) request = Return true ->
  form_payload request = Return p ->
  action_id p = Some "skip_lead" ->
  value p = Some request_id ->
  approval_queue (store s) !! request_id = Some row ->
  status_of request_id (store (snd (handle_slack_interactions request s)))
  = Some "skipped"
  /\ crm_commits (snd (handle_slack_interactions request s)) = crm_commits s.
Proof.
  intros Hverify Hpayload Haction Hvalue Hrow.
  rewrite (skip_interaction_state request p request_id row s) by assumption.
  rewrite handle_skip_state. cbn [store calls ticks]. split.
  - rewrite status_of_update. cbn [ApprovalRequest.id QueueRow.to_request].
    destruct (decide (request_id = request_id)); [|congruence].
    unfold status_of. rewrite Hrow. reflexivity.
  - apply crm_commits_slack_update.
Qed.

(** [handle_approve] step by step: the four steps of a delivery that
    follow the lookup. *)
Lemma handle_approve_thread (request : ApprovalRequest.t)
    (channel ts : option string) (s : sys) :
  exists response,
    thread_run 4 (AtCreate request channel ts) s
    = (Finished response, snd (handle_approve request channel ts s))
    /\ fst (handle_approve request channel ts s) = Return response.
Proof.
  unfold handle_approve, approve_failed, thread_run, thread_step,
    approve_contact_args, approve_failed.
  destruct (Py.split_once_space _) as [first_name rest].
  unfold try_except, bind, create_contact, add_to_sequence, request_to,
    transaction, update_card_approved, _update_message, try_except,
    request_to, update_approval_status, ret, raise.
  cbn [store calls ticks fst snd].
  destruct (contacts_create env (calls s) _) as [new_contact_id|e];
    [|eexists; split; reflexivity].
  destruct (Py.truthy_opt new_contact_id).
  - cbn [store calls ticks fst snd].
    destruct (add_contact_ids env _ _ _) as [[]|e];
      [|eexists; split; reflexivity].
    cbn [store calls ticks fst snd].
    destruct (chat_update env _ _ _ _ _) as [[]|e];
      [eexists; split; reflexivity|].
    destruct (is_SlackApiError e); eexists; split; reflexivity.
  - cbn [store calls ticks fst snd].
    destruct (chat_update env _ _ _ _ _) as [[]|e];
      [eexists; split; reflexivity|].
    destruct (is_SlackApiError e); eexists; split; reflexivity.
Qed.

(** A delivery of [approve_lead], once decoded, step by step. *)
Lemma approve_interaction_thread (request : slack_request) (p : interaction)
    (s : sys) :
  form_payload request = Return p ->
  action_id p = Some "approve_lead" ->
  exists response,
    thread_run 5 (AtLookup (value p) (channel_id p) (message_ts p)) s
    = (Finished response, snd (dispatch_interaction request s))
    /\ fst (dispatch_interaction request s) = Return response.
Proof.
  intros Hpayload Haction.
  unfold dispatch_interaction, bind, lift. rewrite Hpayload, Haction.
  cbn [from_option]. unfold id.
  change (String.eqb "approve_lead" "approve_lead") with true. cbv iota.
  change (thread_run 5 ?t s)
    with (let '(t', s') := thread_step t s in thread_run 4 t' s').
  cbn [thread_step].
  destruct (query (get_approval_request (value p)) s) as [[[r|]|e] s'] eqn:Hq.
  - apply handle_approve_thread.
  - eexists. split; reflexivity.
  - unfold query, get_approval_request in Hq.
    destruct (value p); discriminate.
Qed.

(** C4, as the code has it. When the creation of the contact succeeds for
    a pending request, the request is marked approved if the enrollment
    returns, or is not attempted because the creation gave no contact id;
    if the enrollment raises, [handle_approve] answers 500 and the request
    stays pending. *)
Theorem approval_depends_on_enrollment (request : ApprovalRequest.t)
    (channel ts : option string) (row : QueueRow.t) (s : sys)
    (new_contact_id : option string) :
  approval_queue (store s) !! ApprovalRequest.id request = Some row ->
  QueueRow.status row = "pending" ->
  contacts_create env (calls s) (approve_contact_args request)
  = Return new_contact_id ->
  match enrollment_after request s new_contact_id with
  | Return _ =>
      status_of (ApprovalRequest.id request)
        (store (snd (handle_approve request channel ts s)))
      = Some "approved"
  | Raise e =>
      status_of (ApprovalRequest.id request)
        (store (snd (handle_approve request channel ts s)))
      = Some "pending"
      /\ fst (handle_approve request channel ts s)
         = Return (jsonify [("error", exn_message e)] 500)
  end.
Proof.
  intros Hrow Hpending Hcreate.
  assert (Hupdated : forall now,
            status_of (ApprovalRequest.id request)
              (snd (update_approval_status now (ApprovalRequest.id request)
                      "approved" None (store s)))
            = Some "approved").
  { intros now. rewrite status_of_update.
    destruct (decide (_ = _)); [|congruence].
    unfold status_of. rewrite Hrow. reflexivity. }
  assert (Hkept : status_of (ApprovalRequest.id request) (store s)
                  = Some "pending").
  { unfold status_of. rewrite Hrow. simpl. congruence. }
  unfold update_approval_status in Hupdated. cbn [snd] in Hupdated.
  unfold enrollment_after. revert Hcreate.
  unfold handle_approve, approve_contact_args.
  destruct (Py.split_once_space _) as [first_name rest]. intros Hcreate.
  unfold try_except, bind, create_contact, add_to_sequence, request_to,
    transaction, update_card_approved, _update_message, try_except,
    request_to, update_approval_status, ret, raise.
  cbn [store calls ticks fst snd]. rewrite Hcreate.
  destruct (Py.truthy_opt new_contact_id); cbn [store calls ticks fst snd].
  - destruct (add_contact_ids env _ _ _) as [[]|e];
      cbn [store calls ticks fst snd]; [|split; [exact Hkept|reflexivity]].
    destruct (chat_update env _ _ _ _ _) as [[]|e]; [apply Hupdated|].
    destruct (is_SlackApiError e); apply Hupdated.
  - destruct (chat_update env _ _ _ _ _) as [[]|e]; [apply Hupdated|].
    destruct (is_SlackApiError e); apply Hupdated.
Qed.

(** ** Two deliveries of one approval *)

Lemma contact_creations_call (d d' : db) (l : list ext_call) (c : ext_call)
    (n n' : nat) :
  contact_creations {| store := d'; calls := List.app l [c]; ticks := n' |}
  = (contact_creations {| store := d; calls := l; ticks := n |}
     + if is_create_contact c then 1 else 0)%nat.
Proof.
  unfold contact_creations. simpl. rewrite List.filter_app, List.length_app.
  simpl. destruct (is_create_contact c); reflexivity.
Qed.

(** One step of a delivery about a stored request: the request stays
    stored, the creations sent grow by what the step sent, and a status
    approved stays approved. *)
Lemma thread_step_spec (request_id : string) (t t' : approve_thread)
    (s s' : sys) :
  thread_step t s = (t', s') ->
  is_Some (approval_queue (store s) !! request_id) ->
  thread_for request_id t ->
  is_Some (approval_queue (store s') !! request_id)
  /\ thread_for request_id t'
  /\ (contact_creations s' + created t = contact_creations s + created t')%nat
  /\ (status_of request_id (store s) = Some "approved" ->
      status_of request_id (store s') = Some "approved")
  /\ (has_approved t' ->
      has_approved t \/ status_of request_id (store s') = Some "approved").
Proof.
  intros Hstep Hstored Hfor. destruct s as [d l n].
  destruct t as [r ch ts|r ch ts|r ch ts i|r ch ts|r ch ts|response];
    cbn [thread_for] in Hfor; cbn [thread_step] in Hstep.
  - (* the lookup *)
    subst r. unfold query, get_approval_request in Hstep.
    cbn [store calls ticks] in *. destruct Hstored as [row Hrow].
    rewrite Hrow in Hstep. simpl in Hstep. injection Hstep as <- <-.
    cbn [store thread_for created has_approved QueueRow.to_request
         ApprovalRequest.id].
    repeat split; eauto; intros [].
  - (* the creation of the contact *)
    unfold create_contact, request_to in Hstep. cbn [store calls ticks] in *.
    assert (Hcount : forall t0, created t0 = 1%nat ->
      (contact_creations
         {| store := d;
            calls := List.app l [ApolloCreateContact (approve_contact_args r)];
            ticks := n |} + 0
       = contact_creations {| store := d; calls := l; ticks := n |}
         + created t0)%nat).
    { intros t0 ->. rewrite (contact_creations_call d d l _ n n). simpl. lia. }
    destruct (contacts_create env l _) as [o|e];
      [destruct (Py.truthy_opt o)|]; injection Hstep as <- <-;
      cbn [store thread_for has_approved approve_failed];
      repeat split; auto;
      first [apply Hcount; reflexivity | unfold jsonify; intros [=] | intros []].
  - (* the enrollment *)
    unfold add_to_sequence, request_to in Hstep. cbn [store calls ticks] in *.
    assert (Hcount :
      (contact_creations
         {| store := d;
            calls := List.app l
                       [ApolloAddToSequence i (APOLLO_SEQUENCE_ID config)];
            ticks := n |} + 1
       = contact_creations {| store := d; calls := l; ticks := n |} + 1)%nat).
    { rewrite (contact_creations_call d d l _ n n). simpl. lia. }
    destruct (add_contact_ids env l _ _) as [[]|e]; injection Hstep as <- <-;
      cbn [store thread_for has_approved approve_failed created];
      repeat split; auto;
      first [unfold jsonify; intros [=] | intros []].
  - (* the status *)
    unfold transaction, update_approval_status in Hstep.
    cbn [store calls ticks] in *. injection Hstep as <- <-.
    cbn [store thread_for has_approved created]. subst request_id.
    assert (Happroved : status_of (ApprovalRequest.id r)
              (set_approval_queue
                 (alter (update_status_row (datetime_now env n) "approved" None)
                    (ApprovalRequest.id r) (approval_queue d)) d)
            = Some "approved").
    { unfold status_of. cbn [approval_queue set_approval_queue].
      rewrite lookup_alter_eq. destruct Hstored as [row ->]. reflexivity. }
    repeat split; auto.
    cbn [approval_queue set_approval_queue].
    apply lookup_alter_is_Some. exact Hstored.
  - (* the card *)
    unfold update_card_approved, _update_message, try_except, request_to
      in Hstep.
    cbn [store calls ticks] in *.
    assert (Hcount : forall d',
      (contact_creations
         {| store := d';
            calls := List.app l [SlackChatUpdate ch ts CardApproved r];
            ticks := n |} + 1
       = contact_creations {| store := d; calls := l; ticks := n |} + 1)%nat).
    { intros d'. rewrite (contact_creations_call d d' l _ n n). simpl. lia. }
    destruct (chat_update env l ch ts CardApproved r) as [[]|e];
      [|destruct (is_SlackApiError e)]; injection Hstep as <- <-;
      cbn [store thread_for has_approved created approve_failed];
      repeat split; auto; unfold jsonify; intros [=].
  - (* nothing left to do *)
    injection Hstep as <- <-. repeat split; auto.
Qed.

Lemma run_schedule_invariant (request_id : string) (n : nat)
    (schedule : list bool) (c : duo) :
  duo_invariant request_id n c ->
  duo_invariant request_id n (run_schedule schedule c).
Proof.
  revert c. induction schedule as [|b rest IH]; intros c Hinv; [exact Hinv|].
  destruct c as [t1 t2 s].
  destruct Hinv as (Hstored & Hfor1 & Hfor2 & Hcount & Happroved).
  cbn [first second shared] in *.
  destruct b; cbn [run_schedule first second shared].
  - destruct (thread_step t1 s) as [t1' s'] eqn:Hstep. apply IH.
    destruct (thread_step_spec request_id _ _ _ _ Hstep Hstored Hfor1)
      as (Hstored' & Hfor' & Hcount' & Hkeep & Hnew).
    unfold duo_invariant. cbn [first second shared].
    repeat split; try assumption; [lia|].
    intros [H1|H2]; [destruct (Hnew H1); auto|]; auto.
  - destruct (thread_step t2 s) as [t2' s'] eqn:Hstep. apply IH.
    destruct (thread_step_spec request_id _ _ _ _ Hstep Hstored Hfor2)
      as (Hstored' & Hfor' & Hcount' & Hkeep & Hnew).
    unfold duo_invariant. cbn [first second shared].
    repeat split; try assumption; [lia|].
    intros [H1|H2]; [|destruct (Hnew H2); auto]; auto.
Qed.

(** C2, as the code has it. When the same [approve_lead] interaction on a
    pending request is delivered twice, each delivery sends its own contact
    creation: under every interleaving of the two deliveries that lets both
    finish, Apollo receives two creations, not one; and the request is
    approved as soon as one delivery has answered approved. *)
Theorem duplicate_approval_commits_twice (schedule : list bool)
    (request_id : string) (row : QueueRow.t)
    (channel message_ts : option string) (s : sys) :
  approval_queue (store s) !! request_id = Some row ->
  QueueRow.status row = "pending" ->
  is_finished
    (first (run_schedule schedule
              (delivered_twice (Some request_id) channel message_ts s)))
  = true ->
  is_finished
    (second (run_schedule schedule
               (delivered_twice (Some request_id) channel message_ts s)))
  = true ->
  contact_creations
    (shared (run_schedule schedule
               (delivered_twice (Some request_id) channel message_ts s)))
  = (contact_creations s + 2)%nat
  /\ (first (run_schedule schedule
               (delivered_twice (Some request_id) channel message_ts s))
      = Finished (jsonify [("status", "approved")] 200)
      \/ second (run_schedule schedule
                   (delivered_twice (Some request_id) channel message_ts s))
         = Finished (jsonify [("status", "approved")] 200) ->
      status_of request_id
        (store (shared (run_schedule schedule
                          (delivered_twice (Some request_id) channel
                             message_ts s))))
      = Some "approved").
Proof.
  intros Hrow _.
  assert (Hinv : duo_invariant request_id (contact_creations s)
                   (run_schedule schedule
                      (delivered_twice (Some request_id) channel
                         message_ts s))).
  { apply run_schedule_invariant. unfold duo_invariant, delivered_twice.
    cbn [first second shared thread_for created has_approved].
    repeat split; eauto; [lia | intros [[]|[]]]. }
  destruct Hinv as (_ & _ & _ & Hcount & Happroved).
  destruct (run_schedule _ _) as [t1 t2 s']. cbn [first second shared] in *.
  intros Hfin1 Hfin2.
  destruct t1 as [| | | | |r1]; try discriminate.
  destruct t2 as [| | | | |r2]; try discriminate.
  cbn [created] in Hcount. split; [lia|].
  intros [[= ->]|[= ->]]; apply Happroved; cbn [has_approved]; auto.
Qed.

(** ** Further properties of the schema and of the storage layer *)

(** X1. The display name of a contact is never the empty string: it is
    the full name, or the first and last names, or the one that is there,
    or [Unknown]. *)
Theorem display_name_is_not_empty (c : ApolloContact.t) :
  ApolloContact.display_name c <> "".
Proof.
  unfold ApolloContact.display_name, ApolloContact.or_else.
  destruct (ApolloContact.name c) as [[|a n]|]; simpl;
    destruct (ApolloContact.first_name c) as [[|b f]|]; simpl;
    destruct (ApolloContact.last_name c) as [[|e l]|]; simpl;
    discriminate.
Qed.

(** X2. A request saved under an id that is not yet in the queue is the
    one [get_approval_request] then returns for that id: every field is
    the one of the request that was saved, except [created_at], which is
    the time of the call. *)
Theorem saved_request_is_found (now : Z) (request : ApprovalRequest.t)
    (d : db) :
  approval_queue d !! ApprovalRequest.id request = None ->
  fst (save_approval_request now request d) = Return tt
  /\ fst (get_approval_request (Some (ApprovalRequest.id request))
            (snd (save_approval_request now request d)))
     = Return
         (Some
            {| ApprovalRequest.id := ApprovalRequest.id request;
               ApprovalRequest.company := ApprovalRequest.company request;
               ApprovalRequest.domain := ApprovalRequest.domain request;
               ApprovalRequest.signal_summary :=
                 ApprovalRequest.signal_summary request;
               ApprovalRequest.contact_id :=
                 ApprovalRequest.contact_id request;
               ApprovalRequest.contact_name :=
                 ApprovalRequest.contact_name request;
               ApprovalRequest.contact_title :=
                 ApprovalRequest.contact_title request;
               ApprovalRequest.contact_email :=
                 ApprovalRequest.contact_email request;
               ApprovalRequest.personalized_subject :=
                 ApprovalRequest.personalized_subject request;
               ApprovalRequest.personalized_email :=
                 ApprovalRequest.personalized_email request;
               ApprovalRequest.i18n_signals :=
                 ApprovalRequest.i18n_signals request;
               ApprovalRequest.slack_message_ts :=
                 ApprovalRequest.slack_message_ts request;
               ApprovalRequest.status := ApprovalRequest.status request;
               ApprovalRequest.created_at := Some now |}).
Proof.
  intros Hfresh. unfold save_approval_request, get_approval_request.
  rewrite Hfresh. cbn [fst snd approval_queue set_approval_queue].
  split; [reflexivity|]. rewrite lookup_insert_eq. reflexivity.
Qed.

(** X3. Saving a request whose id is already in the queue raises
    [IntegrityError] and leaves the database as it was: the row saved
    first is kept. *)
Theorem second_save_is_refused (now now' : Z) (request again : ApprovalRequest.t)
    (d : db) :
  approval_queue d !! ApprovalRequest.id request = None ->
  ApprovalRequest.id again = ApprovalRequest.id request ->
  exists e,
    save_approval_request now' again (snd (save_approval_request now request d))
    = (Raise e, snd (save_approval_request now request d))
    /\ exn_kind e = IntegrityError.
Proof.
  intros Hfresh Hid. unfold save_approval_request at 1. rewrite Hid.
  unfold save_approval_request at 1. rewrite Hfresh.
  cbn [snd approval_queue set_approval_queue]. rewrite lookup_insert_eq.
  unfold save_approval_request. rewrite Hfresh. cbn [snd].
  eexists. split; reflexivity.
Qed.

(** What [update_approval_status] does to the request it names. *)
Lemma update_status_lead (now : Z) (request_id status : string)
    (slack_ts : option string) (d : db) (before : ApprovalRequest.t) :
  stored_request request_id d = Some before ->
  exists after,
    stored_request request_id
      (snd (update_approval_status now request_id status slack_ts d))
    = Some after
    /\ ApprovalRequest.status after = status
    /\ ApprovalRequest.slack_message_ts after
       = (if Py.truthy_opt slack_ts then slack_ts
          else ApprovalRequest.slack_message_ts before)
    /\ same_lead before after.
Proof.
  unfold stored_request, update_approval_status.
  cbn [snd approval_queue set_approval_queue]. rewrite lookup_alter_eq.
  destruct (approval_queue d !! request_id) as [row|]; [|discriminate].
  cbn [fmap option_fmap option_map]. intros [= <-].
  eexists. split; [reflexivity|]. unfold update_status_row, same_lead.
  destruct (Py.truthy_opt slack_ts); simpl; repeat split.
Qed.

(** X4. After [update_approval_status] on a stored request, the request
    has the new status; its Slack message timestamp is the one given when
    that one is a non-empty string and is otherwise kept; every other field
    is as before. *)
Theorem updated_request_keeps_its_lead (now : Z) (request_id status : string)
    (slack_ts : option string) (d : db) (before : ApprovalRequest.t) :
  stored_request request_id d = Some before ->
  exists after,
    stored_request request_id
      (snd (update_approval_status now request_id status slack_ts d))
    = Some after
    /\ ApprovalRequest.status after = status
    /\ ApprovalRequest.slack_message_ts after
       = (if Py.truthy_opt slack_ts then slack_ts
          else ApprovalRequest.slack_message_ts before)
    /\ same_lead before after.
Proof. exact (update_status_lead now request_id status slack_ts d before). Qed.

(** X5. [update_approval_status] changes no other request and does not
    touch the contact cache. *)
Theorem update_status_is_local (now : Z) (request_id status : string)
    (slack_ts : option string) (d : db) (other : string) :
  other <> request_id ->
  approval_queue (snd (update_approval_status now request_id status slack_ts d))
  !! other = approval_queue d !! other
  /\ company_cache (snd (update_approval_status now request_id status
                           slack_ts d))
     = company_cache d.
Proof.
  intros Hother. unfold update_approval_status.
  cbn [snd approval_queue company_cache set_approval_queue].
  split; [|reflexivity]. apply lookup_alter_ne. congruence.
Qed.

(** ** Properties of the cached people search *)

(** A lookup that reports no entry leaves no entry for the domain. *)
Lemma lookup_none_leaves_none (now : Z) (domain : string) (d : db) :
  fst (get_cached_contacts now domain d) = Return None ->
  company_cache (snd (get_cached_contacts now domain d)) !! domain = None
  /\ approval_queue (snd (get_cached_contacts now domain d))
     = approval_queue d.
Proof.
  unfold get_cached_contacts.
  destruct (company_cache d !! domain) as [row|] eqn:Hrow; [|auto].
  destruct (timedelta_days _) as [expiry|e]; [|discriminate].
  destruct (_ <? _)%Z.
  - intros _. cbn [snd company_cache set_company_cache approval_queue].
    split; [apply lookup_delete_eq | reflexivity].
  - destruct (json_loads _); discriminate.
Qed.

(** A live entry that decodes is returned and the database is left as it
    is. *)
Lemma lookup_live_entry (now window : Z) (domain : string)
    (row : cache_row) (contacts : list ApolloContact.t) (d : db) :
  company_cache d !! domain = Some row ->
  timedelta_days (CACHE_EXPIRY_DAYS config) = Return window ->
  (now - fetched_at row <= window)%Z ->
  json_loads (contacts_json row) = Return contacts ->
  get_cached_contacts now domain d = (Return (Some contacts), d).
Proof.
  intros Hrow Hwindow Hlive Hjson. unfold get_cached_contacts.
  rewrite Hrow, Hwindow.
  destruct (Z.ltb_spec window (now - fetched_at row)); [lia|].
  rewrite Hjson. reflexivity.
Qed.

(** A search served by the cache. *)
Lemma search_people_cache_hit (domain : string) (row : cache_row)
    (window : Z) (c : ApolloContact.t) (cs : list ApolloContact.t)
    (s : sys) :
  company_cache (store s) !! domain = Some row ->
  timedelta_days (CACHE_EXPIRY_DAYS config) = Return window ->
  (datetime_now env (ticks s) - fetched_at row <= window)%Z ->
  json_loads (contacts_json row) = Return (c :: cs) ->
  fst (search_people domain s) = Return (c :: cs)
  /\ store (snd (search_people domain s)) = store s
  /\ calls (snd (search_people domain s)) = calls s.
Proof.
  intros Hrow Hwindow Hlive Hjson. unfold search_people, bind, transaction.
  rewrite (lookup_live_entry _ _ _ _ _ _ Hrow Hwindow Hlive Hjson).
  repeat split.
Qed.

(** X6. When the cache holds an entry for the domain that is no older
    than the expiry window, the [timedelta] of [CACHE_EXPIRY_DAYS] days, and
    decodes to a non-empty list, [search_people] returns that list, sends
    no request to Apollo and leaves the database as it is. *)
Theorem search_people_uses_the_cache (domain : string) (row : cache_row)
    (window : Z) (c : ApolloContact.t) (cs : list ApolloContact.t)
    (s : sys) :
  company_cache (store s) !! domain = Some row ->
  timedelta_days (CACHE_EXPIRY_DAYS config) = Return window ->
  (datetime_now env (ticks s) - fetched_at row <= window)%Z ->
  json_loads (contacts_json row) = Return (c :: cs) ->
  fst (search_people domain s) = Return (c :: cs)
  /\ store (snd (search_people domain s)) = store s
  /\ calls (snd (search_people domain s)) = calls s.
Proof. exact (search_people_cache_hit domain row window c cs s). Qed.

(** X7. When the cache has no live entry for the domain and Apollo
    answers with no contact, [search_people] returns the empty list after
    one request to Apollo and stores nothing: the cache still has no entry
    for the domain, so the next search asks Apollo again. *)
Theorem empty_answer_is_not_cached (domain : string) (s : sys) :
  fst (get_cached_contacts (datetime_now env (ticks s)) domain (store s))
  = Return None ->
  mixed_people_search env (calls s) domain = Return [] ->
  fst (search_people domain s) = Return []
  /\ company_cache (store (snd (search_people domain s))) !! domain = None
  /\ calls (snd (search_people domain s))
     = List.app (calls s) [ApolloSearchPeople domain].
Proof.
  intros Hmiss Hempty.
  destruct (lookup_none_leaves_none _ _ _ Hmiss) as [Hnone _].
  unfold search_people, bind, transaction, request_to.
  destruct (get_cached_contacts _ domain (store s)) as [r d] eqn:Hget.
  cbn [fst snd] in Hmiss, Hnone. subst r.
  cbn [store calls ticks]. rewrite Hempty. cbn [store calls ticks fst snd ret].
  repeat split. exact Hnone.
Qed.

(** X8. When the cache has no live entry and Apollo answers with a
    non-empty list that survives the JSON codec, [search_people] returns
    the list and caches it: a second search, made while the entry is no
    older than the expiry window, the [timedelta] of [CACHE_EXPIRY_DAYS]
    days, returns the same list without a second request to Apollo. *)
Theorem second_search_is_served_from_cache (domain : string) (window : Z)
    (c : ApolloContact.t) (cs : list ApolloContact.t) (s : sys) :
  fst (get_cached_contacts (datetime_now env (ticks s)) domain (store s))
  = Return None ->
  mixed_people_search env (calls s) domain = Return (c :: cs) ->
  json_loads (json_dumps (c :: cs)) = Return (c :: cs) ->
  timedelta_days (CACHE_EXPIRY_DAYS config) = Return window ->
  (datetime_now env (S (S (ticks s))) - datetime_now env (S (ticks s))
   <= window)%Z ->
  fst (search_people domain s) = Return (c :: cs)
  /\ fst (search_people domain (snd (search_people domain s)))
     = Return (c :: cs)
  /\ calls (snd (search_people domain (snd (search_people domain s))))
     = List.app (calls s) [ApolloSearchPeople domain].
Proof.
  intros Hmiss Hanswer Hjson Hwindow Hlive.
  assert (Hfirst :
    search_people domain s
    = (Return (c :: cs),
       {| store :=
            snd (cache_contacts (datetime_now env (S (ticks s))) domain
                   (c :: cs)
                   (snd (get_cached_contacts (datetime_now env (ticks s))
                           domain (store s))));
          calls := List.app (calls s) [ApolloSearchPeople domain];
          ticks := S (S (ticks s)) |})).
  { unfold search_people, bind, transaction, request_to.
    destruct (get_cached_contacts _ domain (store s)) as [r d] eqn:Hget.
    cbn [fst snd] in Hmiss. subst r.
    cbn [store calls ticks]. rewrite Hanswer. reflexivity. }
  rewrite Hfirst. cbn [fst snd]. split; [reflexivity|].
  match goal with
  | |- context [search_people domain ?s1] =>
      destruct (search_people_cache_hit domain
                  {| contacts_json := json_dumps (c :: cs);
                     fetched_at := datetime_now env (S (ticks s)) |}
                  window c cs s1) as (Hagain & _ & Hcalls)
  end.
  - cbn [store cache_contacts snd company_cache set_company_cache].
    apply lookup_insert_eq.
  - exact Hwindow.
  - cbn [ticks fetched_at]. exact Hlive.
  - exact Hjson.
  - split; [exact Hagain | exact Hcalls].
Qed.

(** ** Further properties of the signature check and of the endpoint *)

Lemma near_now (now t : Q) :
  (Qabs (now - t) <= 300)%Q ->
  Qle_bool (Qabs (now - t)) (inject_Z (60 * 5)) = true.
Proof. intros H. apply Qle_bool_iff. exact H. Qed.

(** The check on a fresh timestamp. *)
Lemma verify_in_window (now : Q)
    (request : slack_request) (ts : Z) :
  Py.int (default "" (X_Slack_Request_Timestamp request)) = Some ts ->
  (Z.abs ts < 2 ^ 1024 - 2 ^ 970)%Z ->
  (Qabs (now - inject_Z ts) <= 300)%Q ->
  Py.isascii (expected_signature request) = true ->
  Py.isascii (default "" (X_Slack_Signature request)) = true ->
  verify_slack_signature now request
  = Return (String.eqb (expected_signature request)
              (default "" (X_Slack_Signature request))).
Proof.
  intros Hint Hrange Hnear Hexp Hsig. unfold verify_slack_signature.
  rewrite Hint, (float_of_int_in_range _ Hrange), (near_now _ _ Hnear).
  cbn [negb]. fold (expected_signature request).
  unfold compare_digest. rewrite Hexp, Hsig. reflexivity.
Qed.

(** X9. For a timestamp that is an integer within the range of a float
    and at most 300 seconds from the current time, and signatures made of
    ASCII characters, the check returns whether the signature header equals
    ["v0="] followed by the HMAC of ["v0:timestamp:body"]: it accepts the
    expected signature and nothing else. *)
Theorem fresh_timestamp_checks_the_signature (now : Q)
    (request : slack_request) (ts : Z) :
  Py.int (default "" (X_Slack_Request_Timestamp request)) = Some ts ->
  (Z.abs ts < 2 ^ 1024 - 2 ^ 970)%Z ->
  (Qabs (now - inject_Z ts) <= 300)%Q ->
  Py.isascii (expected_signature request) = true ->
  Py.isascii (default "" (X_Slack_Signature request)) = true ->
  verify_slack_signature now request
  = Return (String.eqb (expected_signature request)
              (default "" (X_Slack_Signature request))).
Proof. exact (verify_in_window now request ts). Qed.

(** X10. For such a timestamp, a signature header that holds a non-ASCII
    character makes the check raise [TypeError]; the exception leaves
    [handle_slack_interactions], which neither answers 401 nor touches the
    database. *)
Theorem non_ascii_signature_raises (request : slack_request) (ts : Z)
    (s : sys) :
  Py.int (default "" (X_Slack_Request_Timestamp request)) = Some ts ->
  (Z.abs ts < 2 ^ 1024 - 2 ^ 970)%Z ->
  (Qabs (time_time env (ticks s) - inject_Z ts) <= 300)%Q ->
  Py.isascii (default "" (X_Slack_Signature request)) = false ->
  exists e,
    handle_slack_interactions request s = (Raise e, after_clock s)
    /\ exn_kind e = TypeError.
Proof.
  intros Hint Hrange Hnear Hsig.
  unfold handle_slack_interactions, bind, read_time, lift.
  unfold verify_slack_signature.
  rewrite Hint, (float_of_int_in_range _ Hrange), (near_now _ _ Hnear).
  cbn [negb]. unfold compare_digest. rewrite Hsig, andb_false_r.
  eexists. split; reflexivity.
Qed.

(** What the endpoint does once the check has returned. *)
Lemma handle_slack_interactions_verified (request : slack_request)
    (authentic : bool) (s : sys) :
  verify_slack_signature (time_time env (ticks s)) request = Return authentic ->
  handle_slack_interactions request s
  = if authentic
    then try_except (dispatch_interaction request)
           (fun e => ret (jsonify [("error", "Internal server error")] 500))
           (after_clock s)
    else (Return (jsonify [("error", "Invalid signature")] 401),
          after_clock s).
Proof.
  intros Hverify. unfold handle_slack_interactions, bind, read_time, lift.
  rewrite Hverify. destruct authentic; reflexivity.
Qed.

(** X11. An interaction with a fresh timestamp whose ASCII signature
    differs from the expected one is answered 401; the database is not
    read or changed and no collaborator is contacted. *)
Theorem wrong_signature_is_rejected (request : slack_request) (ts : Z)
    (s : sys) :
  Py.int (default "" (X_Slack_Request_Timestamp request)) = Some ts ->
  (Z.abs ts < 2 ^ 1024 - 2 ^ 970)%Z ->
  (Qabs (time_time env (ticks s) - inject_Z ts) <= 300)%Q ->
  Py.isascii (expected_signature request) = true ->
  Py.isascii (default "" (X_Slack_Signature request)) = true ->
  default "" (X_Slack_Signature request) <> expected_signature request ->
  handle_slack_interactions request s
  = (Return (jsonify [("error", "Invalid signature")] 401), after_clock s).
Proof.
  intros Hint Hrange Hnear Hexp Hsig Hdiff.
  rewrite (handle_slack_interactions_verified request false); [reflexivity|].
  rewrite (verify_in_window _ _ ts) by assumption.
  f_equal. apply String.eqb_neq. congruence.
Qed.

(** X12. A verified interaction whose request id is not in the queue is
    answered 404, whatever its action; the database is left as it is and
    no collaborator is contacted. *)
Theorem unknown_request_is_not_found (request : slack_request)
    (p : interaction) (s : sys) :
  verify_slack_signature (time_time env (ticks s)) request = Return true ->
  form_payload request = Return p ->
  fst (get_approval_request (value p) (store s)) = Return None ->
  handle_slack_interactions request s
  = (Return (jsonify [("error", "Request not found")] 404), after_clock s).
Proof.
  intros Hverify Hpayload Hnone.
  rewrite (handle_slack_interactions_verified request true) by assumption.
  unfold try_except, dispatch_interaction, bind, lift, query, after_clock.
  rewrite Hpayload. cbn [store calls ticks].
  unfold get_approval_request in *.
  destruct (value p) as [i|]; cbn [fst] in Hnone.
  - injection Hnone as ->. reflexivity.
  - reflexivity.
Qed.

(** X13. A verified [edit_lead] or [regenerate_lead] interaction on a
    stored request is answered 501; the database is left as it is and no
    collaborator is contacted. *)
Theorem edit_and_regenerate_do_nothing (request : slack_request)
    (p : interaction) (request_id : string) (row : QueueRow.t) (s : sys) :
  verify_slack_signature (time_time env (ticks s)) request = Return true ->
  form_payload request = Return p ->
  value p = Some request_id ->
  approval_queue (store s) !! request_id = Some row ->
  (action_id p = Some "edit_lead"
   -> handle_slack_interactions request s
      = (Return (jsonify [("status", "edit_not_implemented")] 501),
         after_clock s))
  /\ (action_id p = Some "regenerate_lead"
      -> handle_slack_interactions request s
         = (Return (jsonify [("status", "regenerate_not_implemented")] 501),
            after_clock s)).
Proof.
  intros Hverify Hpayload Hvalue Hrow.
  rewrite (handle_slack_interactions_verified request true) by assumption.
  unfold try_except, dispatch_interaction, bind, lift, query, after_clock,
    get_approval_request.
  rewrite Hpayload, Hvalue. cbn [store calls ticks]. rewrite Hrow.
  split; intros ->; reflexivity.
Qed.

(** X14. A verified interaction on a stored request whose action is none
    of the four known ones is answered 400; the database is left as it is
    and no collaborator is contacted. *)
Theorem unknown_action_is_refused (request : slack_request) (p : interaction)
    (request_id : string) (row : QueueRow.t) (s : sys) :
  verify_slack_signature (time_time env (ticks s)) request = Return true ->
  form_payload request = Return p ->
  value p = Some request_id ->
  approval_queue (store s) !! request_id = Some row ->
  default "" (action_id p) <> "approve_lead" ->
  default "" (action_id p) <> "skip_lead" ->
  default "" (action_id p) <> "edit_lead" ->
  default "" (action_id p) <> "regenerate_lead" ->
  handle_slack_interactions request s
  = (Return (jsonify [("error", "Unknown action")] 400), after_clock s).
Proof.
  intros Hverify Hpayload Hvalue Hrow Ha Hs He Hr.
  rewrite (handle_slack_interactions_verified request true) by assumption.
  unfold try_except, dispatch_interaction, bind, lift, query, after_clock,
    get_approval_request.
  rewrite Hpayload, Hvalue. cbn [store calls ticks]. rewrite Hrow.
  cbn [fmap option_fmap option_map].
  apply String.eqb_neq in Ha, Hs, He, Hr. rewrite Ha, Hs, He, Hr.
  reflexivity.
Qed.

(** X15. A verified interaction whose form payload cannot be decoded is
    answered 500; the database is left as it is and no collaborator is
    contacted. *)
Theorem undecodable_payload_is_an_internal_error (request : slack_request)
    (e : exn) (s : sys) :
  verify_slack_signature (time_time env (ticks s)) request = Return true ->
  form_payload request = Raise e ->
  handle_slack_interactions request s
  = (Return (jsonify [("error", "Internal server error")] 500),
     after_clock s).
Proof.
  intros Hverify Hpayload.
  rewrite (handle_slack_interactions_verified request true) by assumption.
  unfold try_except, dispatch_interaction, bind, lift. rewrite Hpayload.
  reflexivity.
Qed.

(** ** Further properties of the approval *)

(** [handle_approve] with its steps unfolded. *)
Ltac unfold_approve :=
  unfold handle_approve, approve_contact_args in *;
  destruct (Py.split_once_space _) as [first_name rest];
  unfold try_except, bind, create_contact, add_to_sequence, request_to,
    transaction, update_card_approved, _update_message, try_except,
    request_to, update_approval_status, ret, raise;
  cbn [store calls ticks fst snd].

(** X16. When Apollo refuses the creation of the contact,
    [handle_approve] answers 500 with the message of the exception; the
    database is left as it is, so the request keeps its status, and nothing
    else is sent: no enrollment and no update of the card. *)
Theorem failed_creation_changes_nothing (request : ApprovalRequest.t)
    (channel ts : option string) (e : exn) (s : sys) :
  contacts_create env (calls s) (approve_contact_args request) = Raise e ->
  handle_approve request channel ts s
  = (Return (jsonify [("error", exn_message e)] 500),
     {| store := store s;
        calls := List.app (calls s)
                   [ApolloCreateContact (approve_contact_args request)];
        ticks := ticks s |}).
Proof.
  intros Hcreate. unfold_approve. rewrite Hcreate. reflexivity.
Qed.

(** X17. When the creation and the enrollment succeed for a stored
    request and Slack accepts the update of the card, [handle_approve]
    answers 200, the request is approved, and the collaborators have
    received, in this order, the creation, the enrollment of the new
    contact in the configured sequence and the update of the card. *)
Theorem approval_commits_in_order (request : ApprovalRequest.t)
    (channel ts : option string) (row : QueueRow.t)
    (new_contact_id : string) (s : sys) :
  approval_queue (store s) !! ApprovalRequest.id request = Some row ->
  contacts_create env (calls s) (approve_contact_args request)
  = Return (Some new_contact_id) ->
  Py.truthy new_contact_id = true ->
  add_contact_ids env
    (List.app (calls s) [ApolloCreateContact (approve_contact_args request)])
    new_contact_id (APOLLO_SEQUENCE_ID config)
  = Return tt ->
  (forall log, chat_update env log channel ts CardApproved request
               = Return tt) ->
  fst (handle_approve request channel ts s)
  = Return (jsonify [("status", "approved")] 200)
  /\ status_of (ApprovalRequest.id request)
       (store (snd (handle_approve request channel ts s)))
     = Some "approved"
  /\ calls (snd (handle_approve request channel ts s))
     = List.app (calls s)
         [ApolloCreateContact (approve_contact_args request);
          ApolloAddToSequence new_contact_id (APOLLO_SEQUENCE_ID config);
          SlackChatUpdate channel ts CardApproved request].
Proof.
  intros Hrow Hcreate Htruthy Henroll Hcard.
  assert (Hupdated : forall now,
            status_of (ApprovalRequest.id request)
              (snd (update_approval_status now (ApprovalRequest.id request)
                      "approved" None (store s)))
            = Some "approved").
  { intros now. rewrite status_of_update.
    destruct (decide (_ = _)); [|congruence].
    unfold status_of. rewrite Hrow. reflexivity. }
  unfold update_approval_status in Hupdated. cbn [snd] in Hupdated.
  unfold_approve. rewrite Hcreate. cbn [Py.truthy_opt]. rewrite Htruthy.
  change (default "" (Some new_contact_id)) with new_contact_id.
  cbn [store calls ticks fst snd]. rewrite Henroll.
  cbn [store calls ticks fst snd]. rewrite Hcard.
  cbn [store calls ticks fst snd]. repeat split.
  - apply Hupdated.
  - rewrite <- !List.app_assoc. reflexivity.
Qed.

(** X18. When the creation succeeds but its answer carries no contact id
    (none, or the empty string), [handle_approve] sends no enrollment and
    still marks the stored request approved. *)
Theorem approval_without_contact_id (request : ApprovalRequest.t)
    (channel ts : option string) (row : QueueRow.t)
    (new_contact_id : option string) (s : sys) :
  approval_queue (store s) !! ApprovalRequest.id request = Some row ->
  contacts_create env (calls s) (approve_contact_args request)
  = Return new_contact_id ->
  Py.truthy_opt new_contact_id = false ->
  status_of (ApprovalRequest.id request)
    (store (snd (handle_approve request channel ts s)))
  = Some "approved"
  /\ calls (snd (handle_approve request channel ts s))
     = List.app (calls s)
         [ApolloCreateContact (approve_contact_args request);
          SlackChatUpdate channel ts CardApproved request].
Proof.
  intros Hrow Hcreate Hfalsy.
  assert (Hupdated : forall now,
            status_of (ApprovalRequest.id request)
              (snd (update_approval_status now (ApprovalRequest.id request)
                      "approved" None (store s)))
            = Some "approved").
  { intros now. rewrite status_of_update.
    destruct (decide (_ = _)); [|congruence].
    unfold status_of. rewrite Hrow. reflexivity. }
  unfold update_approval_status in Hupdated. cbn [snd] in Hupdated.
  unfold_approve. rewrite Hcreate, Hfalsy. cbn [store calls ticks fst snd].
  destruct (chat_update env _ _ _ _ _) as [[]|e];
    [|destruct (is_SlackApiError e)];
    cbn [store calls ticks fst snd];
    (split; [apply Hupdated | rewrite <- !List.app_assoc; reflexivity]).
Qed.

(** X19. When the creation and the enrollment succeed for a stored
    request but the update of the card fails, the request is approved all
    the same; [handle_approve] answers 200 if the failure is a
    [SlackApiError], which is logged and dropped, and 500 with the message
    of the exception otherwise. *)
Theorem failed_card_update_keeps_the_approval (request : ApprovalRequest.t)
    (channel ts : option string) (row : QueueRow.t)
    (new_contact_id : option string) (e : exn) (s : sys) :
  approval_queue (store s) !! ApprovalRequest.id request = Some row ->
  contacts_create env (calls s) (approve_contact_args request)
  = Return new_contact_id ->
  enrollment_after request s new_contact_id = Return tt ->
  (forall log, chat_update env log channel ts CardApproved request
               = Raise e) ->
  status_of (ApprovalRequest.id request)
    (store (snd (handle_approve request channel ts s)))
  = Some "approved"
  /\ fst (handle_approve request channel ts s)
     = Return (if is_SlackApiError e
               then jsonify [("status", "approved")] 200
               else jsonify [("error", exn_message e)] 500).
Proof.
  intros Hrow Hcreate Henroll Hcard.
  assert (Hupdated : forall now,
            status_of (ApprovalRequest.id request)
              (snd (update_approval_status now (ApprovalRequest.id request)
                      "approved" None (store s)))
            = Some "approved").
  { intros now. rewrite status_of_update.
    destruct (decide (_ = _)); [|congruence].
    unfold status_of. rewrite Hrow. reflexivity. }
  unfold update_approval_status in Hupdated. cbn [snd] in Hupdated.
  unfold enrollment_after in Henroll. revert Hcreate Henroll.
  unfold_approve. intros Hcreate Henroll. rewrite Hcreate.
  destruct (Py.truthy_opt new_contact_id); cbn [store calls ticks fst snd].
  - rewrite Henroll. cbn [store calls ticks fst snd]. rewrite Hcard.
    destruct (is_SlackApiError e); split; first [apply Hupdated|reflexivity].
  - rewrite Hcard.
    destruct (is_SlackApiError e); split; first [apply Hupdated|reflexivity].
Qed.

(** ** Properties of the webhook *)

Lemma search_people_queue (domain : string) (s : sys) :
  approval_queue (store (snd (search_people domain s)))
  = approval_queue (store s).
Proof.
  assert (H : preserves (fun d => approval_queue d = approval_queue (store s))
                (search_people domain)).
  { unfold search_people. preserve.
    apply preserves_transaction. intros now d Hd.
    rewrite get_cached_contacts_queue. exact Hd. }
  apply H. reflexivity.
Qed.

(** X20. A payload that the validation rejects is answered 400 with the
    details of the error when the exception is a [ValueError], which
    pydantic's [ValidationError] is, and 500 otherwise; nothing is read,
    written or sent. *)
Theorem rejected_payload_changes_nothing (e : exn) (new_id : string)
    (s : sys) :
  handle_reporadar_webhook (Raise e) new_id s
  = (Return (if is_ValueError e
             then jsonify [("error", "Invalid payload");
                           ("details", exn_message e)] 400
             else jsonify [("error", "Internal server error")] 500),
     s).
Proof.
  unfold handle_reporadar_webhook, try_except, bind, lift.
  destruct (is_ValueError e); reflexivity.
Qed.

(** X21. When the search finds no contact, the webhook answers 200 with
    status skipped and reason [no_contacts_found]; it stops there: no email
    is generated, nothing is posted to Slack and the approval queue is as
    it was. *)
Theorem no_contact_means_no_request (payload : RepoRadarPayload.t)
    (new_id : string) (s : sys) :
  fst (search_people (RepoRadarPayload.domain payload) s) = Return [] ->
  handle_reporadar_webhook (Return payload) new_id s
  = (Return (jsonify [("status", "skipped");
                      ("reason", "no_contacts_found");
                      ("domain", RepoRadarPayload.domain payload)] 200),
     snd (search_people (RepoRadarPayload.domain payload) s))
  /\ approval_queue (store (snd (handle_reporadar_webhook (Return payload)
                                   new_id s)))
     = approval_queue (store s).
Proof.
  intros Hsearch.
  assert (Heq : handle_reporadar_webhook (Return payload) new_id s
    = (Return (jsonify [("status", "skipped");
                        ("reason", "no_contacts_found");
                        ("domain", RepoRadarPayload.domain payload)] 200),
       snd (search_people (RepoRadarPayload.domain payload) s))).
  { unfold handle_reporadar_webhook, try_except, bind, lift.
    destruct (search_people _ s) as [r s1]. cbn [fst] in Hsearch. subst r.
    reflexivity. }
  split; [exact Heq|]. rewrite Heq. cbn [snd]. apply search_people_queue.
Qed.

(** X22. When the first contact found has no email address, the webhook
    answers 200 with status skipped and reason [no_email], whatever the
    other contacts are; no email is generated, nothing is posted to Slack
    and the approval queue is as it was. *)
Theorem no_email_means_no_request (payload : RepoRadarPayload.t)
    (new_id : string) (contact : ApolloContact.t)
    (others : list ApolloContact.t) (s : sys) :
  fst (search_people (RepoRadarPayload.domain payload) s)
  = Return (contact :: others) ->
  Py.truthy_opt (ApolloContact.email contact) = false ->
  handle_reporadar_webhook (Return payload) new_id s
  = (Return (jsonify [("status", "skipped");
                      ("reason", "no_email");
                      ("contact", ApolloContact.display_name contact)] 200),
     snd (search_people (RepoRadarPayload.domain payload) s))
  /\ approval_queue (store (snd (handle_reporadar_webhook (Return payload)
                                   new_id s)))
     = approval_queue (store s).
Proof.
  intros Hsearch Hemail.
  assert (Heq : handle_reporadar_webhook (Return payload) new_id s
    = (Return (jsonify [("status", "skipped");
                        ("reason", "no_email");
                        ("contact", ApolloContact.display_name contact)] 200),
       snd (search_people (RepoRadarPayload.domain payload) s))).
  { unfold handle_reporadar_webhook, try_except, bind, lift.
    destruct (search_people _ s) as [r s1]. cbn [fst] in Hsearch. subst r.
    rewrite Hemail. reflexivity. }
  split; [exact Heq|]. rewrite Heq. cbn [snd]. apply search_people_queue.
Qed.

(** X23. When the configured AI provider is neither [anthropic] nor
    [gemini], a webhook that found a contact with an email address is
    answered 400 "Invalid payload": the [ValueError] of the generator is
    taken for a validation error. No request is stored. *)
Theorem unknown_provider_is_reported_as_bad_payload
    (payload : RepoRadarPayload.t) (new_id : string)
    (contact : ApolloContact.t) (others : list ApolloContact.t) (s : sys) :
  fst (search_people (RepoRadarPayload.domain payload) s)
  = Return (contact :: others) ->
  Py.truthy_opt (ApolloContact.email contact) = true ->
  AI_PROVIDER config <> "anthropic" ->
  AI_PROVIDER config <> "gemini" ->
  fst (handle_reporadar_webhook (Return payload) new_id s)
  = Return (jsonify [("error", "Invalid payload");
                     ("details",
                      "Unknown AI provider: " ++ AI_PROVIDER config)] 400)
  /\ approval_queue (store (snd (handle_reporadar_webhook (Return payload)
                                   new_id s)))
     = approval_queue (store s).
Proof.
  intros Hsearch Hemail Ha Hg.
  pose proof (search_people_queue (RepoRadarPayload.domain payload) s) as Hq.
  unfold handle_reporadar_webhook, try_except, bind, lift,
    generate_personalized_email.
  destruct (search_people _ s) as [r s1]. cbn [fst snd] in Hsearch, Hq.
  subst r. rewrite Hemail. cbn [negb].
  apply String.eqb_neq in Ha, Hg. rewrite Ha, Hg. cbn [orb raise fst snd ret].
  split; [reflexivity | exact Hq].
Qed.

(** A computation that returns inside [try] hands over to what follows
    it. *)
Lemma try_except_bind {A B : Type} (m : M A) (k : A -> M B)
    (h : exn -> M B) (s : sys) (a : A) (s' : sys) :
  m s = (Return a, s') ->
  try_except (bind m k) h s = try_except (k a) h s'.
Proof. intros H. unfold try_except, bind. rewrite H. reflexivity. Qed.

(** The state in which the webhook saves the request it has built: the
    search and the generation of the email leave the approval queue as it
    was. *)
Lemma webhook_up_to_save (payload : RepoRadarPayload.t) (new_id : string)
    (contact : ApolloContact.t) (others : list ApolloContact.t)
    (text : string) (s : sys) :
  fst (search_people (RepoRadarPayload.domain payload) s)
  = Return (contact :: others) ->
  Py.truthy_opt (ApolloContact.email contact) = true ->
  AI_PROVIDER config = "anthropic" \/ AI_PROVIDER config = "gemini" ->
  (forall log, generate_text env log (AI_PROVIDER config) payload contact
               = Return text) ->
  approval_queue (store s) !! new_id = None ->
  exists s2,
    approval_queue (store s2) = approval_queue (store s)
    /\ handle_reporadar_webhook (Return payload) new_id s
       = try_except
           (bind (post_approval_card
                    (new_approval_request payload contact
                       (_parse_email_response text) new_id))
              (fun slack_ts =>
                 bind (transaction env (fun now =>
                         update_approval_status now new_id "pending"
                           (Some slack_ts)))
                   (fun _ =>
                      ret (jsonify
                             [("status", "pending_approval");
                              ("request_id", new_id);
                              ("company", RepoRadarPayload.company payload);
                              ("contact",
                               ApolloContact.display_name contact)] 200))))
           (fun e =>
              if is_ValueError e
              then ret (jsonify [("error", "Invalid payload");
                                 ("details", exn_message e)] 400)
              else ret (jsonify [("error", "Internal server error")] 500))
           {| store :=
                set_approval_queue
                  (<[new_id :=
                       QueueRow.of_request (datetime_now env (ticks s2))
                         (new_approval_request payload contact
                            (_parse_email_response text) new_id)]>
                     (approval_queue (store s2))) (store s2);
              calls := calls s2;
              ticks := S (ticks s2) |}.
Proof.
  intros Hsearch Hemail Hprovider Htext Hfresh.
  pose proof (search_people_queue (RepoRadarPayload.domain payload) s) as Hq.
  destruct (search_people (RepoRadarPayload.domain payload) s) as [r s1]
    eqn:Hs.
  cbn [fst snd] in Hsearch, Hq. subst r.
  assert (Hp : String.eqb (AI_PROVIDER config) "anthropic"
               || String.eqb (AI_PROVIDER config) "gemini" = true).
  { destruct Hprovider as [-> | ->]; reflexivity. }
  exists {| store := store s1;
            calls := List.app (calls s1)
                       [GenerateEmail (AI_PROVIDER config) payload contact];
            ticks := ticks s1 |}.
  split; [exact Hq|].
  assert (Hfresh1 : approval_queue (store s1) !! new_id = None)
    by (rewrite Hq; exact Hfresh).
  unfold handle_reporadar_webhook.
  rewrite (try_except_bind _ _ _ s payload s) by reflexivity.
  rewrite (try_except_bind _ _ _ s (contact :: others) s1 Hs).
  rewrite Hemail. cbn [negb].
  rewrite (try_except_bind _ _ _ s1 (_parse_email_response text)
             {| store := store s1;
                calls := List.app (calls s1)
                           [GenerateEmail (AI_PROVIDER config) payload
                              contact];
                ticks := ticks s1 |}).
  2:{ unfold generate_personalized_email. rewrite Hp.
      unfold bind, request_to. rewrite Htext. reflexivity. }
  erewrite try_except_bind.
  2:{ unfold transaction, save_approval_request.
      cbn [store calls ticks ApprovalRequest.id new_approval_request].
      rewrite Hfresh1. reflexivity. }
  reflexivity.
Qed.

(** X24. When the search finds a first contact with an email address,
    the generator answers, the new id is not in the queue and Slack accepts
    the card with a non-empty message timestamp, the webhook answers 200
    [pending_approval] and the queue holds, under the new id, a request
    with status pending, that timestamp, the parsed subject and body, and
    the name and email of the contact. *)
Theorem webhook_stores_a_pending_request (payload : RepoRadarPayload.t)
    (new_id : string) (contact : ApolloContact.t)
    (others : list ApolloContact.t) (text slack_ts : string) (s : sys) :
  fst (search_people (RepoRadarPayload.domain payload) s)
  = Return (contact :: others) ->
  Py.truthy_opt (ApolloContact.email contact) = true ->
  AI_PROVIDER config = "anthropic" \/ AI_PROVIDER config = "gemini" ->
  (forall log, generate_text env log (AI_PROVIDER config) payload contact
               = Return text) ->
  approval_queue (store s) !! new_id = None ->
  (forall log r, chat_postMessage env log r = Return slack_ts) ->
  Py.truthy slack_ts = true ->
  fst (handle_reporadar_webhook (Return payload) new_id s)
  = Return (jsonify [("status", "pending_approval");
                     ("request_id", new_id);
                     ("company", RepoRadarPayload.company payload);
                     ("contact", ApolloContact.display_name contact)] 200)
  /\ exists stored,
       stored_request new_id
         (store (snd (handle_reporadar_webhook (Return payload) new_id s)))
       = Some stored
       /\ ApprovalRequest.status stored = "pending"
       /\ ApprovalRequest.slack_message_ts stored = Some slack_ts
       /\ ApprovalRequest.personalized_subject stored
          = fst (_parse_email_response text)
       /\ ApprovalRequest.personalized_email stored
          = snd (_parse_email_response text)
       /\ ApprovalRequest.contact_name stored
          = ApolloContact.display_name contact
       /\ ApprovalRequest.contact_email stored = ApolloContact.email contact
       /\ ApprovalRequest.company stored = RepoRadarPayload.company payload.
Proof.
  intros Hsearch Hemail Hprovider Htext Hfresh Hpost Htruthy.
  destruct (webhook_up_to_save payload new_id contact others text s)
    as (s2 & _ & ->); try assumption.
  unfold try_except, bind, post_approval_card, request_to, transaction,
    update_approval_status, ret.
  cbn [store calls ticks fst snd]. rewrite Hpost.
  cbn [store calls ticks fst snd]. split; [reflexivity|].
  unfold stored_request. cbn [approval_queue set_approval_queue].
  rewrite lookup_alter_eq, lookup_insert_eq.
  cbn [fmap option_fmap option_map]. unfold update_status_row.
  cbn [Py.truthy_opt]. rewrite Htruthy.
  eexists. split; [reflexivity|]. repeat split.
Qed.

(** X25. Under the same conditions, when Slack refuses the card the
    webhook answers 500 (400 if the exception is a [ValueError]); the
    request it has saved stays in the queue, with status pending and no
    Slack message timestamp. *)
Theorem failed_publication_leaves_an_untokened_request
    (payload : RepoRadarPayload.t) (new_id : string)
    (contact : ApolloContact.t) (others : list ApolloContact.t)
    (text : string) (e : exn) (s : sys) :
  fst (search_people (RepoRadarPayload.domain payload) s)
  = Return (contact :: others) ->
  Py.truthy_opt (ApolloContact.email contact) = true ->
  AI_PROVIDER config = "anthropic" \/ AI_PROVIDER config = "gemini" ->
  (forall log, generate_text env log (AI_PROVIDER config) payload contact
               = Return text) ->
  approval_queue (store s) !! new_id = None ->
  (forall log r, chat_postMessage env log r = Raise e) ->
  fst (handle_reporadar_webhook (Return payload) new_id s)
  = Return (if is_ValueError e
            then jsonify [("error", "Invalid payload");
                          ("details", exn_message e)] 400
            else jsonify [("error", "Internal server error")] 500)
  /\ exists stored,
       stored_request new_id
         (store (snd (handle_reporadar_webhook (Return payload) new_id s)))
       = Some stored
       /\ ApprovalRequest.status stored = "pending"
       /\ ApprovalRequest.slack_message_ts stored = None.
Proof.
  intros Hsearch Hemail Hprovider Htext Hfresh Hpost.
  destruct (webhook_up_to_save payload new_id contact others text s)
    as (s2 & _ & ->); try assumption.
  unfold try_except, bind, post_approval_card, request_to.
  cbn [store calls ticks fst snd]. rewrite Hpost.
  assert (Hstored : forall d0 q0 (r0 : QueueRow.t),
            exists stored,
              stored_request new_id
                (set_approval_queue (<[new_id := r0]> q0) d0)
              = Some stored
              /\ ApprovalRequest.status stored = QueueRow.status r0
              /\ ApprovalRequest.slack_message_ts stored
                 = QueueRow.slack_message_ts r0).
  { intros d0 q0 r0. unfold stored_request.
    cbn [approval_queue set_approval_queue]. rewrite lookup_insert_eq.
    eexists. split; [reflexivity|]. split; reflexivity. }
  destruct (is_ValueError e); cbn [ret fst snd store];
    (split; [reflexivity | apply Hstored]).
Qed.

(** ** What the operations never do *)

Lemma same_lead_refl (a : ApprovalRequest.t) : same_lead a a.
Proof. unfold same_lead. repeat split. Qed.

Lemma same_lead_trans (a b c : ApprovalRequest.t) :
  same_lead a b -> same_lead b c -> same_lead a c.
Proof.
  unfold same_lead. intros Hab Hbc.
  repeat match goal with H : _ /\ _ |- _ => destruct H end.
  repeat split; congruence.
Qed.

Lemma keeps_lead_same_queue (request_id : string)
    (before : ApprovalRequest.t) (d d' : db) :
  approval_queue d' = approval_queue d ->
  keeps_lead request_id before d -> keeps_lead request_id before d'.
Proof.
  intros Hq (after & Hstored & Hsame). exists after.
  unfold stored_request in *. rewrite Hq. auto.
Qed.

Lemma update_status_keeps_lead (now : Z) (i status : string)
    (slack_ts : option string) (request_id : string)
    (before : ApprovalRequest.t) (d : db) :
  keeps_lead request_id before d ->
  keeps_lead request_id before
    (snd (update_approval_status now i status slack_ts d)).
Proof.
  intros (mid & Hstored & Hsame).
  destruct (decide (request_id = i)) as [->|Hne].
  - destruct (update_status_lead now i status slack_ts d
                mid Hstored) as (after & Hafter & _ & _ & Hlead).
    exists after. split; [exact Hafter|].
    eapply same_lead_trans; eauto.
  - exists mid. split; [|exact Hsame].
    unfold stored_request, update_approval_status in *.
    cbn [snd approval_queue set_approval_queue].
    rewrite lookup_alter_ne by congruence. exact Hstored.
Qed.

Lemma save_request_keeps_lead (now : Z) (request : ApprovalRequest.t)
    (request_id : string) (before : ApprovalRequest.t) (d : db) :
  keeps_lead request_id before d ->
  keeps_lead request_id before (snd (save_approval_request now request d)).
Proof.
  intros (mid & Hstored & Hsame). unfold save_approval_request.
  destruct (approval_queue d !! ApprovalRequest.id request) as [row|] eqn:Hrow;
    [exists mid; auto|].
  exists mid. split; [|exact Hsame].
  unfold stored_request in *. cbn [snd approval_queue set_approval_queue].
  rewrite lookup_insert_ne; [exact Hstored|].
  intros Heq. rewrite <- Heq, Hrow in Hstored. discriminate.
Qed.

Lemma perform_keeps_lead (o : operation) (request_id : string)
    (before : ApprovalRequest.t) :
  preserves (keeps_lead request_id before) (perform o).
Proof.
  destruct o as [parsed new_id | request]; cbn [perform].
  - unfold handle_reporadar_webhook, generate_personalized_email,
      post_approval_card, search_people.
    preserve; apply preserves_transaction; intros now d H;
      first [ apply save_request_keeps_lead; exact H
            | apply update_status_keeps_lead; exact H
            | eapply keeps_lead_same_queue;
              [apply get_cached_contacts_queue | exact H]
            | exact H ].
  - unfold handle_slack_interactions, dispatch_interaction, handle_edit,
      handle_regenerate, handle_approve, handle_skip, create_contact,
      add_to_sequence, update_card_approved, update_card_rejected,
      _update_message.
    preserve;
      first [ apply preserves_transaction; intros now d H;
              apply update_status_keeps_lead; exact H
            | apply preserves_query; intros d H;
              unfold get_approval_request; destruct (value _); exact H ].
Qed.

(** X26. A stored request is never deleted and its lead never changes:
    whatever operations are served afterwards, the request is still in the
    queue under its id, with the same company, domain, signal, contact,
    subject, body and creation time; only its status and its Slack message
    timestamp may differ. *)
Theorem stored_request_is_kept (ops : list operation) (request_id : string)
    (before : ApprovalRequest.t) (s : sys) :
  stored_request request_id (store s) = Some before ->
  exists after,
    stored_request request_id (store (serve ops s)) = Some after
    /\ same_lead before after.
Proof.
  intros Hstored.
  assert (H : keeps_lead request_id before (store s))
    by (exists before; split; [exact Hstored | apply same_lead_refl]).
  clear Hstored. revert s H.
  induction ops as [|o rest IH]; intros s H; cbn [serve]; [exact H|].
  apply IH. apply perform_keeps_lead. exact H.
Qed.

Lemma get_cached_contacts_other (now : Z) (domain other : string) (d : db) :
  other <> domain ->
  company_cache (snd (get_cached_contacts now domain d)) !! other
  = company_cache d !! other.
Proof.
  intros Hother. unfold get_cached_contacts.
  destruct (company_cache d !! domain) as [row|]; [|reflexivity].
  destruct (timedelta_days _) as [expiry|e]; [|reflexivity].
  destruct (_ <? _)%Z.
  - cbn [snd company_cache set_company_cache].
    apply lookup_delete_ne. congruence.
  - destruct (json_loads _); reflexivity.
Qed.

Lemma cache_contacts_other (now : Z) (domain other : string)
    (contacts : list ApolloContact.t) (d : db) :
  other <> domain ->
  company_cache (snd (cache_contacts now domain contacts d)) !! other
  = company_cache d !! other.
Proof.
  intros Hother. unfold cache_contacts.
  cbn [snd company_cache set_company_cache].
  apply lookup_insert_ne. congruence.
Qed.

(** X27. An interaction never touches the contact cache, and a webhook
    touches at most the cache entry of the domain of its payload. *)
Theorem cache_is_touched_by_its_domain_only (s : sys) :
  (forall request,
      company_cache (store (snd (handle_slack_interactions request s)))
      = company_cache (store s))
  /\ (forall payload new_id other,
         other <> RepoRadarPayload.domain payload ->
         company_cache
           (store (snd (handle_reporadar_webhook (Return payload) new_id s)))
         !! other
         = company_cache (store s) !! other).
Proof.
  split.
  - intros request.
    assert (H : preserves (fun d => company_cache d = company_cache (store s))
                  (handle_slack_interactions request)).
    { unfold handle_slack_interactions, dispatch_interaction, handle_edit,
        handle_regenerate, handle_approve, handle_skip, create_contact,
        add_to_sequence, update_card_approved, update_card_rejected,
        _update_message.
      preserve.
      apply preserves_query; intros d H;
        unfold get_approval_request; destruct (value _); exact H. }
    apply H. reflexivity.
  - intros payload new_id other Hother.
    assert (H : preserves
                  (fun d => company_cache d !! other
                            = company_cache (store s) !! other)
                  (handle_reporadar_webhook (Return payload) new_id)).
    { intros s0 H0. unfold handle_reporadar_webhook.
      rewrite (try_except_bind _ _ _ s0 payload s0 eq_refl).
      refine (preserves_try_except
                (fun d => company_cache d !! other
                          = company_cache (store s) !! other)
                _ _ _ _ s0 H0); [|intros e; preserve].
      unfold generate_personalized_email, post_approval_card, search_people.
      preserve; apply preserves_transaction; intros now d H;
        first [ rewrite get_cached_contacts_other by exact Hother; exact H
              | rewrite cache_contacts_other by exact Hother; exact H
              | unfold save_approval_request;
                destruct (approval_queue d !! _); exact H
              | exact H ]. }
    apply H. reflexivity.
Qed.

(** ** Further properties of the strings the program computes *)

Lemma lstrip_by_head (p : ascii -> bool) (s : string) (c : ascii)
    (t : string) :
  Py.lstrip_by p s = String c t -> p c = false.
Proof.
  induction s as [|a s IH]; simpl; [discriminate|].
  destruct (p a) eqn:Hp; [exact IH|]. intros [= <- <-]. exact Hp.
Qed.

Lemma rstrip_by_head (p : ascii -> bool) (c : ascii) (t : string) :
  p c = false -> exists t', Py.rstrip_by p (String c t) = String c t'.
Proof.
  intros Hp. simpl. destruct (Py.rstrip_by p t); [rewrite Hp|]; eauto.
Qed.

(** A stripped string is empty or starts with a character that is not
    whitespace. *)
Lemma strip_head (s : string) :
  Py.strip s = ""
  \/ exists c t, Py.strip s = String c t /\ Py.isspace c = false.
Proof.
  unfold Py.strip, Py.strip_by.
  destruct (Py.lstrip_by Py.isspace s) as [|c t] eqn:Hl; [left; reflexivity|].
  right. pose proof (lstrip_by_head _ _ _ _ Hl) as Hc.
  destruct (rstrip_by_head Py.isspace c t Hc) as (t' & ->). eauto.
Qed.

Lemma split_lines_head (c : ascii) (t : string) :
  Ascii.eqb c Py.newline = false ->
  exists l ls, Py.split_lines (String c t) = String c l :: ls.
Proof.
  intros Hc. simpl. rewrite Hc.
  destruct (split_lines_cons t) as (l & ls & ->). eauto.
Qed.

(** X28. For a response that is not made of whitespace only, the parser
    returns a subject and a body that are both non-empty, whether the
    markers are there or not. *)
Theorem parsed_email_is_not_empty (response : string) :
  Py.strip response <> "" ->
  fst (_parse_email_response response) <> ""
  /\ snd (_parse_email_response response) <> "".
Proof.
  intros Hblank.
  assert (Hresponse : response <> "").
  { intros ->. apply Hblank. reflexivity. }
  assert (Hfirst : exists c l ls,
             response_lines response = String c l :: ls).
  { unfold response_lines.
    destruct (strip_head response) as [H|(c & t & -> & Hc)];
      [contradiction|].
    destruct (split_lines_head c t) as (l & ls & ->); [|eauto].
    destruct (Ascii.eqb_spec c Py.newline) as [->|]; [discriminate|reflexivity]. }
  destruct Hfirst as (c & l & ls & Hlines).
  unfold _parse_email_response. rewrite Hlines.
  destruct (ps_subject _) as [|a subject]; cbn [Py.truthy negb orb].
  - destruct (Py.strip (Py.join_lines _)) as [|b body];
      cbn [Py.truthy negb fst snd Py.take]; split; auto; discriminate.
  - destruct (Py.strip (Py.join_lines _)) as [|b body];
      cbn [Py.truthy negb orb fst snd]; split; auto; discriminate.
Qed.

Lemma split_once_space_spec (s : string) :
  has_space (fst (Py.split_once_space s)) = false
  /\ match snd (Py.split_once_space s) with
     | Some rest => s = fst (Py.split_once_space s) ++ " " ++ rest
     | None => s = fst (Py.split_once_space s) /\ has_space s = false
     end.
Proof.
  induction s as [|c t IH]; simpl; [auto|].
  destruct (Ascii.eqb_spec c " ") as [->|Hc]; simpl; [auto|].
  destruct (Py.split_once_space t) as [a b]. simpl in *.
  destruct IH as [Ha Hb].
  assert (Hceq : Ascii.eqb c " " = false)
    by (destruct (Ascii.eqb_spec c " "); [contradiction|reflexivity]).
  rewrite Hceq. simpl. split; [exact Ha|].
  destruct b as [rest|].
  - rewrite Hb at 1. reflexivity.
  - destruct Hb as [Hb1 Hb2]. split; [rewrite Hb1 at 1; reflexivity|exact Hb2].
Qed.

(** X29. The names [handle_approve] sends to Apollo take the stored
    contact name apart at its first space: the first name holds no space;
    when the name holds a space, first name, a space and last name give the
    name back; when it holds none, the first name is the whole name and the
    last name is empty. *)
Theorem approved_names_split_the_contact_name (request : ApprovalRequest.t) :
  has_space (cc_first_name (approve_contact_args request)) = false
  /\ (if has_space (ApprovalRequest.contact_name request)
      then ApprovalRequest.contact_name request
           = cc_first_name (approve_contact_args request) ++ " "
             ++ cc_last_name (approve_contact_args request)
      else ApprovalRequest.contact_name request
           = cc_first_name (approve_contact_args request)
           /\ cc_last_name (approve_contact_args request) = "").
Proof.
  unfold approve_contact_args.
  pose proof (split_once_space_spec (ApprovalRequest.contact_name request))
    as [Hfirst Hrest].
  destruct (Py.split_once_space _) as [a b]. cbn [fst snd] in *.
  cbn [cc_first_name cc_last_name]. split; [exact Hfirst|].
  destruct b as [rest|].
  - assert (Hs : has_space (ApprovalRequest.contact_name request) = true).
    { rewrite Hrest. clear. induction a as [|c a IH]; simpl;
        [reflexivity | rewrite IH; apply orb_true_r]. }
    rewrite Hs. exact Hrest.
  - destruct Hrest as [Hname Hnone]. rewrite Hnone. auto.
Qed.

End Program.

(** ** The JSON codec returns what it was given *)

Lemma str_app_cons (x : ascii) (a b : string) :
  String x a ++ b = String x (a ++ b).
Proof. reflexivity. Qed.

Lemma str_app_nil (b : string) : "" ++ b = b.
Proof. reflexivity. Qed.

Lemma str_app_assoc (a b c : string) : (a ++ b) ++ c = a ++ (b ++ c).
Proof.
  induction a as [|x a IH]; [reflexivity|].
  rewrite !str_app_cons, IH. reflexivity.
Qed.

Lemma str_app_length (a b : string) :
  String.length (a ++ b) = (String.length a + String.length b)%nat.
Proof.
  induction a as [|x a IH]; [reflexivity|].
  rewrite str_app_cons. simpl. rewrite IH. reflexivity.
Qed.

(** One escaped character is read back. *)
Lemma load_string_escape_char (c : ascii) (tail v rest : string) :
  Json.load_string tail = Some (v, rest) ->
  Json.load_string (Json.escape_char c ++ tail) = Some (String c v, rest).
Proof.
  intros H.
  destruct c as [[] [] [] [] [] [] [] []];
    match goal with
    | |- context [Json.escape_char ?c] =>
        let e := eval vm_compute in (Json.escape_char c) in
        change (Json.escape_char c) with e
    end;
    rewrite ?str_app_cons, str_app_nil; simpl; rewrite H; reflexivity.
Qed.

(** A string literal is read back. *)
Lemma load_string_escape (s rest : string) :
  Json.load_string (Json.escape s ++ String Json.quote rest) = Some (s, rest).
Proof.
  induction s as [|c s IH]; [reflexivity|].
  change (Json.escape (String c s)) with (Json.escape_char c ++ Json.escape s).
  rewrite str_app_assoc. apply load_string_escape_char. exact IH.
Qed.

(** [null] or a string literal is read back. *)
Lemma load_optional_dump (v : option string) (rest : string) :
  Json.load_optional (Json.dump_optional v ++ rest) = Some (v, rest).
Proof.
  destruct v as [s|]; [|reflexivity].
  unfold Json.dump_optional, Json.dump_string.
  rewrite str_app_cons, str_app_assoc, str_app_cons, str_app_nil.
  cbn [Json.load_optional].
  change (Ascii.eqb Json.quote Json.quote) with true. cbv iota.
  rewrite load_string_escape. reflexivity.
Qed.

Lemma skip_dump_optional (v : option string) (rest : string) :
  Json.skip (String " " (Json.dump_optional v ++ rest))
  = Json.dump_optional v ++ rest.
Proof. destruct v; reflexivity. Qed.

(** One member is read back, with or without a space before it. *)
Lemma load_member_dump (key : string) (v : option string) (rest : string) :
  Json.load_member (Json.dump_member key v ++ rest) = Some ((key, v), rest)
  /\ Json.load_member (String " " (Json.dump_member key v ++ rest))
     = Some ((key, v), rest).
Proof.
  assert (H : Json.load_member (Json.dump_member key v ++ rest)
              = Some ((key, v), rest)).
  { unfold Json.dump_member, Json.dump_string.
    rewrite !str_app_cons, !str_app_assoc, !str_app_cons, !str_app_nil.
    unfold Json.load_member.
    change (Json.skip (String Json.quote ?x)) with (String Json.quote x).
    cbv iota.
    change (Ascii.eqb Json.quote Json.quote) with true. cbv iota.
    rewrite load_string_escape.
    change (Json.skip (String ":" ?x)) with (String ":"%char x). cbv iota.
    rewrite skip_dump_optional, load_optional_dump. reflexivity. }
  split; [exact H|].
  unfold Json.load_member in *.
  change (Json.skip (String " " ?x)) with (Json.skip x). exact H.
Qed.

Lemma dump_contact_body (c : ApolloContact.t) :
  Json.dump_contact c = String "{" (contact_body c ++ "}").
Proof. reflexivity. Qed.

Lemma contact_of_members (c : ApolloContact.t) :
  Json.contact_of (contact_members c) = Some c.
Proof. destruct c. reflexivity. Qed.

Lemma comma_space (x : string) :
  ", " ++ x = String ","%char (String " "%char x).
Proof. reflexivity. Qed.

Lemma load_members_cons (k : nat) (s tail rest : string)
    (m : string * option string) (ms : list (string * option string)) :
  Json.load_member s = Some (m, String ","%char tail) ->
  Json.load_members k tail = Some (ms, rest) ->
  Json.load_members (S k) s = Some (m :: ms, rest).
Proof.
  intros Hm Hms. cbn [Json.load_members]. rewrite Hm.
  change (Json.skip (String "," tail)) with (String ","%char tail).
  cbv iota. rewrite Hms. reflexivity.
Qed.

Lemma load_members_last (k : nat) (s rest : string)
    (m : string * option string) :
  Json.load_member s = Some (m, String "}"%char rest) ->
  Json.load_members (S k) s = Some ([m], rest).
Proof.
  intros Hm. cbn [Json.load_members]. rewrite Hm.
  change (Json.skip (String "}" rest)) with (String "}"%char rest).
  reflexivity.
Qed.

(** Eight members are read with any fuel from eight on. *)
Lemma load_members_body (c : ApolloContact.t) (rest : string) (n : nat) :
  Json.load_members (8 + n) (contact_body c ++ String "}" rest)
  = Some (contact_members c, rest).
Proof.
  unfold contact_body, contact_members. cbn [List.map fst snd String.concat].
  rewrite !str_app_assoc, !comma_space. cbn [Nat.add].
  eapply load_members_cons; [apply (proj1 (load_member_dump _ _ _))|].
  do 6 (eapply load_members_cons; [apply (proj2 (load_member_dump _ _ _))|]).
  eapply load_members_last. apply (proj2 (load_member_dump _ _ _)).
Qed.

Lemma dump_member_length (key : string) (v : option string) :
  (1 <= String.length (Json.dump_member key v))%nat.
Proof.
  unfold Json.dump_member, Json.dump_string. rewrite str_app_cons.
  simpl. lia.
Qed.

Lemma contact_body_length (c : ApolloContact.t) (rest : string) :
  (8 <= String.length (contact_body c ++ rest))%nat.
Proof.
  unfold contact_body, contact_members. cbn [List.map fst snd String.concat].
  rewrite !str_app_length.
  pose proof (dump_member_length "id" (Some (ApolloContact.id c))).
  pose proof (dump_member_length "first_name" (ApolloContact.first_name c)).
  pose proof (dump_member_length "last_name" (ApolloContact.last_name c)).
  pose proof (dump_member_length "name" (ApolloContact.name c)).
  pose proof (dump_member_length "title" (ApolloContact.title c)).
  pose proof (dump_member_length "email" (ApolloContact.email c)).
  pose proof (dump_member_length "linkedin_url"
                (ApolloContact.linkedin_url c)).
  pose proof (dump_member_length "organization_name"
                (ApolloContact.organization_name c)).
  lia.
Qed.

(** An object is read with the fuel [load_contacts] gives. *)
Lemma load_members_contact (c : ApolloContact.t) (rest : string) :
  Json.load_members (String.length (contact_body c ++ String "}" rest))
    (contact_body c ++ String "}" rest)
  = Some (contact_members c, rest).
Proof.
  pose proof (contact_body_length c (String "}" rest)) as Hlen.
  replace (String.length (contact_body c ++ String "}" rest))
    with (8 + (String.length (contact_body c ++ String "}" rest) - 8))%nat
    by lia.
  apply load_members_body.
Qed.

Lemma brace_tail (x y : string) : (x ++ "}") ++ y = x ++ String "}"%char y.
Proof. rewrite str_app_assoc. reflexivity. Qed.

Lemma load_contacts_cons (k : nat) (s body tail rest : string)
    (ms : list (string * option string)) (c : ApolloContact.t)
    (cs : list ApolloContact.t) :
  Json.skip s = String "{"%char body ->
  Json.load_members (String.length body) body
  = Some (ms, String ","%char tail) ->
  Json.contact_of ms = Some c ->
  Json.load_contacts k tail = Some (cs, rest) ->
  Json.load_contacts (S k) s = Some (c :: cs, rest).
Proof.
  intros Hs Hms Hc Hcs. cbn [Json.load_contacts]. rewrite Hs. cbv iota.
  rewrite Hms, Hc.
  change (Json.skip (String "," tail)) with (String ","%char tail).
  cbv iota. rewrite Hcs. reflexivity.
Qed.

Lemma load_contacts_last (k : nat) (s body rest : string)
    (ms : list (string * option string)) (c : ApolloContact.t) :
  Json.skip s = String "{"%char body ->
  Json.load_members (String.length body) body
  = Some (ms, String "]"%char rest) ->
  Json.contact_of ms = Some c ->
  Json.load_contacts (S k) s = Some ([c], rest).
Proof.
  intros Hs Hms Hc. cbn [Json.load_contacts]. rewrite Hs. cbv iota.
  rewrite Hms, Hc.
  change (Json.skip (String "]" rest)) with (String "]"%char rest).
  reflexivity.
Qed.

(** The objects of an array are read back, with or without a space before
    the first, by any fuel above their number. *)
Lemma load_contacts_dump (l : list ApolloContact.t) :
  forall (c : ApolloContact.t) (n : nat) (rest : string),
    (List.length l < n)%nat ->
    Json.load_contacts n
      (String.concat ", " (List.map Json.dump_contact (c :: l))
       ++ String "]" rest)
    = Some (c :: l, rest)
    /\ Json.load_contacts n
         (String " "
            (String.concat ", " (List.map Json.dump_contact (c :: l))
             ++ String "]" rest))
       = Some (c :: l, rest).
Proof.
  induction l as [|c' l IH]; intros c n rest Hn;
    (destruct n as [|k]; [simpl in Hn; lia|]).
  - cbn [List.map String.concat]. rewrite dump_contact_body.
    rewrite str_app_cons, brace_tail.
    split.
    + eapply load_contacts_last;
        [reflexivity | apply load_members_contact | apply contact_of_members].
    + eapply load_contacts_last;
        [reflexivity | apply load_members_contact | apply contact_of_members].
  - assert (Hk : (List.length l < k)%nat) by (simpl in Hn; lia).
    destruct (IH c' k rest Hk) as [_ Htail].
    change (String.concat ", " (List.map Json.dump_contact (c :: c' :: l)))
      with (Json.dump_contact c ++ ", "
            ++ String.concat ", " (List.map Json.dump_contact (c' :: l))).
    rewrite !str_app_assoc, dump_contact_body.
    rewrite str_app_cons, brace_tail, comma_space.
    split.
    + eapply load_contacts_cons;
        [reflexivity | apply load_members_contact | apply contact_of_members
        | exact Htail].
    + eapply load_contacts_cons;
        [reflexivity | apply load_members_contact | apply contact_of_members
        | exact Htail].
Qed.

Lemma dump_contact_length (c : ApolloContact.t) :
  (1 <= String.length (Json.dump_contact c))%nat.
Proof. rewrite dump_contact_body. simpl. lia. Qed.

Lemma dumped_contacts_length (l : list ApolloContact.t) (c : ApolloContact.t)
    (rest : string) :
  (List.length l
   < String.length
       (String.concat ", " (List.map Json.dump_contact (c :: l)) ++ rest))%nat.
Proof.
  revert c. induction l as [|c' l IH]; intros c.
  - cbn [List.map String.concat List.length]. rewrite str_app_length.
    pose proof (dump_contact_length c). lia.
  - change (String.concat ", " (List.map Json.dump_contact (c :: c' :: l)))
      with (Json.dump_contact c ++ ", "
            ++ String.concat ", " (List.map Json.dump_contact (c' :: l))).
    rewrite !str_app_assoc, str_app_length, comma_space.
    cbn [String.length List.length]. specialize (IH c'). lia.
Qed.

(** The round trip of the codec: [json.loads(json.dumps(l)) == l] for
    every list of contact dictionaries. *)
Lemma loads_dumps (l : list ApolloContact.t) :
  Json.loads (Json.dumps l) = Return l.
Proof.
  destruct l as [|c l]; [reflexivity|].
  unfold Json.dumps. rewrite str_app_cons, str_app_nil.
  unfold Json.loads.
  change (Json.skip (String "[" ?x)) with (String "["%char x). cbv iota.
  assert (Hbrace : exists body,
             String.concat ", " (List.map Json.dump_contact (c :: l)) ++ "]"
             = String "{"%char body).
  { destruct l as [|c' l].
    - cbn [List.map String.concat]. rewrite dump_contact_body, str_app_cons.
      eauto.
    - change (String.concat ", " (List.map Json.dump_contact (c :: c' :: l)))
        with (Json.dump_contact c ++ ", "
              ++ String.concat ", " (List.map Json.dump_contact (c' :: l))).
      rewrite dump_contact_body, str_app_cons. eauto. }
  destruct Hbrace as (body & Hbody).
  pose proof (dumped_contacts_length l c "]") as Hlen.
  pose proof (proj1 (load_contacts_dump l c _ "" Hlen)) as Hload.
  rewrite Hbody in *.
  change (Json.skip (String "{" body)) with (String "{"%char body). cbv iota.
  rewrite Hload. reflexivity.
Qed.

(** ** The cache returns what was stored *)

(** C5, as the code has it. With the JSON codec, a lookup that follows
    [cache_contacts] for the same domain returns the non-empty list that
    was stored, and leaves the database as the store left it, when
    [CACHE_EXPIRY_DAYS] makes a [timedelta] and the lookup is made while
    the entry is no older than that window. *)
Theorem cached_contacts_round_trip (config : Config) (now now' window : Z)
    (domain : string) (contacts : list ApolloContact.t) (d : db) :
  contacts <> [] ->
  timedelta_days (CACHE_EXPIRY_DAYS config) = Return window ->
  (now' - now <= window)%Z ->
  get_cached_contacts Json.loads config now' domain
    (snd (cache_contacts Json.dumps now domain contacts d))
  = (Return (Some contacts),
     snd (cache_contacts Json.dumps now domain contacts d)).
Proof.
  intros _ Hwindow Hfresh.
  exact (lookup_after_store Json.dumps Json.loads config now now' window
           domain contacts d (loads_dumps contacts) Hwindow Hfresh).
Qed.

(** ** Instances *)

Lemma parse_email_response_fallback_witness :
  exists first rest,
    Sample.reply_core = first ++ rest
    /\ one_line first
    /\ (rest = "" \/ exists t, rest = String Py.newline t)
    /\ _parse_email_response Sample.reply
       = (substring 0 50 first, Sample.reply).
Proof.
  apply (parse_email_response_fallback Sample.reply
           (String Py.newline "  ") Sample.reply_core (String Py.newline "")).
  - reflexivity.
  - reflexivity.
  - reflexivity.
  - right. split.
    + eexists _, _. split; reflexivity.
    + exists ("Quick question about how Acme plans to ship its French launch"
              ++ String Py.newline "Best, Sa"), "m"%char.
      split; reflexivity.
  - intros b Hb. apply line_start_listed in Hb. vm_compute in Hb.
    destruct Hb as [<- | [<- | []]]; split; reflexivity.
Defined.

(** The subject of the sample reply is its first line cut after 50
    characters. *)
Example sample_reply_is_cut :
  _parse_email_response Sample.reply
  = ("Quick question about how Acme plans to ship its Fr", Sample.reply).
Proof. vm_compute. reflexivity. Qed.

(** C8 fails on the code: the one line of the response [ SUBJECT: Hi]
    opens with a space, so that no line of the response starts with
    [SUBJECT:] or [BODY:]; the subject returned is [Hi], not the line cut
    to 50 characters. *)
Lemma indented_subject_is_parsed :
  one_line " SUBJECT: Hi"
  /\ String.prefix "SUBJECT:" " SUBJECT: Hi" = false
  /\ String.prefix "BODY:" " SUBJECT: Hi" = false
  /\ _parse_email_response " SUBJECT: Hi" = ("Hi", " SUBJECT: Hi")
  /\ "Hi" <> substring 0 50 " SUBJECT: Hi".
Proof.
  split; [reflexivity|]. split; [reflexivity|]. split; [reflexivity|].
  split; [vm_compute; reflexivity | vm_compute; discriminate].
Qed.

Lemma update_status_unknown_id_is_silent_witness :
  update_approval_status 0 "req-404" "approved" None
    (store (Sample.sys_with "pending"))
  = (Return tt, store (Sample.sys_with "pending")).
Proof.
  apply (update_status_unknown_id_is_silent 0 "req-404" "approved" None
           (store (Sample.sys_with "pending"))).
  vm_compute. reflexivity.
Defined.

(** C3 fails on the code: no request has the id [req-404], and the update
    returns normally instead of raising. *)
Lemma update_status_unknown_id_returns :
  approval_queue (store (Sample.sys_with "pending")) !! "req-404" = None
  /\ fst (update_approval_status 0 "req-404" "approved" None
            (store (Sample.sys_with "pending")))
     = Return tt.
Proof. split; vm_compute; reflexivity. Qed.

Lemma cached_contacts_round_trip_witness :
  get_cached_contacts Json.loads Sample.config
    (Sample.epoch * 1000000 + 5) "acme.com"
    (snd (cache_contacts Json.dumps (Sample.epoch * 1000000) "acme.com"
            [Sample.contact] empty_db))
  = (Return (Some [Sample.contact]),
     snd (cache_contacts Json.dumps (Sample.epoch * 1000000) "acme.com"
            [Sample.contact] empty_db)).
Proof.
  apply (cached_contacts_round_trip Sample.config
           (Sample.epoch * 1000000) (Sample.epoch * 1000000 + 5)
           (7 * 86400000000) "acme.com" [Sample.contact] empty_db).
  - discriminate.
  - vm_compute. reflexivity.
  - vm_compute. discriminate.
Defined.

(** C5 fails on the code: with an expiry window of 0 days, the lookup made
    one microsecond after the store finds the entry expired, reports no
    entry and deletes it. *)
Lemma lookup_right_after_store_finds_nothing :
  [Sample.contact] <> []
  /\ get_cached_contacts Json.loads
       {| APOLLO_SEQUENCE_ID := "seq-42";
          SLACK_SIGNING_SECRET := "8f742231b10e8888abcd99yyyzzz85a5";
          AI_PROVIDER := "anthropic";
          CACHE_EXPIRY_DAYS := 0 |}
       (Sample.epoch * 1000000 + 1) "acme.com"
       (snd (cache_contacts Json.dumps (Sample.epoch * 1000000) "acme.com"
               [Sample.contact] empty_db))
     = (Return None, empty_db).
Proof. split; [discriminate | vm_compute; reflexivity]. Qed.

Lemma expired_entry_is_purged_witness :
  company_cache
    (snd (get_cached_contacts Json.loads Sample.config
            (Sample.epoch * 1000000 + 8 * 86400000000) "acme.com"
            (snd (cache_contacts Json.dumps (Sample.epoch * 1000000)
                    "acme.com" [Sample.contact] empty_db))))
  !! "acme.com" = None.
Proof.
  apply (expired_entry_is_purged Json.loads Sample.config
           (Sample.epoch * 1000000 + 8 * 86400000000) (7 * 86400000000)
           "acme.com"
           {| contacts_json := Json.dumps [Sample.contact];
              fetched_at := Sample.epoch * 1000000 |}
           (snd (cache_contacts Json.dumps (Sample.epoch * 1000000)
                   "acme.com" [Sample.contact] empty_db))).
  - vm_compute. reflexivity.
  - vm_compute. reflexivity.
  - vm_compute. reflexivity.
Defined.

Lemma stale_timestamp_is_rejected_witness :
  verify_slack_signature Sample.hexdigest Sample.config
    (inject_Z Sample.epoch) (Sample.signed "1699999699" "skip_lead")
  = Return false
  /\ forall s, time_time Sample.env (ticks s) = inject_Z Sample.epoch ->
       fst (handle_slack_interactions Sample.hexdigest Sample.config
              Sample.env (Sample.signed "1699999699" "skip_lead") s)
       = Return (jsonify [("error", "Invalid signature")] 401).
Proof.
  apply (stale_timestamp_is_rejected Sample.hexdigest Sample.config Sample.env
           (inject_Z Sample.epoch) (Sample.signed "1699999699" "skip_lead")
           1699999699).
  - vm_compute. reflexivity.
  - vm_compute. reflexivity.
  - vm_compute. discriminate.
Defined.

(** C7 fails on the code: the event is stamped [10 ^ 309], far more than
    301 seconds from the current time, and carries the correct signature;
    the check raises [OverflowError] instead of returning [False], and the
    exception leaves the endpoint, which answers no 401. *)
Lemma huge_timestamp_overflows :
  Py.int Sample.huge_timestamp = Some (10 ^ 309)
  /\ (301 <= Qabs (inject_Z Sample.epoch - inject_Z (10 ^ 309)))%Q
  /\ X_Slack_Signature (Sample.signed Sample.huge_timestamp "skip_lead")
     = Some ("v0=" ++ Sample.hexdigest (SLACK_SIGNING_SECRET Sample.config)
                        ("v0:" ++ Sample.huge_timestamp ++ ":"
                         ++ get_data (Sample.signed Sample.huge_timestamp
                                        "skip_lead")))
  /\ verify_slack_signature Sample.hexdigest Sample.config
       (inject_Z Sample.epoch)
       (Sample.signed Sample.huge_timestamp "skip_lead")
     = Raise {| exn_kind := OverflowError;
                exn_message := "int too large to convert to float" |}
  /\ fst (handle_slack_interactions Sample.hexdigest Sample.config
            Sample.env (Sample.signed Sample.huge_timestamp "skip_lead")
            (Sample.sys_with "pending"))
     = Raise {| exn_kind := OverflowError;
                exn_message := "int too large to convert to float" |}.
Proof.
  split; [vm_compute; reflexivity|].
  split; [vm_compute; discriminate|].
  split; [vm_compute; reflexivity|].
  split; vm_compute; reflexivity.
Qed.

Lemma bad_timestamp_raises_witness :
  (forall now, exists e,
      verify_slack_signature Sample.hexdigest Sample.config now
        (Sample.signed "yesterday" "skip_lead") = Raise e
      /\ exn_kind e = ValueError)
  /\ (forall s, exists e,
         fst (handle_slack_interactions Sample.hexdigest Sample.config
                Sample.env (Sample.signed "yesterday" "skip_lead") s)
         = Raise e
         /\ exn_kind e = ValueError
         /\ store (snd (handle_slack_interactions Sample.hexdigest
                          Sample.config Sample.env
                          (Sample.signed "yesterday" "skip_lead") s))
            = store s).
Proof.
  apply (bad_timestamp_raises Sample.hexdigest Sample.config Sample.env
           (Sample.signed "yesterday" "skip_lead")).
  right. exists "yesterday". split; [reflexivity|].
  intros Hliteral. destruct (literals_are_read _ Hliteral) as (n & Hn).
  vm_compute in Hn. discriminate Hn.
Defined.

(** C9 fails on the code: the header [1_700_000_000] is not a decimal
    string, yet [int()] reads it as 1700000000; with the correct signature
    the check returns [True] and the endpoint answers the skip with 200:
    nothing is raised. *)
Lemma underscored_timestamp_is_accepted :
  X_Slack_Request_Timestamp (Sample.signed "1_700_000_000" "skip_lead")
  = Some "1_700_000_000"
  /\ isdecimal "1_700_000_000" = false
  /\ verify_slack_signature Sample.hexdigest Sample.config
       (inject_Z Sample.epoch) (Sample.signed "1_700_000_000" "skip_lead")
     = Return true
  /\ fst (handle_slack_interactions Sample.hexdigest Sample.config
            Sample.env (Sample.signed "1_700_000_000" "skip_lead")
            (Sample.sys_with "pending"))
     = Return (jsonify [("status", "skipped")] 200).
Proof. repeat split; vm_compute; reflexivity. Qed.

Lemma rejected_is_never_written_witness :
  written_status "pending" /\ "pending" <> "rejected".
Proof.
  apply (rejected_is_never_written Sample.hexdigest Json.dumps Json.loads
           Sample.config Sample.env
           (snd (perform Sample.hexdigest Json.dumps Json.loads Sample.config
                   Sample.env (Webhook (Return Sample.payload) "req-1")
                   initial_sys))
           (reachable_step Sample.hexdigest Json.dumps Json.loads
              Sample.config Sample.env
              (Webhook (Return Sample.payload) "req-1") initial_sys
              (reachable_init Sample.hexdigest Json.dumps Json.loads
                 Sample.config Sample.env))
           "req-1" "pending").
  vm_compute. reflexivity.
Defined.

Lemma skip_overwrites_status_witness :
  status_of "req-1"
    (store (snd (handle_slack_interactions Sample.hexdigest Sample.config
                   Sample.env (Sample.signed "1700000000" "skip_lead")
                   (Sample.sys_with "pending"))))
  = Some "skipped"
  /\ crm_commits
       (snd (handle_slack_interactions Sample.hexdigest Sample.config
               Sample.env (Sample.signed "1700000000" "skip_lead")
               (Sample.sys_with "pending")))
     = crm_commits (Sample.sys_with "pending").
Proof.
  apply (skip_overwrites_status Sample.hexdigest Sample.config Sample.env
           (Sample.signed "1700000000" "skip_lead") (Sample.form "skip_lead")
           "req-1" (Sample.row "pending") (Sample.sys_with "pending"));
    vm_compute; reflexivity.
Defined.

(** C1 fails on the code: the request [req-1] is approved, a terminal
    status, and a verified [skip_lead] interaction changes it to skipped. *)
Lemma skip_changes_an_approved_request :
  status_of "req-1" (store (Sample.sys_with "approved")) = Some "approved"
  /\ fst (handle_slack_interactions Sample.hexdigest Sample.config Sample.env
            (Sample.signed "1700000000" "skip_lead")
            (Sample.sys_with "approved"))
     = Return (jsonify [("status", "skipped")] 200)
  /\ status_of "req-1"
       (store (snd (handle_slack_interactions Sample.hexdigest Sample.config
                      Sample.env (Sample.signed "1700000000" "skip_lead")
                      (Sample.sys_with "approved"))))
     = Some "skipped".
Proof. repeat split; vm_compute; reflexivity. Qed.

Lemma approval_depends_on_enrollment_witness :
  status_of "req-1"
    (store (snd (handle_approve Sample.config Sample.env
                   (QueueRow.to_request "req-1" (Sample.row "pending"))
                   (Some "C024BE91L") (Some "1700000000.000100")
                   (Sample.sys_with "pending"))))
  = Some "approved".
Proof.
  apply (approval_depends_on_enrollment Sample.config Sample.env
           (QueueRow.to_request "req-1" (Sample.row "pending"))
           (Some "C024BE91L") (Some "1700000000.000100")
           (Sample.row "pending") (Sample.sys_with "pending")
           (Some "c-9001"));
    vm_compute; reflexivity.
Defined.

(** C4 fails on the code: the request [req-1] is pending, the creation of
    the contact succeeds and the enrollment fails; [handle_approve] answers
    500 and the request is still pending. *)
Lemma failed_enrollment_blocks_approval :
  status_of "req-1" (store (Sample.sys_with "pending")) = Some "pending"
  /\ contacts_create Sample.env_enrollment_down []
       (approve_contact_args
          (QueueRow.to_request "req-1" (Sample.row "pending")))
     = Return (Some "c-9001")
  /\ crm_commits
       (snd (handle_approve Sample.config Sample.env_enrollment_down
               (QueueRow.to_request "req-1" (Sample.row "pending"))
               (Some "C024BE91L") (Some "1700000000.000100")
               (Sample.sys_with "pending")))
     = [ApolloCreateContact
          (approve_contact_args
             (QueueRow.to_request "req-1" (Sample.row "pending")));
        ApolloAddToSequence "c-9001" "seq-42"]
  /\ fst (handle_approve Sample.config Sample.env_enrollment_down
            (QueueRow.to_request "req-1" (Sample.row "pending"))
            (Some "C024BE91L") (Some "1700000000.000100")
            (Sample.sys_with "pending"))
     = Return (jsonify [("error", "422 Client Error: Unprocessable Entity")]
                 500)
  /\ status_of "req-1"
       (store (snd (handle_approve Sample.config Sample.env_enrollment_down
                      (QueueRow.to_request "req-1" (Sample.row "pending"))
                      (Some "C024BE91L") (Some "1700000000.000100")
                      (Sample.sys_with "pending"))))
     = Some "pending".
Proof. repeat split; vm_compute; reflexivity. Qed.

Lemma duplicate_approval_commits_twice_witness :
  contact_creations
    (shared (run_schedule Sample.config Sample.env
               [true; true; true; true; true;
                false; false; false; false; false]
               (delivered_twice (Some "req-1") (Some "C024BE91L")
                  (Some "1700000000.000100") (Sample.sys_with "pending"))))
  = (contact_creations (Sample.sys_with "pending") + 2)%nat
  /\ (first (run_schedule Sample.config Sample.env
               [true; true; true; true; true;
                false; false; false; false; false]
               (delivered_twice (Some "req-1") (Some "C024BE91L")
                  (Some "1700000000.000100") (Sample.sys_with "pending")))
      = Finished (jsonify [("status", "approved")] 200)
      \/ second (run_schedule Sample.config Sample.env
                   [true; true; true; true; true;
                    false; false; false; false; false]
                   (delivered_twice (Some "req-1") (Some "C024BE91L")
                      (Some "1700000000.000100") (Sample.sys_with "pending")))
         = Finished (jsonify [("status", "approved")] 200) ->
      status_of "req-1"
        (store (shared (run_schedule Sample.config Sample.env
                          [true; true; true; true; true;
                           false; false; false; false; false]
                          (delivered_twice (Some "req-1") (Some "C024BE91L")
                             (Some "1700000000.000100")
                             (Sample.sys_with "pending")))))
      = Some "approved").
Proof.
  apply (duplicate_approval_commits_twice Sample.config Sample.env
           [true; true; true; true; true; false; false; false; false; false]
           "req-1" (Sample.row "pending") (Some "C024BE91L")
           (Some "1700000000.000100") (Sample.sys_with "pending"));
    vm_compute; reflexivity.
Defined.

(** C2 fails on the code: the request [req-1] is pending and the same
    [approve_lead] interaction is delivered twice, the two deliveries
    taking turns step by step, so that both read the request while it is
    pending; both answer approved and Apollo receives two contact
    creations. *)
Lemma duplicate_approval_creates_two_contacts :
  status_of "req-1" (store (Sample.sys_with "pending")) = Some "pending"
  /\ first (run_schedule Sample.config Sample.env
              [true; false; true; false; true; false; true; false;
               true; false]
              (delivered_twice (Some "req-1") (Some "C024BE91L")
                 (Some "1700000000.000100") (Sample.sys_with "pending")))
     = Finished (jsonify [("status", "approved")] 200)
  /\ second (run_schedule Sample.config Sample.env
               [true; false; true; false; true; false; true; false;
                true; false]
               (delivered_twice (Some "req-1") (Some "C024BE91L")
                  (Some "1700000000.000100") (Sample.sys_with "pending")))
     = Finished (jsonify [("status", "approved")] 200)
  /\ contact_creations
       (shared (run_schedule Sample.config Sample.env
                  [true; false; true; false; true; false; true; false;
                   true; false]
                  (delivered_twice (Some "req-1") (Some "C024BE91L")
                     (Some "1700000000.000100") (Sample.sys_with "pending"))))
     = 2%nat.
Proof. repeat split; vm_compute; reflexivity. Qed.

Lemma saved_request_is_found_witness :
  fst (save_approval_request 5
         (QueueRow.to_request "req-2" (Sample.row "pending"))
         (store (Sample.sys_with "approved")))
  = Return tt
  /\ fst (get_approval_request (Some "req-2")
            (snd (save_approval_request 5
                    (QueueRow.to_request "req-2" (Sample.row "pending"))
                    (store (Sample.sys_with "approved")))))
     = Return
         (Some
            {| ApprovalRequest.id := "req-2";
               ApprovalRequest.company := QueueRow.company (Sample.row "pending");
               ApprovalRequest.domain := QueueRow.domain (Sample.row "pending");
               ApprovalRequest.signal_summary :=
                 QueueRow.signal_summary (Sample.row "pending");
               ApprovalRequest.contact_id :=
                 QueueRow.contact_id (Sample.row "pending");
               ApprovalRequest.contact_name :=
                 QueueRow.contact_name (Sample.row "pending");
               ApprovalRequest.contact_title :=
                 QueueRow.contact_title (Sample.row "pending");
               ApprovalRequest.contact_email :=
                 QueueRow.contact_email (Sample.row "pending");
               ApprovalRequest.personalized_subject :=
                 QueueRow.personalized_subject (Sample.row "pending");
               ApprovalRequest.personalized_email :=
                 QueueRow.personalized_email (Sample.row "pending");
               ApprovalRequest.i18n_signals :=
                 QueueRow.i18n_signals (Sample.row "pending");
               ApprovalRequest.slack_message_ts :=
                 QueueRow.slack_message_ts (Sample.row "pending");
               ApprovalRequest.status := "pending";
               ApprovalRequest.created_at := Some 5 |}).
Proof.
  apply (saved_request_is_found 5
           (QueueRow.to_request "req-2" (Sample.row "pending"))
           (store (Sample.sys_with "approved"))).
  vm_compute. reflexivity.
Defined.

Lemma second_save_is_refused_witness :
  exists e,
    save_approval_request 9
      (QueueRow.to_request "req-2" (Sample.row "approved"))
      (snd (save_approval_request 5
              (QueueRow.to_request "req-2" (Sample.row "pending"))
              (store (Sample.sys_with "approved"))))
    = (Raise e,
       snd (save_approval_request 5
              (QueueRow.to_request "req-2" (Sample.row "pending"))
              (store (Sample.sys_with "approved"))))
    /\ exn_kind e = IntegrityError.
Proof.
  apply (second_save_is_refused 5 9
           (QueueRow.to_request "req-2" (Sample.row "pending"))
           (QueueRow.to_request "req-2" (Sample.row "approved"))
           (store (Sample.sys_with "approved"))).
  - vm_compute. reflexivity.
  - reflexivity.
Defined.

Lemma updated_request_keeps_its_lead_witness :
  exists after,
    stored_request "req-1"
      (snd (update_approval_status 7 "req-1" "approved" None
              (store (Sample.sys_with "pending"))))
    = Some after
    /\ ApprovalRequest.status after = "approved"
    /\ ApprovalRequest.slack_message_ts after
       = (if Py.truthy_opt None then None
          else ApprovalRequest.slack_message_ts
                 (QueueRow.to_request "req-1" (Sample.row "pending")))
    /\ same_lead (QueueRow.to_request "req-1" (Sample.row "pending")) after.
Proof.
  apply (updated_request_keeps_its_lead 7 "req-1" "approved" None
           (store (Sample.sys_with "pending"))
           (QueueRow.to_request "req-1" (Sample.row "pending"))).
  vm_compute. reflexivity.
Defined.

Lemma update_status_is_local_witness :
  approval_queue
    (snd (update_approval_status 7 "req-2" "approved" None
            (store (Sample.sys_with "pending"))))
  !! "req-1" = approval_queue (store (Sample.sys_with "pending")) !! "req-1"
  /\ company_cache
       (snd (update_approval_status 7 "req-2" "approved" None
               (store (Sample.sys_with "pending"))))
     = company_cache (store (Sample.sys_with "pending")).
Proof.
  apply (update_status_is_local 7 "req-2" "approved" None
           (store (Sample.sys_with "pending")) "req-1").
  discriminate.
Defined.

Lemma search_people_uses_the_cache_witness :
  fst (search_people Json.dumps Json.loads Sample.config Sample.env "acme.com"
         (snd (search_people Json.dumps Json.loads Sample.config Sample.env
                 "acme.com" initial_sys)))
  = Return [Sample.contact]
  /\ store (snd (search_people Json.dumps Json.loads Sample.config Sample.env
                   "acme.com"
                   (snd (search_people Json.dumps Json.loads Sample.config
                           Sample.env "acme.com" initial_sys))))
     = store (snd (search_people Json.dumps Json.loads Sample.config
                     Sample.env "acme.com" initial_sys))
  /\ calls (snd (search_people Json.dumps Json.loads Sample.config Sample.env
                   "acme.com"
                   (snd (search_people Json.dumps Json.loads Sample.config
                           Sample.env "acme.com" initial_sys))))
     = calls (snd (search_people Json.dumps Json.loads Sample.config
                     Sample.env "acme.com" initial_sys)).
Proof.
  apply (search_people_uses_the_cache Json.dumps Json.loads Sample.config
           Sample.env "acme.com"
           {| contacts_json := Json.dumps [Sample.contact];
              fetched_at := Sample.epoch * 1000000 + 1 |}
           (7 * 86400000000) Sample.contact []
           (snd (search_people Json.dumps Json.loads Sample.config Sample.env
                   "acme.com" initial_sys))).
  - vm_compute. reflexivity.
  - vm_compute. reflexivity.
  - vm_compute. discriminate.
  - vm_compute. reflexivity.
Defined.

Lemma empty_answer_is_not_cached_witness :
  fst (search_people Json.dumps Json.loads Sample.config Scenario.nobody
         "acme.com" initial_sys)
  = Return []
  /\ company_cache
       (store (snd (search_people Json.dumps Json.loads Sample.config
                      Scenario.nobody "acme.com" initial_sys)))
     !! "acme.com" = None
  /\ calls (snd (search_people Json.dumps Json.loads Sample.config
                   Scenario.nobody "acme.com" initial_sys))
     = List.app (calls initial_sys) [ApolloSearchPeople "acme.com"].
Proof.
  apply (empty_answer_is_not_cached Json.dumps Json.loads Sample.config
           Scenario.nobody "acme.com" initial_sys);
    vm_compute; reflexivity.
Defined.

Lemma second_search_is_served_from_cache_witness :
  fst (search_people Json.dumps Json.loads Sample.config Sample.env "acme.com"
         initial_sys)
  = Return [Sample.contact]
  /\ fst (search_people Json.dumps Json.loads Sample.config Sample.env
            "acme.com"
            (snd (search_people Json.dumps Json.loads Sample.config
                    Sample.env "acme.com" initial_sys)))
     = Return [Sample.contact]
  /\ calls (snd (search_people Json.dumps Json.loads Sample.config Sample.env
                   "acme.com"
                   (snd (search_people Json.dumps Json.loads Sample.config
                           Sample.env "acme.com" initial_sys))))
     = List.app (calls initial_sys) [ApolloSearchPeople "acme.com"].
Proof.
  apply (second_search_is_served_from_cache Json.dumps Json.loads
           Sample.config Sample.env "acme.com" (7 * 86400000000)
           Sample.contact [] initial_sys).
  - vm_compute. reflexivity.
  - vm_compute. reflexivity.
  - vm_compute. reflexivity.
  - vm_compute. reflexivity.
  - vm_compute. discriminate.
Defined.

Lemma fresh_timestamp_checks_the_signature_witness :
  verify_slack_signature Sample.hexdigest Sample.config
    (inject_Z Sample.epoch + 300) (Sample.signed "1700000000" "skip_lead")
  = Return true.
Proof.
  apply (fresh_timestamp_checks_the_signature Sample.hexdigest Sample.config
           (inject_Z Sample.epoch + 300)
           (Sample.signed "1700000000" "skip_lead") 1700000000).
  - vm_compute. reflexivity.
  - vm_compute. reflexivity.
  - vm_compute. discriminate.
  - vm_compute. reflexivity.
  - vm_compute. reflexivity.
Defined.

Lemma non_ascii_signature_raises_witness :
  exists e,
    handle_slack_interactions Sample.hexdigest Sample.config Sample.env
      (Delivery.with_signature (String (ascii_of_nat 233) "v0=86"))
      (Sample.sys_with "pending")
    = (Raise e, after_clock (Sample.sys_with "pending"))
    /\ exn_kind e = TypeError.
Proof.
  apply (non_ascii_signature_raises Sample.hexdigest Sample.config Sample.env
           (Delivery.with_signature (String (ascii_of_nat 233) "v0=86"))
           1700000000 (Sample.sys_with "pending")).
  - vm_compute. reflexivity.
  - vm_compute. reflexivity.
  - vm_compute. discriminate.
  - vm_compute. reflexivity.
Defined.

Lemma wrong_signature_is_rejected_witness :
  handle_slack_interactions Sample.hexdigest Sample.config Sample.env
    (Delivery.with_signature "v0=00") (Sample.sys_with "pending")
  = (Return (jsonify [("error", "Invalid signature")] 401),
     after_clock (Sample.sys_with "pending")).
Proof.
  apply (wrong_signature_is_rejected Sample.hexdigest Sample.config Sample.env
           (Delivery.with_signature "v0=00") 1700000000
           (Sample.sys_with "pending")).
  - vm_compute. reflexivity.
  - vm_compute. reflexivity.
  - vm_compute. discriminate.
  - vm_compute. reflexivity.
  - vm_compute. reflexivity.
  - vm_compute. discriminate.
Defined.

Lemma unknown_request_is_not_found_witness :
  handle_slack_interactions Sample.hexdigest Sample.config Sample.env
    (Sample.signed "1700000000" "approve_lead") initial_sys
  = (Return (jsonify [("error", "Request not found")] 404),
     after_clock initial_sys).
Proof.
  apply (unknown_request_is_not_found Sample.hexdigest Sample.config
           Sample.env (Sample.signed "1700000000" "approve_lead")
           (Sample.form "approve_lead") initial_sys);
    vm_compute; reflexivity.
Defined.

Lemma edit_and_regenerate_do_nothing_witness :
  handle_slack_interactions Sample.hexdigest Sample.config Sample.env
    (Sample.signed "1700000000" "edit_lead") (Sample.sys_with "pending")
  = (Return (jsonify [("status", "edit_not_implemented")] 501),
     after_clock (Sample.sys_with "pending")).
Proof.
  apply (edit_and_regenerate_do_nothing Sample.hexdigest Sample.config
           Sample.env (Sample.signed "1700000000" "edit_lead")
           (Sample.form "edit_lead") "req-1" (Sample.row "pending")
           (Sample.sys_with "pending")); vm_compute; reflexivity.
Defined.

Lemma unknown_action_is_refused_witness :
  handle_slack_interactions Sample.hexdigest Sample.config Sample.env
    (Sample.signed "1700000000" "archive_lead") (Sample.sys_with "pending")
  = (Return (jsonify [("error", "Unknown action")] 400),
     after_clock (Sample.sys_with "pending")).
Proof.
  apply (unknown_action_is_refused Sample.hexdigest Sample.config Sample.env
           (Sample.signed "1700000000" "archive_lead")
           (Sample.form "archive_lead") "req-1" (Sample.row "pending")
           (Sample.sys_with "pending"));
    first [vm_compute; reflexivity | vm_compute; discriminate].
Defined.

Lemma undecodable_payload_is_an_internal_error_witness :
  handle_slack_interactions Sample.hexdigest Sample.config Sample.env
    Delivery.undecodable (Sample.sys_with "pending")
  = (Return (jsonify [("error", "Internal server error")] 500),
     after_clock (Sample.sys_with "pending")).
Proof.
  apply (undecodable_payload_is_an_internal_error Sample.hexdigest
           Sample.config Sample.env Delivery.undecodable
           (Scenario.failure ValueError
              "Expecting property name enclosed in double quotes")
           (Sample.sys_with "pending")); vm_compute; reflexivity.
Defined.

Lemma failed_creation_changes_nothing_witness :
  handle_approve Sample.config Scenario.creation_down
    (QueueRow.to_request "req-1" (Sample.row "pending"))
    (Some "C024BE91L") (Some "1700000000.000100") (Sample.sys_with "pending")
  = (Return (jsonify [("error", "401 Client Error: Unauthorized")] 500),
     {| store := store (Sample.sys_with "pending");
        calls :=
          List.app (calls (Sample.sys_with "pending"))
            [ApolloCreateContact
               (approve_contact_args
                  (QueueRow.to_request "req-1" (Sample.row "pending")))];
        ticks := ticks (Sample.sys_with "pending") |}).
Proof.
  apply (failed_creation_changes_nothing Sample.config Scenario.creation_down
           (QueueRow.to_request "req-1" (Sample.row "pending"))
           (Some "C024BE91L") (Some "1700000000.000100")
           (Scenario.failure OtherException "401 Client Error: Unauthorized")
           (Sample.sys_with "pending")).
  reflexivity.
Defined.

Lemma approval_commits_in_order_witness :
  fst (handle_approve Sample.config Sample.env
         (QueueRow.to_request "req-1" (Sample.row "pending"))
         (Some "C024BE91L") (Some "1700000000.000100")
         (Sample.sys_with "pending"))
  = Return (jsonify [("status", "approved")] 200)
  /\ status_of "req-1"
       (store (snd (handle_approve Sample.config Sample.env
                      (QueueRow.to_request "req-1" (Sample.row "pending"))
                      (Some "C024BE91L") (Some "1700000000.000100")
                      (Sample.sys_with "pending"))))
     = Some "approved"
  /\ calls (snd (handle_approve Sample.config Sample.env
                   (QueueRow.to_request "req-1" (Sample.row "pending"))
                   (Some "C024BE91L") (Some "1700000000.000100")
                   (Sample.sys_with "pending")))
     = List.app (calls (Sample.sys_with "pending"))
         [ApolloCreateContact
            (approve_contact_args
               (QueueRow.to_request "req-1" (Sample.row "pending")));
          ApolloAddToSequence "c-9001" (APOLLO_SEQUENCE_ID Sample.config);
          SlackChatUpdate (Some "C024BE91L") (Some "1700000000.000100")
            CardApproved
            (QueueRow.to_request "req-1" (Sample.row "pending"))].
Proof.
  apply (approval_commits_in_order Sample.config Sample.env
           (QueueRow.to_request "req-1" (Sample.row "pending"))
           (Some "C024BE91L") (Some "1700000000.000100")
           (Sample.row "pending") "c-9001" (Sample.sys_with "pending"));
    try (intros log); vm_compute; reflexivity.
Defined.

Lemma approval_without_contact_id_witness :
  status_of "req-1"
    (store (snd (handle_approve Sample.config
                   (Scenario.world (Return [Sample.contact]) (Return (Some ""))
                      (Return tt) (Return "1700000000.000100") (Return tt)
                      (Return "Quick question"))
                   (QueueRow.to_request "req-1" (Sample.row "pending"))
                   (Some "C024BE91L") (Some "1700000000.000100")
                   (Sample.sys_with "pending"))))
  = Some "approved"
  /\ calls (snd (handle_approve Sample.config
                   (Scenario.world (Return [Sample.contact]) (Return (Some ""))
                      (Return tt) (Return "1700000000.000100") (Return tt)
                      (Return "Quick question"))
                   (QueueRow.to_request "req-1" (Sample.row "pending"))
                   (Some "C024BE91L") (Some "1700000000.000100")
                   (Sample.sys_with "pending")))
     = List.app (calls (Sample.sys_with "pending"))
         [ApolloCreateContact
            (approve_contact_args
               (QueueRow.to_request "req-1" (Sample.row "pending")));
          SlackChatUpdate (Some "C024BE91L") (Some "1700000000.000100")
            CardApproved
            (QueueRow.to_request "req-1" (Sample.row "pending"))].
Proof.
  apply (approval_without_contact_id Sample.config
           (Scenario.world (Return [Sample.contact]) (Return (Some ""))
              (Return tt) (Return "1700000000.000100") (Return tt)
              (Return "Quick question"))
           (QueueRow.to_request "req-1" (Sample.row "pending"))
           (Some "C024BE91L") (Some "1700000000.000100")
           (Sample.row "pending") (Some "") (Sample.sys_with "pending"));
    vm_compute; reflexivity.
Defined.

Lemma failed_card_update_keeps_the_approval_witness :
  status_of "req-1"
    (store (snd (handle_approve Sample.config Scenario.card_timeout
                   (QueueRow.to_request "req-1" (Sample.row "pending"))
                   (Some "C024BE91L") (Some "1700000000.000100")
                   (Sample.sys_with "pending"))))
  = Some "approved"
  /\ fst (handle_approve Sample.config Scenario.card_timeout
            (QueueRow.to_request "req-1" (Sample.row "pending"))
            (Some "C024BE91L") (Some "1700000000.000100")
            (Sample.sys_with "pending"))
     = Return (jsonify [("error", "The read operation timed out")] 500).
Proof.
  apply (failed_card_update_keeps_the_approval Sample.config
           Scenario.card_timeout
           (QueueRow.to_request "req-1" (Sample.row "pending"))
           (Some "C024BE91L") (Some "1700000000.000100")
           (Sample.row "pending") (Some "c-9001")
           (Scenario.failure OtherException "The read operation timed out")
           (Sample.sys_with "pending"));
    try (intros log); vm_compute; reflexivity.
Defined.

Lemma no_contact_means_no_request_witness :
  approval_queue
    (store (snd (handle_reporadar_webhook Json.dumps Json.loads Sample.config
                   Scenario.nobody (Return Sample.payload) "req-2"
                   (Sample.sys_with "pending"))))
  = approval_queue (store (Sample.sys_with "pending")).
Proof.
  apply (no_contact_means_no_request Json.dumps Json.loads Sample.config
           Scenario.nobody Sample.payload "req-2" (Sample.sys_with "pending")).
  vm_compute. reflexivity.
Defined.

Lemma no_email_means_no_request_witness :
  approval_queue
    (store (snd (handle_reporadar_webhook Json.dumps Json.loads Sample.config
                   Scenario.no_email (Return Sample.payload) "req-2"
                   (Sample.sys_with "pending"))))
  = approval_queue (store (Sample.sys_with "pending")).
Proof.
  apply (no_email_means_no_request Json.dumps Json.loads Sample.config
           Scenario.no_email Sample.payload "req-2"
           Scenario.contact_without_email [Sample.contact]
           (Sample.sys_with "pending")); vm_compute; reflexivity.
Defined.

Lemma unknown_provider_is_reported_as_bad_payload_witness :
  fst (handle_reporadar_webhook Json.dumps Json.loads
         {| APOLLO_SEQUENCE_ID := "seq-42";
            SLACK_SIGNING_SECRET := "8f742231b10e8888abcd99yyyzzz85a5";
            AI_PROVIDER := "openai";
            CACHE_EXPIRY_DAYS := 7 |}
         Sample.env (Return Sample.payload) "req-2"
         (Sample.sys_with "pending"))
  = Return (jsonify [("error", "Invalid payload");
                     ("details", "Unknown AI provider: openai")] 400).
Proof.
  apply (unknown_provider_is_reported_as_bad_payload Json.dumps Json.loads
           {| APOLLO_SEQUENCE_ID := "seq-42";
              SLACK_SIGNING_SECRET := "8f742231b10e8888abcd99yyyzzz85a5";
              AI_PROVIDER := "openai";
              CACHE_EXPIRY_DAYS := 7 |}
           Sample.env Sample.payload "req-2" Sample.contact []
           (Sample.sys_with "pending"));
    first [vm_compute; reflexivity | vm_compute; discriminate].
Defined.

Lemma webhook_stores_a_pending_request_witness :
  fst (handle_reporadar_webhook Json.dumps Json.loads Sample.config Sample.env
         (Return Sample.payload) "req-2" (Sample.sys_with "approved"))
  = Return (jsonify [("status", "pending_approval");
                     ("request_id", "req-2");
                     ("company", "Acme");
                     ("contact", "Ana Lima")] 200).
Proof.
  apply (webhook_stores_a_pending_request Json.dumps Json.loads Sample.config
           Sample.env Sample.payload "req-2" Sample.contact []
           "Quick question about your French launch" "1700000000.000100"
           (Sample.sys_with "approved"));
    try (intros log); try (intros r);
    first [vm_compute; reflexivity | left; reflexivity].
Defined.

Lemma failed_publication_leaves_an_untokened_request_witness :
  fst (handle_reporadar_webhook Json.dumps Json.loads Sample.config
         Scenario.slack_down (Return Sample.payload) "req-2"
         (Sample.sys_with "approved"))
  = Return (jsonify [("error", "Internal server error")] 500).
Proof.
  apply (failed_publication_leaves_an_untokened_request Json.dumps Json.loads
           Sample.config Scenario.slack_down Sample.payload "req-2"
           Sample.contact [] "Quick question about your French launch"
           (Scenario.failure SlackApiError "channel_not_found")
           (Sample.sys_with "approved"));
    try (intros log); try (intros r);
    first [vm_compute; reflexivity | left; reflexivity].
Defined.

Lemma stored_request_is_kept_witness :
  exists after,
    stored_request "req-1"
      (store (serve Sample.hexdigest Json.dumps Json.loads Sample.config
                Sample.env
                [SlackInteraction (Sample.signed "1700000000" "skip_lead");
                 Webhook (Return Sample.payload) "req-2";
                 SlackInteraction (Sample.signed "1700000000" "approve_lead")]
                (Sample.sys_with "pending")))
    = Some after
    /\ same_lead (QueueRow.to_request "req-1" (Sample.row "pending")) after.
Proof.
  apply (stored_request_is_kept Sample.hexdigest Json.dumps Json.loads
           Sample.config Sample.env
           [SlackInteraction (Sample.signed "1700000000" "skip_lead");
            Webhook (Return Sample.payload) "req-2";
            SlackInteraction (Sample.signed "1700000000" "approve_lead")]
           "req-1" (QueueRow.to_request "req-1" (Sample.row "pending"))
           (Sample.sys_with "pending")).
  vm_compute. reflexivity.
Defined.

Lemma parsed_email_is_not_empty_witness :
  fst (_parse_email_response "SUBJECT:") <> ""
  /\ snd (_parse_email_response "SUBJECT:") <> "".
Proof.
  apply (parsed_email_is_not_empty "SUBJECT:").
  vm_compute. discriminate.
Defined.
